(** * Network Firewall TLS inspection configuration and Service Catalog
      service action: structural mappers and lifecycle reconciliation

    Shallow embedding of
    - [internal/service/networkfirewall/tls_inspection_configuration.go]
    - [internal/service/servicecatalog/service_action.go]

    Conventions.
    - A Go pointer [*T] is [option T]; [None] is the nil pointer.
    - A Go slice [[]T] is [slice T = option (list T)]; [None] is the nil
      slice and [Some []] the empty, non-nil slice.
    - A Go map is [option (gmap string V)]; [None] is the nil map.
    - [int64] values are [Z]; the mappers only copy them.
    - A nil dereference (a Go runtime panic) is an explicit outcome. *)

From stdpp Require Import base option list strings gmap fin_maps.
From Stdlib Require Import ZArith Lia.

Set Default Proof Using "Type".
Open Scope string_scope.
Open Scope list_scope.
Open Scope nat_scope.

(** ** Go values *)

Definition slice (A : Type) : Type := option (list A).

(** [len(s)] *)
Definition len {A} (s : slice A) : nat :=
  match s with None => 0 | Some l => length l end.

(** [for _, x := range s] visits these elements, in order. *)
Definition range {A} (s : slice A) : list A :=
  match s with None => [] | Some l => l end.

(** [append(s, x)]: the result is never the nil slice. *)
Definition append {A} (s : slice A) (x : A) : slice A := Some (range s ++ [x]).

(** ** Package [aws]: pointer helpers of the AWS SDK *)
Module aws.
Definition String (v : string) : option string := Some v.
Definition Int64 (v : Z) : option Z := Some v.
Definition ToString (p : option string) : string :=
  match p with None => "" | Some s => s end.
End aws.

(** ** Errors and diagnostics

    A Go [error] value is [option error]; [None] is the nil error. *)
#[warnings="-register-all"]
Inductive error : Type :=
| AWSError (code : string) (message : string)
    (* an error returned by the remote service, with its error code *)
| errorString (s : string)
    (* [errors.New(s)] *)
| NotFoundError (LastError : option error)
    (* [retry.NotFoundError] *)
| EmptyResultError
    (* [tfresource.NewEmptyResultError] *)
| UnexpectedStateError (LastState : string)
    (* [retry.UnexpectedStateError] *)
| TimeoutError (LastError : option error).
    (* [retry.TimeoutError] *)

(** One entry of [diag.Diagnostics]; every entry the resources add is an
    error. [summary] names the failing phase, [cause] is the underlying
    error when there is one. *)
Inductive diagnostic : Type :=
| ErrorDiagnostic (summary : string) (cause : option error).

(** [diags.HasError()] *)
Definition HasError (diags : list diagnostic) : bool :=
  match diags with [] => false | _ :: _ => true end.

(** ** Package [types]: tri-state values of the plugin framework *)
Module types.
Inductive String : Type :=
| StringNull
| StringUnknown
| StringValue (s : string).

Inductive Int64 : Type :=
| Int64Null
| Int64Unknown
| Int64Value (i : Z).

(** A list value with elements of a fixed type [A]. *)
Inductive List (A : Type) : Type :=
| ListNull
| ListUnknown
| ListValue (elems : list A).
Arguments ListNull {A}.
Arguments ListUnknown {A}.
Arguments ListValue {A} elems.

Definition String_IsNull (v : String) : bool :=
  match v with StringNull => true | _ => false end.
Definition List_IsNull {A} (v : List A) : bool :=
  match v with ListNull => true | _ => false end.

(** [ValueString] / [ValueInt64]: the zero value unless known. *)
Definition ValueString (v : String) : string :=
  match v with StringValue s => s | _ => "" end.
Definition ValueInt64 (v : Int64) : Z :=
  match v with Int64Value i => i | _ => 0%Z end.

(** [Equal]: same state and, when known, same content. *)
Definition String_Equal (a b : String) : bool :=
  match a, b with
  | StringNull, StringNull => true
  | StringUnknown, StringUnknown => true
  | StringValue x, StringValue y => bool_decide (x = y)
  | _, _ => false
  end.

(** [ElementsAs(ctx, &target, false)] into a slice of structs: a known
    list yields its elements, a null list the zero slice; an unknown list
    is reported in the diagnostics and leaves [target] as it was. *)
Definition ElementsAs {A} (v : List A) (target : list A) : list A :=
  match v with
  | ListValue l => l
  | ListNull => []
  | ListUnknown => target
  end.

(** The diagnostics returned by [ElementsAs]. *)
Definition ElementsAs_diags {A} (v : List A) : list diagnostic :=
  match v with
  | ListUnknown => [ErrorDiagnostic "Value Conversion Error" None]
  | _ => []
  end.

(** [ElementsAs] of a list of [Int64] into [[]*int64]: a null element is
    the nil pointer; an unknown element (or list) fails the conversion and
    leaves [target] as it was. *)
Definition Int64_pointer (v : Int64) : option (option Z) :=
  match v with
  | Int64Value i => Some (Some i)
  | Int64Null => Some None
  | Int64Unknown => None
  end.

Definition ElementsAs_Int64 (v : List Int64) (target : slice (option Z))
  : slice (option Z) :=
  match v with
  | ListValue l =>
      match mapM Int64_pointer l with
      | Some ps => Some ps
      | None => target
      end
  | ListNull => None
  | ListUnknown => target
  end.
End types.

(** ** Package [flex] *)
Module flex.
(** Modelled from the spec: [flex.StringToFramework] belongs to the
    provider's internal/framework/flex package, whose code is missing from
    the two files of this development; "each payload field with an absent
    value is mapped to a null node; each present field maps to a known
    node". *)
Definition StringToFramework (v : option string) : types.String :=
  match v with
  | None => types.StringNull
  | Some s => types.StringValue s
  end.

(** Modelled from the spec: [flex.Int64ToFramework], missing like
    [flex.StringToFramework] and described by the same sentence. *)
Definition Int64ToFramework (v : option Z) : types.Int64 :=
  match v with
  | None => types.Int64Null
  | Some i => types.Int64Value i
  end.

(** Modelled from the spec: [flex.StringValueToFramework], missing like
    [flex.StringToFramework]; it receives a present value, and "each
    present field maps to a known node". *)
Definition StringValueToFramework (v : string) : types.String :=
  types.StringValue v.
End flex.

(** ** Package [networkfirewall]: the wire-level payload *)
Module networkfirewall.
Record PortRange : Type := {
  FromPort : option Z;
  ToPort : option Z;
}.

Record Address : Type := {
  AddressDefinition : option string;
}.

Record ServerCertificateScope : Type := {
  DestinationPorts : slice (option PortRange);
  Destinations : slice (option Address);
  Protocols : slice (option Z);
  SourcePorts : slice (option PortRange);
  Sources : slice (option Address);
}.

Record CheckCertificateRevocationStatusActions : Type := {
  RevokedStatusAction : option string;
  UnknownStatusAction : option string;
}.

Record ServerCertificate : Type := {
  ResourceArn : option string;
}.

Record ServerCertificateConfiguration : Type := {
  CertificateAuthorityArn : option string;
  CheckCertificateRevocationStatus : option CheckCertificateRevocationStatusActions;
  Scopes : slice (option ServerCertificateScope);
  ServerCertificates : slice (option ServerCertificate);
}.

Record TLSInspectionConfiguration : Type := {
  ServerCertificateConfigurations : slice (option ServerCertificateConfiguration);
}.

Record EncryptionConfiguration : Type := {
  KeyId : option string;
  Type_ : option string;
}.

Record TlsCertificateData : Type := {
  CertificateArn : option string;
  CertificateSerial : option string;
  Status : option string;
  StatusMessage : option string;
}.

(** The response part shared by the describe, create and update outputs.
    [LastModifiedTime] is a [*time.Time]; it is kept as the text that
    [Format(time.RFC3339)] gives for it. *)
Record TLSInspectionConfigurationResponse : Type := {
  Description : option string;
  LastModifiedTime : option string;
  NumberOfAssociations : option Z;
  TLSInspectionConfigurationArn : option string;
  TLSInspectionConfigurationId : option string;
  TLSInspectionConfigurationName : option string;
  TLSInspectionConfigurationStatus : option string;
  Response_EncryptionConfiguration : option EncryptionConfiguration;
  CertificateAuthority : option TlsCertificateData;
  Certificates : slice (option TlsCertificateData);
}.

Record DescribeTLSInspectionConfigurationOutput : Type := {
  DescribeOutput_TLSInspectionConfiguration : option TLSInspectionConfiguration;
  DescribeOutput_TLSInspectionConfigurationResponse : option TLSInspectionConfigurationResponse;
  DescribeOutput_UpdateToken : option string;
}.

Record CreateTLSInspectionConfigurationInput : Type := {
  CreateInput_TLSInspectionConfigurationName : option string;
  CreateInput_Description : option string;
  CreateInput_TLSInspectionConfiguration : option TLSInspectionConfiguration;
  CreateInput_EncryptionConfiguration : option EncryptionConfiguration;
}.

Record CreateTLSInspectionConfigurationOutput : Type := {
  CreateOutput_TLSInspectionConfigurationResponse : option TLSInspectionConfigurationResponse;
  CreateOutput_UpdateToken : option string;
}.

Record UpdateTLSInspectionConfigurationInput : Type := {
  UpdateInput_TLSInspectionConfigurationArn : option string;
  UpdateInput_TLSInspectionConfigurationName : option string;
  UpdateInput_UpdateToken : option string;
  UpdateInput_Description : option string;
  UpdateInput_TLSInspectionConfiguration : option TLSInspectionConfiguration;
  UpdateInput_EncryptionConfiguration : option EncryptionConfiguration;
}.

Record UpdateTLSInspectionConfigurationOutput : Type := {
  UpdateOutput_TLSInspectionConfigurationResponse : option TLSInspectionConfigurationResponse;
  UpdateOutput_UpdateToken : option string;
}.

Definition ResourceStatusActive : string := "ACTIVE".
Definition ResourceStatusDeleting : string := "DELETING".
End networkfirewall.

(** ** The declarative configuration tree of the TLS inspection resource *)

Record encryptionConfigurationData : Type := {
  Type_ : types.String;
  KeyId : types.String;
}.

Record certificatesData : Type := {
  CertificateArn : types.String;
  CertificateSerial : types.String;
  certificatesData_Status : types.String;
  StatusMessage : types.String;
}.

Record sourceDestinationData : Type := {
  AddressDefinition : types.String;
}.

Record portRangeData : Type := {
  FromPort : types.Int64;
  ToPort : types.Int64;
}.

Record scopeData : Type := {
  DestinationPorts : types.List portRangeData;
  Destinations : types.List sourceDestinationData;
  Protocols : types.List types.Int64;
  SourcePorts : types.List portRangeData;
  Sources : types.List sourceDestinationData;
}.

Record checkCertificateRevocationStatusData : Type := {
  RevokedStatusAction : types.String;
  UnknownStatusAction : types.String;
}.

Record serverCertificatesData : Type := {
  ResourceARN : types.String;
}.

Record serverCertificateConfigurationsData : Type := {
  CertificateAuthorityArn : types.String;
  CheckCertificateRevocationsStatus : types.List checkCertificateRevocationStatusData;
  Scope : types.List scopeData;
  ServerCertificates : types.List serverCertificatesData;
}.

Record tlsInspectionConfigurationData : Type := {
  ServerCertificateConfiguration : types.List serverCertificateConfigurationsData;
}.


(** ** Runtime faults

    A computation either returns or dies of a nil dereference. *)
Inductive outcome (A : Type) : Type :=
| Return (a : A)
| Panic.
Arguments Return {A} a.
Arguments Panic {A}.

(** Dereferencing a pointer to read one of its fields. *)
Definition deref {A} (p : option A) : outcome A :=
  match p with Some a => Return a | None => Panic end.

Definition outcome_bind {A B} (x : outcome A) (k : A -> outcome B) : outcome B :=
  match x with Return a => k a | Panic => Panic end.

(** ** Structural mapper, TLS inspection configuration: expand *)

Definition expandTLSEncryptionConfiguration (tfList : list encryptionConfigurationData)
  : option networkfirewall.EncryptionConfiguration :=
  match tfList with
  | [] => None
  | tfObj :: _ =>
      Some {| networkfirewall.KeyId := aws.String (types.ValueString (KeyId tfObj));
              networkfirewall.Type_ := aws.String (types.ValueString (Type_ tfObj)) |}
  end.

Definition expandSourceDestinations (tfList : list sourceDestinationData)
  : slice (option networkfirewall.Address) :=
  fold_left
    (fun apiObject tfObj =>
       let item :=
         {| networkfirewall.AddressDefinition :=
              aws.String (types.ValueString (AddressDefinition tfObj)) |} in
       append apiObject (Some item))
    tfList None.

Definition expandPortRange (tfList : list portRangeData)
  : slice (option networkfirewall.PortRange) :=
  fold_left
    (fun apiObject tfObj =>
       let item :=
         {| networkfirewall.FromPort := aws.Int64 (types.ValueInt64 (FromPort tfObj));
            networkfirewall.ToPort := aws.Int64 (types.ValueInt64 (ToPort tfObj)) |} in
       append apiObject (Some item))
    tfList None.

Definition expandScopes (tfList : list scopeData)
  : slice (option networkfirewall.ServerCertificateScope) :=
  fold_left
    (fun apiObject tfObj =>
       let item :=
         {| networkfirewall.Protocols :=
              if types.List_IsNull (Protocols tfObj) then None
              else types.ElementsAs_Int64 (Protocols tfObj) (Some []);
            networkfirewall.DestinationPorts :=
              if types.List_IsNull (DestinationPorts tfObj) then None
              else expandPortRange (types.ElementsAs (DestinationPorts tfObj) []);
            networkfirewall.Destinations :=
              if types.List_IsNull (Destinations tfObj) then None
              else expandSourceDestinations (types.ElementsAs (Destinations tfObj) []);
            networkfirewall.SourcePorts :=
              if types.List_IsNull (SourcePorts tfObj) then None
              else expandPortRange (types.ElementsAs (SourcePorts tfObj) []);
            networkfirewall.Sources :=
              if types.List_IsNull (Sources tfObj) then None
              else expandSourceDestinations (types.ElementsAs (Sources tfObj) []) |} in
       append apiObject (Some item))
    tfList None.

Definition expandServerCertificates (tfList : list serverCertificatesData)
  : slice (option networkfirewall.ServerCertificate) :=
  fold_left
    (fun apiObject item =>
       let conf :=
         {| networkfirewall.ResourceArn :=
              aws.String (types.ValueString (ResourceARN item)) |} in
       append apiObject (Some conf))
    tfList None.

Definition expandCheckCertificateRevocationStatus
    (tfList : list checkCertificateRevocationStatusData)
  : option networkfirewall.CheckCertificateRevocationStatusActions :=
  match tfList with
  | [] => None
  | tfObj :: _ =>
      Some {| networkfirewall.RevokedStatusAction :=
                aws.String (types.ValueString (RevokedStatusAction tfObj));
              networkfirewall.UnknownStatusAction :=
                aws.String (types.ValueString (UnknownStatusAction tfObj)) |}
  end.

Definition expandServerCertificateConfigurations
    (tfList : list serverCertificateConfigurationsData)
  : slice (option networkfirewall.ServerCertificateConfiguration) :=
  fold_left
    (fun apiObject item =>
       let conf :=
         {| networkfirewall.CertificateAuthorityArn :=
              if types.String_IsNull (CertificateAuthorityArn item) then None
              else aws.String (types.ValueString (CertificateAuthorityArn item));
            networkfirewall.CheckCertificateRevocationStatus :=
              if types.List_IsNull (CheckCertificateRevocationsStatus item) then None
              else expandCheckCertificateRevocationStatus
                     (types.ElementsAs (CheckCertificateRevocationsStatus item) []);
            networkfirewall.Scopes :=
              if types.List_IsNull (Scope item) then None
              else expandScopes (types.ElementsAs (Scope item) []);
            networkfirewall.ServerCertificates :=
              if types.List_IsNull (ServerCertificates item) then None
              else expandServerCertificates
                     (types.ElementsAs (ServerCertificates item) []) |} in
       append apiObject (Some conf))
    tfList None.

Definition expandTLSInspectionConfiguration (tfList : list tlsInspectionConfigurationData)
  : option networkfirewall.TLSInspectionConfiguration :=
  match tfList with
  | [] => None
  | tfObj :: _ =>
      let serverCertConfig :=
        types.ElementsAs (ServerCertificateConfiguration tfObj) [] in
      Some {| networkfirewall.ServerCertificateConfigurations :=
                expandServerCertificateConfigurations serverCertConfig |}
  end.

(** ** Structural mapper, TLS inspection configuration: flatten

    [types.ObjectValue] and [types.ListValue] report a diagnostic only when
    an attribute or an element does not have the declared type. Every
    flattener but [flattenCertificates] builds values of the declared types,
    so its diagnostics are empty; only the list value is returned. *)

Definition flattenTLSEncryptionConfiguration
    (encryptionConfiguration : option networkfirewall.EncryptionConfiguration)
  : types.List encryptionConfigurationData :=
  match encryptionConfiguration with
  | None => types.ListNull
  | Some ec =>
      types.ListValue
        [ {| KeyId := flex.StringToFramework (networkfirewall.KeyId ec);
             Type_ := flex.StringToFramework (networkfirewall.Type_ ec) |} ]
  end.

Definition flattenPortRange (ranges : slice (option networkfirewall.PortRange))
  : types.List portRangeData :=
  if Nat.eqb (len ranges) 0 then types.ListNull
  else
    types.ListValue
      (fold_left
         (fun elems portRange =>
            match portRange with
            | None => elems
            | Some pr =>
                elems ++ [ {| FromPort := flex.Int64ToFramework (networkfirewall.FromPort pr);
                              ToPort := flex.Int64ToFramework (networkfirewall.ToPort pr) |} ]
            end)
         (range ranges) []).

Definition flattenSourceDestinations (destinations : slice (option networkfirewall.Address))
  : types.List sourceDestinationData :=
  if Nat.eqb (len destinations) 0 then types.ListNull
  else
    types.ListValue
      (fold_left
         (fun elems destination =>
            match destination with
            | None => elems
            | Some d =>
                elems ++ [ {| AddressDefinition :=
                                flex.StringToFramework (networkfirewall.AddressDefinition d) |} ]
            end)
         (range destinations) []).

Definition flattenProtocols (list : slice (option Z)) : types.List types.Int64 :=
  if Nat.eqb (len list) 0 then types.ListNull
  else
    types.ListValue
      (fold_left
         (fun elems item =>
            match item with
            | None => elems
            | Some i => elems ++ [types.Int64Value i]
            end)
         (range list) []).

Definition flattenScopes (scopes : slice (option networkfirewall.ServerCertificateScope))
  : types.List scopeData :=
  if Nat.eqb (len scopes) 0 then types.ListNull
  else
    types.ListValue
      (fold_left
         (fun elems scope =>
            match scope with
            | None => elems
            | Some sc =>
                elems ++
                [ {| DestinationPorts := flattenPortRange (networkfirewall.DestinationPorts sc);
                     Destinations := flattenSourceDestinations (networkfirewall.Destinations sc);
                     Protocols := flattenProtocols (networkfirewall.Protocols sc);
                     SourcePorts := flattenPortRange (networkfirewall.SourcePorts sc);
                     Sources := flattenSourceDestinations (networkfirewall.Sources sc) |} ]
            end)
         (range scopes) []).

Definition flattenTLSCertificate (certificate : option networkfirewall.TlsCertificateData)
  : types.List certificatesData :=
  match certificate with
  | None => types.ListNull
  | Some c =>
      types.ListValue
        [ {| CertificateArn := flex.StringToFramework (networkfirewall.CertificateArn c);
             CertificateSerial := flex.StringToFramework (networkfirewall.CertificateSerial c);
             certificatesData_Status := flex.StringToFramework (networkfirewall.Status c);
             StatusMessage := flex.StringToFramework (networkfirewall.StatusMessage c) |} ]
  end.

(** [flattenCertificates] declares the object type of one certificate as
    element type and appends, for each certificate, the one-element list
    that [flattenTLSCertificate] returns: [types.ListValue] reports the
    mismatch as soon as there is an element and returns the unknown list. *)
Definition flattenCertificates (certificateList : slice (option networkfirewall.TlsCertificateData))
  : types.List certificatesData :=
  if Nat.eqb (len certificateList) 0 then types.ListNull
  else
    let elems :=
      fold_left
        (fun elems certificate =>
           match certificate with
           | None => elems
           | Some _ => elems ++ [flattenTLSCertificate certificate]
           end)
        (range certificateList) [] in
    match elems with
    | [] => types.ListValue []
    | _ :: _ => types.ListUnknown
    end.

Definition flattenServerCertificates
    (serverCertificateList : slice (option networkfirewall.ServerCertificate))
  : types.List serverCertificatesData :=
  if Nat.eqb (len serverCertificateList) 0 then types.ListNull
  else
    types.ListValue
      (fold_left
         (fun elems serverCertificate =>
            match serverCertificate with
            | None => elems
            | Some c =>
                elems ++ [ {| ResourceARN :=
                                flex.StringToFramework (networkfirewall.ResourceArn c) |} ]
            end)
         (range serverCertificateList) []).

Definition flattenCheckCertificateRevocationStatus
    (checkCertificateRevocationStatus :
       option networkfirewall.CheckCertificateRevocationStatusActions)
  : types.List checkCertificateRevocationStatusData :=
  match checkCertificateRevocationStatus with
  | None => types.ListNull
  | Some c =>
      types.ListValue
        [ {| RevokedStatusAction :=
               flex.StringToFramework (networkfirewall.RevokedStatusAction c);
             UnknownStatusAction :=
               flex.StringToFramework (networkfirewall.UnknownStatusAction c) |} ]
  end.

(** The guard is [== nil], not [len(..) == 0]; the loop reads the fields
    of every element without a nil check. *)
Definition flattenServerCertificateConfigurations
    (serverCertificateConfigurations :
       slice (option networkfirewall.ServerCertificateConfiguration))
  : outcome (types.List serverCertificateConfigurationsData) :=
  match serverCertificateConfigurations with
  | None => Return types.ListNull
  | Some l =>
      outcome_bind
        (fold_left
           (fun acc serverCertificateConfiguration =>
              outcome_bind acc (fun elems =>
              outcome_bind (deref serverCertificateConfiguration) (fun scc =>
              Return
                (elems ++
                 [ {| CertificateAuthorityArn :=
                        flex.StringToFramework (networkfirewall.CertificateAuthorityArn scc);
                      CheckCertificateRevocationsStatus :=
                        flattenCheckCertificateRevocationStatus
                          (networkfirewall.CheckCertificateRevocationStatus scc);
                      Scope := flattenScopes (networkfirewall.Scopes scc);
                      ServerCertificates :=
                        flattenServerCertificates (networkfirewall.ServerCertificates scc) |} ]))))
           l (Return []))
        (fun elems => Return (types.ListValue elems))
  end.

Definition flattenTLSInspectionConfiguration
    (tlsInspectionConfiguration : option networkfirewall.TLSInspectionConfiguration)
  : outcome (types.List tlsInspectionConfigurationData) :=
  match tlsInspectionConfiguration with
  | None => Return types.ListNull
  | Some c =>
      outcome_bind
        (flattenServerCertificateConfigurations
           (networkfirewall.ServerCertificateConfigurations c))
        (fun flattenedConfig =>
           Return (types.ListValue
                     [ {| ServerCertificateConfiguration := flattenedConfig |} ]))
  end.

(** ** Structural mapper, service action definition *)

(** A value of type [interface{}] held by a configuration map. *)
Inductive any : Type :=
| anyString (s : string)
| anyInt (i : Z)
| anyBool (b : bool).

(** The type assertion [v.(string)] on the result of a map lookup. *)
Definition assertString (v : option any) : option string :=
  match v with
  | Some (anyString s) => Some s
  | _ => None
  end.

Module servicecatalog_types.
Definition ServiceActionDefinitionKeyName : string := "Name".
Definition ServiceActionDefinitionKeyVersion : string := "Version".
Definition ServiceActionDefinitionKeyAssumeRole : string := "AssumeRole".
Definition ServiceActionDefinitionKeyParameters : string := "Parameters".
Definition ServiceActionDefinitionTypeSsmAutomation : string := "SSM_AUTOMATION".
End servicecatalog_types.

(** [if v, ok := tfMap[key].(string); ok && v != "" { apiObject[apiKey] = aws.String(v) }] *)
Definition expandKey (tfMap : gmap string any) (key apiKey : string)
    (apiObject : gmap string (option string)) : gmap string (option string) :=
  match assertString (tfMap !! key) with
  | Some v => if bool_decide (v = "") then apiObject else <[apiKey := aws.String v]> apiObject
  | None => apiObject
  end.

Definition expandServiceActionDefinition (tfMap : option (gmap string any))
  : option (gmap string (option string)) :=
  match tfMap with
  | None => None
  | Some tfMap =>
      let apiObject : gmap string (option string) := ∅ in
      let apiObject :=
        expandKey tfMap "assume_role" servicecatalog_types.ServiceActionDefinitionKeyAssumeRole apiObject in
      let apiObject :=
        expandKey tfMap "name" servicecatalog_types.ServiceActionDefinitionKeyName apiObject in
      let apiObject :=
        expandKey tfMap "parameters" servicecatalog_types.ServiceActionDefinitionKeyParameters apiObject in
      let apiObject :=
        expandKey tfMap "version" servicecatalog_types.ServiceActionDefinitionKeyVersion apiObject in
      Some apiObject
  end.

(** [if v, ok := apiObject[apiKey]; ok && v != nil { tfMap[key] = aws.ToString(v) }] *)
Definition flattenKey (apiObject : gmap string (option string)) (apiKey key : string)
    (tfMap : gmap string any) : gmap string any :=
  match apiObject !! apiKey with
  | Some (Some v) => <[key := anyString (aws.ToString (Some v))]> tfMap
  | _ => tfMap
  end.

Definition flattenServiceActionDefinition (apiObject : option (gmap string (option string)))
    (definitionType : string) : option (gmap string any) :=
  match apiObject with
  | None => None
  | Some apiObject =>
      let tfMap : gmap string any := ∅ in
      let tfMap :=
        flattenKey apiObject servicecatalog_types.ServiceActionDefinitionKeyAssumeRole "assume_role" tfMap in
      let tfMap :=
        flattenKey apiObject servicecatalog_types.ServiceActionDefinitionKeyName "name" tfMap in
      let tfMap :=
        flattenKey apiObject servicecatalog_types.ServiceActionDefinitionKeyParameters "parameters" tfMap in
      let tfMap :=
        flattenKey apiObject servicecatalog_types.ServiceActionDefinitionKeyVersion "version" tfMap in
      let tfMap :=
        if bool_decide (definitionType = "") then tfMap
        else <["type" := anyString definitionType]> tfMap in
      Some tfMap
  end.

(** ** Equality of configuration values

    [Equal] on framework values is structural; with statically typed
    elements it is equality of the embedded values. *)

#[global] Instance String_eq_dec : EqDecision types.String.
Proof. solve_decision. Defined.
#[global] Instance Int64_eq_dec : EqDecision types.Int64.
Proof. solve_decision. Defined.
#[global] Instance List_eq_dec {A} `{EqDecision A} : EqDecision (types.List A).
Proof. solve_decision. Defined.
#[global] Instance encryptionConfigurationData_eq_dec : EqDecision encryptionConfigurationData.
Proof. solve_decision. Defined.
#[global] Instance certificatesData_eq_dec : EqDecision certificatesData.
Proof. solve_decision. Defined.
#[global] Instance sourceDestinationData_eq_dec : EqDecision sourceDestinationData.
Proof. solve_decision. Defined.
#[global] Instance portRangeData_eq_dec : EqDecision portRangeData.
Proof. solve_decision. Defined.
#[global] Instance scopeData_eq_dec : EqDecision scopeData.
Proof. solve_decision. Defined.
#[global] Instance checkCertificateRevocationStatusData_eq_dec :
  EqDecision checkCertificateRevocationStatusData.
Proof. solve_decision. Defined.
#[global] Instance serverCertificatesData_eq_dec : EqDecision serverCertificatesData.
Proof. solve_decision. Defined.
#[global] Instance serverCertificateConfigurationsData_eq_dec :
  EqDecision serverCertificateConfigurationsData.
Proof. solve_decision. Defined.
#[global] Instance tlsInspectionConfigurationData_eq_dec :
  EqDecision tlsInspectionConfigurationData.
Proof. solve_decision. Defined.
#[global] Instance any_eq_dec : EqDecision any.
Proof. solve_decision. Defined.

(** [a.Equal(b)] for list values. *)
Definition List_Equal {A} `{EqDecision A} (a b : types.List A) : bool :=
  bool_decide (a = b).

(** ** Package [servicecatalog]: the wire-level payload of service actions *)
Module servicecatalog.
Record CreateServiceActionInput : Type := {
  CreateInput_IdempotencyToken : option string;
  CreateInput_Name : option string;
  CreateInput_Definition : option (gmap string (option string));
  CreateInput_DefinitionType : string;
  CreateInput_AcceptLanguage : option string;
  CreateInput_Description : option string;
}.

Record UpdateServiceActionInput : Type := {
  UpdateInput_Id : option string;
  UpdateInput_AcceptLanguage : option string;
  UpdateInput_Definition : option (gmap string (option string));
  UpdateInput_Description : option string;
  UpdateInput_Name : option string;
}.

Record ServiceActionSummary : Type := {
  Id : option string;
  Name : option string;
  Description : option string;
  DefinitionType : option string;
}.

Record ServiceActionDetail : Type := {
  Definition_ : option (gmap string (option string));
  ServiceActionSummary_ : option ServiceActionSummary;
}.

Record CreateServiceActionOutput : Type := {
  CreateOutput_ServiceActionDetail : option ServiceActionDetail;
}.
End servicecatalog.

(** ** The remote service

    Every remote call is recorded in a trace. The answer of the service to
    a call is a function of the call and of the number of calls made before
    it, which covers every behaviour of the service along one execution. *)

Inductive Call : Type :=
| CreateTLSInspectionConfiguration (input : networkfirewall.CreateTLSInspectionConfigurationInput)
| DescribeTLSInspectionConfiguration (TLSInspectionConfigurationArn : option string)
| UpdateTLSInspectionConfiguration (input : networkfirewall.UpdateTLSInspectionConfigurationInput)
| DeleteTLSInspectionConfiguration (TLSInspectionConfigurationArn : option string)
| CreateServiceAction (input : servicecatalog.CreateServiceActionInput)
| UpdateServiceAction (input : servicecatalog.UpdateServiceActionInput)
| DeleteServiceAction (Id : option string)
| ServiceActionReady (acceptLanguage id : string)
| ServiceActionDeleted (acceptLanguage id : string).

(** The calls that change the remote object. *)
Definition mutating (c : Call) : bool :=
  match c with
  | CreateTLSInspectionConfiguration _
  | UpdateTLSInspectionConfiguration _
  | DeleteTLSInspectionConfiguration _
  | CreateServiceAction _
  | UpdateServiceAction _
  | DeleteServiceAction _ => true
  | DescribeTLSInspectionConfiguration _
  | ServiceActionReady _ _
  | ServiceActionDeleted _ _ => false
  end.

Definition isDescribe (c : Call) : bool :=
  match c with DescribeTLSInspectionConfiguration _ => true | _ => false end.

(** The transport client. Each operation returns a Go pair [(out, err)].

    [WaitServiceActionReady] and [WaitServiceActionDeleted] are the waiters
    of the servicecatalog package, defined in its wait.go and only called
    by service_action.go; they read the remote object until it settles and
    are taken as part of the interface. *)
Record Conn : Type := {
  conn_CreateTLSInspectionConfiguration :
    nat -> networkfirewall.CreateTLSInspectionConfigurationInput ->
    option networkfirewall.CreateTLSInspectionConfigurationOutput * option error;
  conn_DescribeTLSInspectionConfiguration :
    nat -> option string ->
    option networkfirewall.DescribeTLSInspectionConfigurationOutput * option error;
  conn_UpdateTLSInspectionConfiguration :
    nat -> networkfirewall.UpdateTLSInspectionConfigurationInput ->
    option networkfirewall.UpdateTLSInspectionConfigurationOutput * option error;
  conn_DeleteTLSInspectionConfiguration :
    nat -> option string -> option error;
  conn_CreateServiceAction :
    nat -> servicecatalog.CreateServiceActionInput ->
    option servicecatalog.CreateServiceActionOutput * option error;
  conn_UpdateServiceAction :
    nat -> servicecatalog.UpdateServiceActionInput -> option error;
  conn_DeleteServiceAction :
    nat -> option string -> option error;
  conn_WaitServiceActionReady :
    nat -> string -> string -> option servicecatalog.ServiceActionDetail * option error;
  conn_WaitServiceActionDeleted :
    nat -> string -> string -> option error;
}.

(** ** Computations that talk to the remote service *)

Definition World : Type := list Call.

Definition M (A : Type) : Type := World -> outcome A * World.

Definition ret {A} (a : A) : M A := fun w => (Return a, w).

Definition bind {A B} (m : M A) (k : A -> M B) : M B :=
  fun w =>
    match m w with
    | (Return a, w') => k a w'
    | (Panic, w') => (Panic, w')
    end.

Definition lift {A} (o : outcome A) : M A := fun w => (o, w).

(** Issue one remote call: record it, and read the answer that the service
    gives at this point of the execution. *)
Definition remote {R} (c : Call) (answer : nat -> R) : M R :=
  fun w => (Return (answer (length w)), w ++ [c]).

Declare Scope go_scope.
Delimit Scope go_scope with go.
Notation "x <- m ;; k" := (bind m (fun x => k))
  (at level 100, m at next level, right associativity) : go_scope.
Open Scope go_scope.

(** The number of mutating calls in a trace, and the number of probes. *)
Definition mutatingCalls (w : World) : nat := length (List.filter mutating w).
Definition probes (w : World) : nat := length (List.filter isDescribe w).

(** ** Package [errs]: classification of remote errors *)
Module errs.
(** Modelled from the spec: [errs.IsA], of the provider's internal/errs
    package, is missing from the two files of this development; it
    recognises "a distinguished not found signal from the remote call" and
    its siblings by the error code the service returned, looking through
    the errors that wrap a last error. *)
Fixpoint IsA_error (code : string) (err : error) : bool :=
  match err with
  | AWSError c _ => bool_decide (c = code)
  | NotFoundError (Some e) => IsA_error code e
  | TimeoutError (Some e) => IsA_error code e
  | _ => false
  end.

Definition IsA (code : string) (err : option error) : bool :=
  match err with None => false | Some e => IsA_error code e end.

(** [err.Error()] of an error of the remote service. *)
Definition Error (err : error) : string :=
  match err with
  | AWSError c m => c ++ ": " ++ m
  | errorString s => s
  | NotFoundError _ => "couldn't find resource"
  | EmptyResultError => "empty result"
  | UnexpectedStateError s => "unexpected state '" ++ s ++ "'"
  | TimeoutError _ => "timeout while waiting for state"
  end%string.

(** [strings.Contains] *)
Definition strings_Contains (s substr : string) : bool :=
  match String.index 0 substr s with Some _ => true | None => false end.

(** Modelled from the spec: [errs.Contains], missing like [errs.IsA];
    retries are "only for a narrow, explicitly enumerated set of transient
    error signatures", matched on the text of the error. *)
Definition Contains (err : option error) (needle : string) : bool :=
  match err with None => false | Some e => strings_Contains (Error e) needle end.
End errs.

Definition ResourceNotFoundException : string := "ResourceNotFoundException".
Definition ResourceInUseException : string := "ResourceInUseException".

(** ** Package [tfresource] *)
Module tfresource.
(** Modelled from the spec: [tfresource.NotFound], of the provider's
    internal/tfresource package, is missing from the two files of this
    development; it recognises the finder's "distinguished not found
    signal". *)
Definition NotFound (err : option error) : bool :=
  match err with
  | Some (NotFoundError _) => true
  | _ => false
  end.

(** Modelled from the spec: [tfresource.TimedOut], missing like
    [tfresource.NotFound]; it recognises "a timed-out retry context": the
    retry loop ran out of time and reports no error of the retried call. *)
Definition TimedOut (err : option error) : bool :=
  match err with
  | Some (TimeoutError None) => true
  | _ => false
  end.

Definition NewEmptyResultError : error := EmptyResultError.
End tfresource.

(** ** Package [retry] of the plugin SDK

    The resources configure and call [StateChangeConf.WaitForStateContext]
    and [RetryContext] of terraform-plugin-sdk/v2/helper/retry; both are
    given here with their bookkeeping. Real time is replaced by a budget:
    [Timeout] is the number of refreshes that complete before the deadline;
    the delays between refreshes do not appear. *)
Module retry.
Record StateChangeConf : Type := {
  Pending : list string;
  Target : list string;
  Timeout : nat;
  NotFoundChecks : nat;
  ContinuousTargetOccurence : nat;
}.

(** The two counters of the refresh loop. *)
Record counters : Type := {
  notfoundTick : nat;
  targetOccurence : nat;
}.

(** What one refresh does to the loop. *)
Inductive verdict (A : Type) : Type :=
| Continue (c : counters)
| Done (Result : option A)
| Stop (Result : option A) (Error : error).
Arguments Continue {A} c.
Arguments Done {A} Result.
Arguments Stop {A} Result Error.

(** [for _, allowed := range conf.Target]: every match sets [found] and
    does [targetOccurence++]; the loop is done once
    [conf.ContinuousTargetOccurence == targetOccurence]. Returns
    (done, found, targetOccurence). *)
Fixpoint scanTarget (target : list string) (currentState : string)
    (continuousTargetOccurence : nat) (found : bool) (occ : nat) : bool * bool * nat :=
  match target with
  | [] => (false, found, occ)
  | allowed :: rest =>
      if String.eqb currentState allowed then
        if Nat.eqb continuousTargetOccurence (S occ) then (true, true, S occ)
        else scanTarget rest currentState continuousTargetOccurence true (S occ)
      else scanTarget rest currentState continuousTargetOccurence found occ
  end.

(** [for _, allowed := range conf.Pending]: a match sets [found] and
    does [targetOccurence = 0]; nothing else resets that count. *)
Definition scanPending (pending : list string) (currentState : string)
    (found : bool) (occ : nat) : bool * nat :=
  if existsb (String.eqb currentState) pending then (true, 0) else (found, occ).

(** One iteration of the refresh loop, after [conf.Refresh()] returned
    [(res, currentState, err)]:
    - [err != nil] ends the loop with that error;
    - [res == nil && len(conf.Target) == 0] counts an occurrence of the
      target (the absence of the object);
    - [res == nil] otherwise: [notfoundTick++], and the loop ends with a
      [NotFoundError] if [notfoundTick > conf.NotFoundChecks];
      [targetOccurence] is left as it is;
    - [res != nil]: [notfoundTick = 0], then the scan of the targets, then
      the scan of the pending states, and an [UnexpectedStateError] if
      [!found && len(conf.Pending) > 0]. *)
Definition refreshStep {A} (conf : StateChangeConf) (c : counters)
    (r : option A * string * option error) : verdict A :=
  let '(res, currentState, err) := r in
  match err with
  | Some e => Stop res e
  | None =>
      match res with
      | None =>
          if Nat.eqb (length (Target conf)) 0 then
            (* waiting for the absence of a thing *)
            let occ := S (targetOccurence c) in
            if Nat.eqb (ContinuousTargetOccurence conf) occ then Done None
            else Continue {| notfoundTick := notfoundTick c; targetOccurence := occ |}
          else
            let tick := S (notfoundTick c) in
            if NotFoundChecks conf <? tick then Stop None (NotFoundError None)
            else Continue {| notfoundTick := tick; targetOccurence := targetOccurence c |}
      | Some _ =>
          let '(done, found, occ) :=
            scanTarget (Target conf) currentState (ContinuousTargetOccurence conf)
              false (targetOccurence c) in
          if done then Done res
          else
            let '(found, occ) := scanPending (Pending conf) currentState found occ in
            if negb found && (0 <? length (Pending conf)) then
              Stop res (UnexpectedStateError currentState)
            else Continue {| notfoundTick := 0; targetOccurence := occ |}
      end
  end.

(** The refresh loop, for as many refreshes as the deadline allows. The
    loop hands a result over only when it ends, so when the deadline passes
    first no result has been kept and the error is a [TimeoutError] without
    last error. *)
Fixpoint refreshLoop {A} (budget : nat) (conf : StateChangeConf)
    (Refresh : M (option A * string * option error)) (c : counters)
  : M (option A * option error) :=
  match budget with
  | 0 => ret (None, Some (TimeoutError None))
  | S budget' =>
      r <- Refresh ;;
      match refreshStep conf c r with
      | Continue c' => refreshLoop budget' conf Refresh c'
      | Done res => ret (res, None)
      | Stop res e => ret (res, Some e)
      end
  end.

(** The defaults that [WaitForStateContext] sets before it starts:
    [NotFoundChecks] 20 and [ContinuousTargetOccurence] 1 when left zero. *)
Definition withDefaults (conf : StateChangeConf) : StateChangeConf :=
  {| Pending := Pending conf;
     Target := Target conf;
     Timeout := Timeout conf;
     NotFoundChecks := if Nat.eqb (NotFoundChecks conf) 0 then 20 else NotFoundChecks conf;
     ContinuousTargetOccurence :=
       if Nat.eqb (ContinuousTargetOccurence conf) 0 then 1
       else ContinuousTargetOccurence conf |}.

Definition WaitForStateContext {A} (conf : StateChangeConf)
    (Refresh : M (option A * string * option error)) : M (option A * option error) :=
  let conf := withDefaults conf in
  refreshLoop (Timeout conf) conf Refresh {| notfoundTick := 0; targetOccurence := 0 |}.

Record RetryError : Type := {
  Err : error;
  Retryable : bool;
}.

Definition RetryableError (err : error) : option RetryError :=
  Some {| Err := err; Retryable := true |}.
Definition NonRetryableError (err : error) : option RetryError :=
  Some {| Err := err; Retryable := false |}.

(** [RetryContext] runs [f] through the refresh loop with the pending
    state "retryableerror" and the target "success", and keeps in
    [resultErr] the error of the last run of [f]; it returns [resultErr]
    unless that is nil, and the error of the refresh loop otherwise. So a
    success ends the loop without error, a non-retryable error ends it with
    that error, and at the deadline the error is [resultErr] when some run
    set it and the loop's [TimeoutError] otherwise. [timeout] counts the
    runs that complete before the deadline; [St] holds the variables that
    the closure [f] assigns. *)
Fixpoint retryLoop {St} (timeout : nat) (f : St -> M (St * option RetryError)) (s : St)
    (resultErr : option error) : M (St * option error) :=
  match timeout with
  | 0 =>
      match resultErr with
      | None => ret (s, Some (TimeoutError None))
      | Some e => ret (s, Some e)
      end
  | S timeout' =>
      r <- f s ;;
      let '(s', rerr) := r in
      match rerr with
      | None => ret (s', None)
      | Some re =>
          if Retryable re then retryLoop timeout' f s' (Some (Err re))
          else ret (s', Some (Err re))
      end
  end.

Definition RetryContext {St} (timeout : nat) (f : St -> M (St * option RetryError)) (s : St)
  : M (St * option error) :=
  retryLoop timeout f s None.
End retry.

(** ** The TLS inspection configuration resource *)

(** [timeouts.Value]: the configured deadline of each operation, counted in
    refreshes (see [retry]). *)
Record timeouts_Value : Type := {
  timeouts_Create : nat;
  timeouts_Update : nat;
  timeouts_Delete : nat;
}.

Record resourceTLSInspectionConfigurationData : Type := {
  ARN : types.String;
  EncryptionConfiguration : types.List encryptionConfigurationData;
  Certificates : types.List certificatesData;
  CertificateAuthority : types.List certificatesData;
  Description : types.String;
  ID : types.String;
  LastModifiedTime : types.String;
  Name : types.String;
  NumberOfAssociations : types.Int64;
  Status : types.String;
  TLSInspectionConfiguration : types.List tlsInspectionConfigurationData;
  Timeouts : timeouts_Value;
  UpdateToken : types.String;
}.

(** Assignments to single fields of the plan. *)
Definition set_ARN (v : types.String) (d : resourceTLSInspectionConfigurationData)
  : resourceTLSInspectionConfigurationData :=
  {| ARN := v;
     EncryptionConfiguration := EncryptionConfiguration d;
     Certificates := Certificates d;
     CertificateAuthority := CertificateAuthority d;
     Description := Description d;
     ID := ID d;
     LastModifiedTime := LastModifiedTime d;
     Name := Name d;
     NumberOfAssociations := NumberOfAssociations d;
     Status := Status d;
     TLSInspectionConfiguration := TLSInspectionConfiguration d;
     Timeouts := Timeouts d;
     UpdateToken := UpdateToken d |}.

Definition set_Certificates (v : types.List certificatesData) (d : resourceTLSInspectionConfigurationData)
  : resourceTLSInspectionConfigurationData :=
  {| ARN := ARN d;
     EncryptionConfiguration := EncryptionConfiguration d;
     Certificates := v;
     CertificateAuthority := CertificateAuthority d;
     Description := Description d;
     ID := ID d;
     LastModifiedTime := LastModifiedTime d;
     Name := Name d;
     NumberOfAssociations := NumberOfAssociations d;
     Status := Status d;
     TLSInspectionConfiguration := TLSInspectionConfiguration d;
     Timeouts := Timeouts d;
     UpdateToken := UpdateToken d |}.

Definition set_ID (v : types.String) (d : resourceTLSInspectionConfigurationData)
  : resourceTLSInspectionConfigurationData :=
  {| ARN := ARN d;
     EncryptionConfiguration := EncryptionConfiguration d;
     Certificates := Certificates d;
     CertificateAuthority := CertificateAuthority d;
     Description := Description d;
     ID := v;
     LastModifiedTime := LastModifiedTime d;
     Name := Name d;
     NumberOfAssociations := NumberOfAssociations d;
     Status := Status d;
     TLSInspectionConfiguration := TLSInspectionConfiguration d;
     Timeouts := Timeouts d;
     UpdateToken := UpdateToken d |}.

Definition set_LastModifiedTime (v : types.String) (d : resourceTLSInspectionConfigurationData)
  : resourceTLSInspectionConfigurationData :=
  {| ARN := ARN d;
     EncryptionConfiguration := EncryptionConfiguration d;
     Certificates := Certificates d;
     CertificateAuthority := CertificateAuthority d;
     Description := Description d;
     ID := ID d;
     LastModifiedTime := v;
     Name := Name d;
     NumberOfAssociations := NumberOfAssociations d;
     Status := Status d;
     TLSInspectionConfiguration := TLSInspectionConfiguration d;
     Timeouts := Timeouts d;
     UpdateToken := UpdateToken d |}.

Definition set_NumberOfAssociations (v : types.Int64) (d : resourceTLSInspectionConfigurationData)
  : resourceTLSInspectionConfigurationData :=
  {| ARN := ARN d;
     EncryptionConfiguration := EncryptionConfiguration d;
     Certificates := Certificates d;
     CertificateAuthority := CertificateAuthority d;
     Description := Description d;
     ID := ID d;
     LastModifiedTime := LastModifiedTime d;
     Name := Name d;
     NumberOfAssociations := v;
     Status := Status d;
     TLSInspectionConfiguration := TLSInspectionConfiguration d;
     Timeouts := Timeouts d;
     UpdateToken := UpdateToken d |}.

Definition set_Status (v : types.String) (d : resourceTLSInspectionConfigurationData)
  : resourceTLSInspectionConfigurationData :=
  {| ARN := ARN d;
     EncryptionConfiguration := EncryptionConfiguration d;
     Certificates := Certificates d;
     CertificateAuthority := CertificateAuthority d;
     Description := Description d;
     ID := ID d;
     LastModifiedTime := LastModifiedTime d;
     Name := Name d;
     NumberOfAssociations := NumberOfAssociations d;
     Status := v;
     TLSInspectionConfiguration := TLSInspectionConfiguration d;
     Timeouts := Timeouts d;
     UpdateToken := UpdateToken d |}.

Definition set_UpdateToken (v : types.String) (d : resourceTLSInspectionConfigurationData)
  : resourceTLSInspectionConfigurationData :=
  {| ARN := ARN d;
     EncryptionConfiguration := EncryptionConfiguration d;
     Certificates := Certificates d;
     CertificateAuthority := CertificateAuthority d;
     Description := Description d;
     ID := ID d;
     LastModifiedTime := LastModifiedTime d;
     Name := Name d;
     NumberOfAssociations := NumberOfAssociations d;
     Status := Status d;
     TLSInspectionConfiguration := TLSInspectionConfiguration d;
     Timeouts := Timeouts d;
     UpdateToken := v |}.

(** What an operation leaves in its response: the diagnostics, and the
    value given to [resp.State.Set] when the operation reached it. *)
Record response : Type := {
  Diagnostics : list diagnostic;
  State : option resourceTLSInspectionConfigurationData;
}.

(** Package [create]: the names of the phases in error summaries. *)
Module create.
Definition ErrActionCreating : string := "creating".
Definition ErrActionUpdating : string := "updating".
Definition ErrActionDeleting : string := "deleting".
Definition ErrActionWaitingForCreation : string := "waiting for creation".
Definition ErrActionWaitingForUpdate : string := "waiting for update".
Definition ErrActionWaitingForDeletion : string := "waiting for delete".
End create.

Definition statusChangePending : string := "Pending".
Definition statusDeleting : string := "Deleting".
Definition statusNormal : string := "Normal".
Definition statusUpdated : string := "Updated".

(** The [retry.StateChangeConf] literal of each waiter. The one of the
    delete waiter leaves [NotFoundChecks] and [ContinuousTargetOccurence] at
    their zero value. *)
Definition createdConf (timeout : nat) : retry.StateChangeConf :=
  {| retry.Pending := [];
     retry.Target := [networkfirewall.ResourceStatusActive];
     retry.Timeout := timeout;
     retry.NotFoundChecks := 20;
     retry.ContinuousTargetOccurence := 2 |}.

Definition updatedConf (timeout : nat) : retry.StateChangeConf :=
  {| retry.Pending := [statusChangePending];
     retry.Target := [networkfirewall.ResourceStatusActive];
     retry.Timeout := timeout;
     retry.NotFoundChecks := 20;
     retry.ContinuousTargetOccurence := 2 |}.

Definition deletedConf (timeout : nat) : retry.StateChangeConf :=
  {| retry.Pending := [networkfirewall.ResourceStatusDeleting; networkfirewall.ResourceStatusActive];
     retry.Target := [];
     retry.Timeout := timeout;
     retry.NotFoundChecks := 0;
     retry.ContinuousTargetOccurence := 0 |}.

(** [if !plan.TLSInspectionConfiguration.IsNull() { ElementsAs; expand }]:
    the expansion of the block, as Create and Update perform it. *)
Definition expandTLSBlock (v : types.List tlsInspectionConfigurationData)
  : option networkfirewall.TLSInspectionConfiguration :=
  if types.List_IsNull v then None
  else expandTLSInspectionConfiguration (types.ElementsAs v []).

Definition expandEncryptionBlock (v : types.List encryptionConfigurationData)
  : option networkfirewall.EncryptionConfiguration :=
  if types.List_IsNull v then None
  else expandTLSEncryptionConfiguration (types.ElementsAs v []).

Section TLSInspectionConfiguration.

Variable conn : Conn.

(** [flex.Flatten] from the certificates of the response into
    [plan.Certificates]: the generic flattener of the provider, which the
    resource only calls; it returns the list value and its diagnostics. *)
Variable flex_Flatten_Certificates :
  slice (option networkfirewall.TlsCertificateData) ->
  types.List certificatesData * list diagnostic.

Definition findTLSInspectionConfigurationByNameAndARN (arn : string)
  : M (option networkfirewall.DescribeTLSInspectionConfigurationOutput * option error) :=
  let input := aws.String arn in
  r <- remote (DescribeTLSInspectionConfiguration input)
         (fun n => conn_DescribeTLSInspectionConfiguration conn n input) ;;
  let '(out, err) := r in
  match err with
  | Some e =>
      if errs.IsA ResourceNotFoundException err then ret (None, Some (NotFoundError (Some e)))
      else ret (None, Some e)
  | None =>
      match out with
      | None => ret (None, Some tfresource.NewEmptyResultError)
      | Some o =>
          match networkfirewall.DescribeOutput_TLSInspectionConfigurationResponse o with
          | None => ret (None, Some tfresource.NewEmptyResultError)
          | Some _ => ret (Some o, None)
          end
      end
  end.

Definition statusTLSInspectionConfiguration (arn : string)
  : M (option networkfirewall.DescribeTLSInspectionConfigurationOutput * string * option error) :=
  r <- findTLSInspectionConfigurationByNameAndARN arn ;;
  let '(out, err) := r in
  if tfresource.NotFound err then ret (None, "", None)
  else
    match err with
    | Some e => ret (None, "", Some e)
    | None =>
        o <- lift (deref out) ;;
        resp <- lift (deref (networkfirewall.DescribeOutput_TLSInspectionConfigurationResponse o)) ;;
        ret (out, aws.ToString (networkfirewall.TLSInspectionConfigurationStatus resp), None)
    end.

(** The three waiters. The refresh function returns a describe output, so
    the type assertion to [*networkfirewall.TLSInspectionConfiguration]
    never holds and the returned object is nil; the error is the one of the
    refresh loop. *)
Definition waitTLSInspectionConfigurationCreated (arn : string) (timeout : nat)
  : M (option networkfirewall.TLSInspectionConfiguration * option error) :=
  let stateConf := createdConf timeout in
  r <- retry.WaitForStateContext stateConf (statusTLSInspectionConfiguration arn) ;;
  let '(outputRaw, err) := r in
  ret (None, err).

Definition waitTLSInspectionConfigurationUpdated (arn : string) (timeout : nat)
  : M (option networkfirewall.TLSInspectionConfiguration * option error) :=
  let stateConf := updatedConf timeout in
  r <- retry.WaitForStateContext stateConf (statusTLSInspectionConfiguration arn) ;;
  let '(outputRaw, err) := r in
  ret (None, err).

Definition waitTLSInspectionConfigurationDeleted (arn : string) (timeout : nat)
  : M (option networkfirewall.TLSInspectionConfiguration * option error) :=
  let stateConf := deletedConf timeout in
  r <- retry.WaitForStateContext stateConf (statusTLSInspectionConfiguration arn) ;;
  let '(outputRaw, err) := r in
  ret (None, err).

(** The part of Create and Update that fills the optional blocks of the
    request: each non-null block is converted with [ElementsAs]; a failed
    conversion ends the operation, otherwise the block is expanded. The
    result is the diagnostics and, without error, the two payload fields. *)
Definition expandBlocks (plan : resourceTLSInspectionConfigurationData)
  : list diagnostic *
    option (option networkfirewall.TLSInspectionConfiguration *
            option networkfirewall.EncryptionConfiguration) :=
  let diags :=
    if types.List_IsNull (TLSInspectionConfiguration plan) then []
    else types.ElementsAs_diags (TLSInspectionConfiguration plan) in
  if HasError diags then (diags, None)
  else
    let tls := expandTLSBlock (TLSInspectionConfiguration plan) in
    let diags :=
      diags ++
      (if types.List_IsNull (EncryptionConfiguration plan) then []
       else types.ElementsAs_diags (EncryptionConfiguration plan)) in
    if HasError diags then (diags, None)
    else
      let enc := expandEncryptionBlock (EncryptionConfiguration plan) in
      (diags, Some (tls, enc)).

Definition Create (plan : resourceTLSInspectionConfigurationData) : M response :=
  let description :=
    if types.String_IsNull (Description plan) then None
    else aws.String (types.ValueString (Description plan)) in
  match expandBlocks plan with
  | (diags, None) => ret {| Diagnostics := diags; State := None |}
  | (diags, Some (tls, enc)) =>
      let input :=
        {| networkfirewall.CreateInput_TLSInspectionConfigurationName :=
             aws.String (types.ValueString (Name plan));
           networkfirewall.CreateInput_Description := description;
           networkfirewall.CreateInput_TLSInspectionConfiguration := tls;
           networkfirewall.CreateInput_EncryptionConfiguration := enc |} in
      r <- remote (CreateTLSInspectionConfiguration input)
             (fun n => conn_CreateTLSInspectionConfiguration conn n input) ;;
      let '(out, err) := r in
      match err with
      | Some e =>
          ret {| Diagnostics := diags ++ [ErrorDiagnostic create.ErrActionCreating (Some e)];
                 State := None |}
      | None =>
          match out with
          | Some {| networkfirewall.CreateOutput_TLSInspectionConfigurationResponse := Some resp;
                    networkfirewall.CreateOutput_UpdateToken := token |} =>
              let plan :=
                set_ARN (flex.StringToFramework (networkfirewall.TLSInspectionConfigurationArn resp)) plan in
              (* Set ID to ARN *)
              let plan :=
                set_ID (flex.StringToFramework (networkfirewall.TLSInspectionConfigurationArn resp)) plan in
              let plan := set_UpdateToken (flex.StringToFramework token) plan in
              (* Read to get computed attributes; the error is dropped *)
              r <- findTLSInspectionConfigurationByNameAndARN (types.ValueString (ARN plan)) ;;
              let '(readComputed, _) := r in
              rc <- lift (deref readComputed) ;;
              rcr <- lift (deref (networkfirewall.DescribeOutput_TLSInspectionConfigurationResponse rc)) ;;
              lastModified <- lift (deref (networkfirewall.LastModifiedTime rcr)) ;;
              let plan := set_LastModifiedTime (flex.StringValueToFramework lastModified) plan in
              let plan :=
                set_NumberOfAssociations
                  (flex.Int64ToFramework (networkfirewall.NumberOfAssociations rcr)) plan in
              let plan :=
                set_Status
                  (flex.StringToFramework (networkfirewall.TLSInspectionConfigurationStatus rcr)) plan in
              let '(certs, d) := flex_Flatten_Certificates (networkfirewall.Certificates rcr) in
              let plan := set_Certificates certs plan in
              let diags := diags ++ d in
              let createTimeout := timeouts_Create (Timeouts plan) in
              r <- waitTLSInspectionConfigurationCreated (types.ValueString (ARN plan)) createTimeout ;;
              let '(_, err) := r in
              match err with
              | Some e =>
                  ret {| Diagnostics :=
                           diags ++ [ErrorDiagnostic create.ErrActionWaitingForCreation (Some e)];
                         State := None |}
              | None => ret {| Diagnostics := diags; State := Some plan |}
              end
          | _ =>
              ret {| Diagnostics :=
                       diags ++ [ErrorDiagnostic create.ErrActionCreating
                                   (Some (errorString "empty output"))];
                     State := None |}
          end
      end
  end.

(** The guard of Update: some tracked field of the plan differs from the
    recorded state. *)
Definition changed (plan state : resourceTLSInspectionConfigurationData) : bool :=
  negb (types.String_Equal (Description plan) (Description state))
  || negb (List_Equal (TLSInspectionConfiguration plan) (TLSInspectionConfiguration state))
  || negb (List_Equal (EncryptionConfiguration plan) (EncryptionConfiguration state)).

Definition Update (plan state : resourceTLSInspectionConfigurationData) : M response :=
  let finish (diags : list diagnostic) (plan : resourceTLSInspectionConfigurationData) : M response :=
    let updateTimeout := timeouts_Update (Timeouts plan) in
    r <- waitTLSInspectionConfigurationUpdated (types.ValueString (ARN plan)) updateTimeout ;;
    let '(_, err) := r in
    match err with
    | Some e =>
        ret {| Diagnostics := diags ++ [ErrorDiagnostic create.ErrActionWaitingForUpdate (Some e)];
               State := None |}
    | None => ret {| Diagnostics := diags; State := Some plan |}
    end in
  if changed plan state then
    let description :=
      if types.String_IsNull (Description plan) then None
      else aws.String (types.ValueString (Description plan)) in
    match expandBlocks plan with
    | (diags, None) => ret {| Diagnostics := diags; State := None |}
    | (diags, Some (tls, enc)) =>
        let input :=
          {| networkfirewall.UpdateInput_TLSInspectionConfigurationArn :=
               aws.String (types.ValueString (ARN plan));
             networkfirewall.UpdateInput_TLSInspectionConfigurationName :=
               aws.String (types.ValueString (Name plan));
             networkfirewall.UpdateInput_UpdateToken :=
               aws.String (types.ValueString (UpdateToken plan));
             networkfirewall.UpdateInput_Description := description;
             networkfirewall.UpdateInput_TLSInspectionConfiguration := tls;
             networkfirewall.UpdateInput_EncryptionConfiguration := enc |} in
        r <- remote (UpdateTLSInspectionConfiguration input)
               (fun n => conn_UpdateTLSInspectionConfiguration conn n input) ;;
        let '(out, err) := r in
        match err with
        | Some e =>
            ret {| Diagnostics := diags ++ [ErrorDiagnostic create.ErrActionUpdating (Some e)];
                   State := None |}
        | None =>
            match out with
            | Some {| networkfirewall.UpdateOutput_TLSInspectionConfigurationResponse := Some resp;
                      networkfirewall.UpdateOutput_UpdateToken := token |} =>
                let plan :=
                  set_ARN (flex.StringToFramework (networkfirewall.TLSInspectionConfigurationArn resp)) plan in
                let plan :=
                  set_ID (flex.StringToFramework (networkfirewall.TLSInspectionConfigurationId resp)) plan in
                lastModified <- lift (deref (networkfirewall.LastModifiedTime resp)) ;;
                let plan := set_LastModifiedTime (flex.StringValueToFramework lastModified) plan in
                let plan :=
                  set_NumberOfAssociations
                    (flex.Int64ToFramework (networkfirewall.NumberOfAssociations resp)) plan in
                let plan := set_UpdateToken (flex.StringToFramework token) plan in
                let plan :=
                  set_Status
                    (flex.StringToFramework (networkfirewall.TLSInspectionConfigurationStatus resp)) plan in
                finish diags plan
            | _ =>
                ret {| Diagnostics :=
                         diags ++ [ErrorDiagnostic create.ErrActionUpdating
                                     (Some (errorString "empty output"))];
                       State := None |}
            end
        end
    end
  else finish [] plan.

(** Delete writes no state; its response is its diagnostics. *)
Definition Delete (state : resourceTLSInspectionConfigurationData) : M (list diagnostic) :=
  let input := aws.String (types.ValueString (ARN state)) in
  err <- remote (DeleteTLSInspectionConfiguration input)
           (fun n => conn_DeleteTLSInspectionConfiguration conn n input) ;;
  match err with
  | Some e =>
      if errs.IsA ResourceNotFoundException err then ret []
      else ret [ErrorDiagnostic create.ErrActionDeleting (Some e)]
  | None =>
      let deleteTimeout := timeouts_Delete (Timeouts state) in
      r <- waitTLSInspectionConfigurationDeleted (types.ValueString (ARN state)) deleteTimeout ;;
      let '(_, err) := r in
      match err with
      | Some e =>
          if errs.IsA ResourceNotFoundException err then ret []
          else ret [ErrorDiagnostic create.ErrActionWaitingForDeletion (Some e)]
      | None => ret []
      end
  end.

End TLSInspectionConfiguration.

(** ** The service action resource *)

(** The attributes of the resource, as [d.Get] returns them: an unset
    string is the empty string, [definition] is the list of its blocks. *)
Record serviceActionValues : Type := {
  accept_language : string;
  definition : list (gmap string any);
  description : string;
  name : string;
}.

#[global] Instance serviceActionValues_eq_dec : EqDecision serviceActionValues.
Proof. solve_decision. Defined.

(** [*schema.ResourceData]: the identifier, the values of the prior state
    and the current values, and the deadline of each operation counted in
    attempts (see [retry]). *)
Record ResourceData : Type := {
  d_Id : string;
  d_IsNewResource : bool;
  d_prior : serviceActionValues;
  d_values : serviceActionValues;
  d_TimeoutCreate : nat;
  d_TimeoutRead : nat;
  d_TimeoutUpdate : nat;
  d_TimeoutDelete : nat;
}.

Definition SetId (v : string) (d : ResourceData) : ResourceData :=
  {| d_Id := v; d_IsNewResource := d_IsNewResource d; d_prior := d_prior d;
     d_values := d_values d; d_TimeoutCreate := d_TimeoutCreate d;
     d_TimeoutRead := d_TimeoutRead d; d_TimeoutUpdate := d_TimeoutUpdate d;
     d_TimeoutDelete := d_TimeoutDelete d |}.

Definition SetValues (v : serviceActionValues) (d : ResourceData) : ResourceData :=
  {| d_Id := d_Id d; d_IsNewResource := d_IsNewResource d; d_prior := d_prior d;
     d_values := v; d_TimeoutCreate := d_TimeoutCreate d;
     d_TimeoutRead := d_TimeoutRead d; d_TimeoutUpdate := d_TimeoutUpdate d;
     d_TimeoutDelete := d_TimeoutDelete d |}.

(** [d.HasChange(key)] for each attribute. *)
Definition HasChange_accept_language (d : ResourceData) : bool :=
  negb (bool_decide (accept_language (d_prior d) = accept_language (d_values d))).
Definition HasChange_definition (d : ResourceData) : bool :=
  negb (bool_decide (definition (d_prior d) = definition (d_values d))).
Definition HasChange_description (d : ResourceData) : bool :=
  negb (bool_decide (description (d_prior d) = description (d_values d))).
Definition HasChange_name (d : ResourceData) : bool :=
  negb (bool_decide (name (d_prior d) = name (d_values d))).

(** [v, ok := d.GetOk(key)] on a string attribute: [ok] when [v] is not
    the zero value. *)
Definition GetOk (v : string) : option string :=
  if bool_decide (v = "") then None else aws.String v.

(** [d.Get("definition").([]interface{})[0].(map[string]interface{})] *)
Definition definition0 (d : ResourceData) : outcome (gmap string any) :=
  match definition (d_values d) with
  | [] => Panic
  | m :: _ => Return m
  end.

(** [if d.HasChange("definition") { input.Definition = expand(...) }]: the
    expanded definition when it changed, nil otherwise. *)
Definition updateDefinition (d : ResourceData)
  : outcome (option (gmap string (option string))) :=
  if HasChange_definition d then
    outcome_bind (definition0 d) (fun m => Return (expandServiceActionDefinition (Some m)))
  else Return None.

(** [d.Get("definition.0.type").(string)] *)
Definition definition0type (d : ResourceData) : string :=
  match definition (d_values d) with
  | [] => ""
  | m :: _ => match assertString (m !! "type") with Some s => s | None => "" end
  end.

Section ServiceAction.

Variable conn : Conn.

(** [id.UniqueId()] *)
Variable UniqueId : string.

Definition resourceServiceActionRead (d : ResourceData) : M (list diagnostic * ResourceData) :=
  r <- remote (ServiceActionReady (accept_language (d_values d)) (d_Id d))
         (fun n => conn_WaitServiceActionReady conn n (accept_language (d_values d)) (d_Id d)) ;;
  let '(output, err) := r in
  if negb (d_IsNewResource d) && tfresource.NotFound err then
    ret ([], SetId "" d)
  else
    match err with
    | Some e =>
        ret ([ErrorDiagnostic "describing Service Catalog Service Action" (Some e)], d)
    | None =>
        match output with
        | Some {| servicecatalog.Definition_ := def;
                  servicecatalog.ServiceActionSummary_ := Some sas |} =>
            let definition' :=
              match def with
              | Some _ =>
                  match flattenServiceActionDefinition def
                          (aws.ToString (servicecatalog.DefinitionType sas)) with
                  | Some m => [m]
                  | None => []
                  end
              | None => []
              end in
            ret ([], SetValues
                       {| accept_language := accept_language (d_values d);
                          definition := definition';
                          description := aws.ToString (servicecatalog.Description sas);
                          name := aws.ToString (servicecatalog.Name sas) |} d)
        | _ =>
            ret ([ErrorDiagnostic "getting Service Catalog Service Action: empty response" None], d)
        end
    end.

(** The mutating call of each operation, and the [retry.RetryContext]
    loop around it. The closure of Create assigns [output]. *)
Definition createAttempt (input : servicecatalog.CreateServiceActionInput)
  : M (option servicecatalog.CreateServiceActionOutput * option error) :=
  remote (CreateServiceAction input) (fun n => conn_CreateServiceAction conn n input).

Definition createRetry (timeout : nat) (input : servicecatalog.CreateServiceActionInput)
  : M (option servicecatalog.CreateServiceActionOutput * option error) :=
  retry.RetryContext timeout
    (fun _ : option servicecatalog.CreateServiceActionOutput =>
       r <- createAttempt input ;;
       let '(output, err) := r in
       if errs.Contains err "profile does not exist" then
         ret (output, match err with Some e => retry.RetryableError e | None => None end)
       else
         match err with
         | Some e => ret (output, retry.NonRetryableError e)
         | None => ret (output, None)
         end)
    None.

Definition updateAttempt (input : servicecatalog.UpdateServiceActionInput) : M (option error) :=
  remote (UpdateServiceAction input) (fun n => conn_UpdateServiceAction conn n input).

Definition updateRetry (timeout : nat) (input : servicecatalog.UpdateServiceActionInput)
  : M (unit * option error) :=
  retry.RetryContext timeout
    (fun _ : unit =>
       err <- updateAttempt input ;;
       if errs.Contains err "profile does not exist" then
         ret (tt, match err with Some e => retry.RetryableError e | None => None end)
       else
         match err with
         | Some e => ret (tt, retry.NonRetryableError e)
         | None => ret (tt, None)
         end)
    tt.

Definition deleteAttempt (input : option string) : M (option error) :=
  remote (DeleteServiceAction input) (fun n => conn_DeleteServiceAction conn n input).

Definition deleteRetry (timeout : nat) (input : option string) : M (unit * option error) :=
  retry.RetryContext timeout
    (fun _ : unit =>
       err <- deleteAttempt input ;;
       if errs.IsA ResourceInUseException err then
         ret (tt, match err with Some e => retry.RetryableError e | None => None end)
       else
         match err with
         | Some e => ret (tt, retry.NonRetryableError e)
         | None => ret (tt, None)
         end)
    tt.

(** The request of Create; [m] is the first definition block. *)
Definition createInput (d : ResourceData) (m : gmap string any)
  : servicecatalog.CreateServiceActionInput :=
  {| servicecatalog.CreateInput_IdempotencyToken := aws.String UniqueId;
     servicecatalog.CreateInput_Name := aws.String (name (d_values d));
     servicecatalog.CreateInput_Definition := expandServiceActionDefinition (Some m);
     servicecatalog.CreateInput_DefinitionType := definition0type d;
     servicecatalog.CreateInput_AcceptLanguage := GetOk (accept_language (d_values d));
     servicecatalog.CreateInput_Description := GetOk (description (d_values d)) |}.

(** The request of Update: the identifier and the attributes that
    changed; [def] is the expanded definition when it changed. *)
Definition updateInput (d : ResourceData) (def : option (gmap string (option string)))
  : servicecatalog.UpdateServiceActionInput :=
  {| servicecatalog.UpdateInput_Id := aws.String (d_Id d);
     servicecatalog.UpdateInput_AcceptLanguage :=
       if HasChange_accept_language d then aws.String (accept_language (d_values d)) else None;
     servicecatalog.UpdateInput_Definition := def;
     servicecatalog.UpdateInput_Description :=
       if HasChange_description d then aws.String (description (d_values d)) else None;
     servicecatalog.UpdateInput_Name :=
       if HasChange_name d then aws.String (name (d_values d)) else None |}.

Definition resourceServiceActionCreate (d : ResourceData) : M (list diagnostic * ResourceData) :=
  m <- lift (definition0 d) ;;
  let input := createInput d m in
  let attempt := createAttempt input in
  r <- createRetry (d_TimeoutCreate d) input ;;
  let '(output, err) := r in
  r <- (if tfresource.TimedOut err then attempt else ret (output, err)) ;;
  let '(output, err) := r in
  match err with
  | Some e => ret ([ErrorDiagnostic "creating Service Catalog Service Action" (Some e)], d)
  | None =>
      match output with
      | Some {| servicecatalog.CreateOutput_ServiceActionDetail :=
                  Some {| servicecatalog.Definition_ := _;
                          servicecatalog.ServiceActionSummary_ := Some sas |} |} =>
          let d := SetId (aws.ToString (servicecatalog.Id sas)) d in
          resourceServiceActionRead d
      | _ =>
          ret ([ErrorDiagnostic "creating Service Catalog Service Action: empty response" None], d)
      end
  end.

Definition resourceServiceActionUpdate (d : ResourceData) : M (list diagnostic * ResourceData) :=
  def <- lift (updateDefinition d) ;;
  let input := updateInput d def in
  let attempt := updateAttempt input in
  r <- updateRetry (d_TimeoutUpdate d) input ;;
  let '(_, err) := r in
  err <- (if tfresource.TimedOut err then attempt else ret err) ;;
  match err with
  | Some e => ret ([ErrorDiagnostic "updating Service Catalog Service Action" (Some e)], d)
  | None => resourceServiceActionRead d
  end.

Definition resourceServiceActionDelete (d : ResourceData) : M (list diagnostic) :=
  let input := aws.String (d_Id d) in
  let attempt := deleteAttempt input in
  r <- deleteRetry (d_TimeoutDelete d) input ;;
  let '(_, err) := r in
  err <- (if tfresource.TimedOut err then attempt else ret err) ;;
  if errs.IsA ResourceNotFoundException err then ret []
  else
    match err with
    | Some e => ret [ErrorDiagnostic "deleting Service Catalog Service Action" (Some e)]
    | None =>
        err <- remote (ServiceActionDeleted (accept_language (d_values d)) (d_Id d))
                 (fun n => conn_WaitServiceActionDeleted conn n
                             (accept_language (d_values d)) (d_Id d)) ;;
        match err with
        | Some e =>
            ret [ErrorDiagnostic "waiting for Service Catalog Service Action to be deleted" (Some e)]
        | None => ret []
        end
    end.

End ServiceAction.

(** ** Probe sequences

    One probe as a function of the answer of the remote service, with its
    three outcomes: the object and its status, the sentinel for an absent
    object, or an error. *)
Definition gone : option networkfirewall.DescribeTLSInspectionConfigurationOutput
                  * string * option error :=
  (None, "", None).

Definition probeResult
    (answer : option networkfirewall.DescribeTLSInspectionConfigurationOutput * option error)
  : option networkfirewall.DescribeTLSInspectionConfigurationOutput * string * option error :=
  match answer with
  | (_, Some e) =>
      if errs.IsA_error ResourceNotFoundException e then gone
      else if tfresource.NotFound (Some e) then gone
      else (None, "", Some e)
  | (Some o, None) =>
      match networkfirewall.DescribeOutput_TLSInspectionConfigurationResponse o with
      | Some resp =>
          (Some o, aws.ToString (networkfirewall.TLSInspectionConfigurationStatus resp), None)
      | None => (None, "", Some tfresource.NewEmptyResultError)
      end
  | (None, None) => (None, "", Some tfresource.NewEmptyResultError)
  end.

(** The results of the [n] probes made from the point [start] of an
    execution on. *)
Definition probeSequence (conn : Conn) (arn : string) (start n : nat)
  : list (option networkfirewall.DescribeTLSInspectionConfigurationOutput
          * string * option error) :=
  map (fun i => probeResult (conn_DescribeTLSInspectionConfiguration conn i (Some arn)))
    (seq start n).

(** The refresh loop over a given sequence of refresh results: the verdict
    after the sequence, and the number of results the loop consumed. *)
Fixpoint poll {A} (conf : retry.StateChangeConf) (c : retry.counters)
    (results : list (option A * string * option error)) : retry.verdict A * nat :=
  match results with
  | [] => (retry.Continue c, 0)
  | r :: rest =>
      match retry.refreshStep conf c r with
      | retry.Continue c' => let '(v, n) := poll conf c' rest in (v, S n)
      | v => (v, 1)
      end
  end.

(** What [WaitForStateContext] returns for a verdict; the loop is still
    running only when the deadline stopped it. *)
Definition verdictResult {A} (v : retry.verdict A) : option A * option error :=
  match v with
  | retry.Continue _ => (None, Some (TimeoutError None))
  | retry.Done res => (res, None)
  | retry.Stop res e => (res, Some e)
  end.

Definition startCounters : retry.counters :=
  {| retry.notfoundTick := 0; retry.targetOccurence := 0 |}.

(** A probe that found the object in the given status, a probe that did not
    find it. *)
Definition observes {A} (status : string) (r : option A * string * option error) : Prop :=
  exists o, r = (Some o, status, None).

Definition notFound {A} (r : option A * string * option error) : Prop :=
  exists st, r = (None, st, None).

(** ** Classes of configuration trees

    [resolved]: the tree is syntactically valid, no node is unknown.
    [faithful]: moreover every list node is null or non-empty, the
    single-block lists hold one element, and the scalars that expand reads
    with [ValueString] / [ValueInt64] are known. *)

Definition String_resolved (v : types.String) : bool :=
  match v with types.StringUnknown => false | _ => true end.
Definition String_known (v : types.String) : bool :=
  match v with types.StringValue _ => true | _ => false end.
Definition Int64_resolved (v : types.Int64) : bool :=
  match v with types.Int64Unknown => false | _ => true end.
Definition Int64_known (v : types.Int64) : bool :=
  match v with types.Int64Value _ => true | _ => false end.

Definition List_resolved {A} (elem : A -> bool) (v : types.List A) : bool :=
  match v with
  | types.ListUnknown => false
  | types.ListNull => true
  | types.ListValue es => forallb elem es
  end.

(** Null, or known with at least one element. *)
Definition List_populated {A} (elem : A -> bool) (v : types.List A) : bool :=
  match v with
  | types.ListNull => true
  | types.ListValue (e :: es) => forallb elem (e :: es)
  | _ => false
  end.

(** Null, or known with exactly one element. *)
Definition List_single {A} (elem : A -> bool) (v : types.List A) : bool :=
  match v with
  | types.ListNull => true
  | types.ListValue [e] => elem e
  | _ => false
  end.

Definition portRange_resolved (p : portRangeData) : bool :=
  Int64_resolved (FromPort p) && Int64_resolved (ToPort p).
Definition sourceDestination_resolved (a : sourceDestinationData) : bool :=
  String_resolved (AddressDefinition a).
Definition scope_resolved (s : scopeData) : bool :=
  List_resolved portRange_resolved (DestinationPorts s)
  && List_resolved sourceDestination_resolved (Destinations s)
  && List_resolved Int64_resolved (Protocols s)
  && List_resolved portRange_resolved (SourcePorts s)
  && List_resolved sourceDestination_resolved (Sources s).
Definition checkCertificateRevocationStatus_resolved
    (c : checkCertificateRevocationStatusData) : bool :=
  String_resolved (RevokedStatusAction c) && String_resolved (UnknownStatusAction c).
Definition serverCertificates_resolved (c : serverCertificatesData) : bool :=
  String_resolved (ResourceARN c).
Definition serverCertificateConfigurations_resolved
    (c : serverCertificateConfigurationsData) : bool :=
  String_resolved (CertificateAuthorityArn c)
  && List_resolved checkCertificateRevocationStatus_resolved (CheckCertificateRevocationsStatus c)
  && List_resolved scope_resolved (Scope c)
  && List_resolved serverCertificates_resolved (ServerCertificates c).
Definition tlsInspectionConfiguration_resolved (c : tlsInspectionConfigurationData) : bool :=
  List_resolved serverCertificateConfigurations_resolved (ServerCertificateConfiguration c).
Definition resolved (t : types.List tlsInspectionConfigurationData) : bool :=
  List_resolved tlsInspectionConfiguration_resolved t.

Definition portRange_faithful (p : portRangeData) : bool :=
  Int64_known (FromPort p) && Int64_known (ToPort p).
Definition sourceDestination_faithful (a : sourceDestinationData) : bool :=
  String_known (AddressDefinition a).
Definition scope_faithful (s : scopeData) : bool :=
  List_populated portRange_faithful (DestinationPorts s)
  && List_populated sourceDestination_faithful (Destinations s)
  && List_populated Int64_known (Protocols s)
  && List_populated portRange_faithful (SourcePorts s)
  && List_populated sourceDestination_faithful (Sources s).
Definition checkCertificateRevocationStatus_faithful
    (c : checkCertificateRevocationStatusData) : bool :=
  String_known (RevokedStatusAction c) && String_known (UnknownStatusAction c).
Definition serverCertificates_faithful (c : serverCertificatesData) : bool :=
  String_known (ResourceARN c).
Definition serverCertificateConfigurations_faithful
    (c : serverCertificateConfigurationsData) : bool :=
  String_resolved (CertificateAuthorityArn c)
  && List_single checkCertificateRevocationStatus_faithful (CheckCertificateRevocationsStatus c)
  && List_populated scope_faithful (Scope c)
  && List_populated serverCertificates_faithful (ServerCertificates c).
Definition tlsInspectionConfiguration_faithful (c : tlsInspectionConfigurationData) : bool :=
  List_populated serverCertificateConfigurations_faithful (ServerCertificateConfiguration c).
Definition faithful (t : types.List tlsInspectionConfigurationData) : bool :=
  List_single tlsInspectionConfiguration_faithful t.

(** The same two classes for the definition block of a service action. The
    block has five string attributes; [definitionType] is the one that
    travels outside the definition map. *)
Definition definitionKeys : list string :=
  ["assume_role"; "name"; "parameters"; "type"; "version"].

Definition isString (v : any) : bool :=
  match v with anyString _ => true | _ => false end.
Definition isNonEmptyString (v : any) : bool :=
  match v with anyString s => negb (bool_decide (s = "")) | _ => false end.

Definition definition_resolved (m : gmap string any) : Prop :=
  map_Forall (fun k v => k ∈ definitionKeys /\ isString v = true) m.

Definition definition_faithful (m : gmap string any) : Prop :=
  map_Forall (fun k v => k ∈ definitionKeys /\ isNonEmptyString v = true) m.

Definition definitionType (m : gmap string any) : string :=
  match assertString (m !! "type") with Some s => s | None => "" end.


(** ** Sample configurations *)

(** The block list of a configuration that has no
    [tls_inspection_configuration] block: known and empty. *)
Definition tls_no_block : types.List tlsInspectionConfigurationData :=
  types.ListValue [].

(** One server certificate whose optional [resource_arn] is not set. *)
Definition tls_unset_arn : types.List tlsInspectionConfigurationData :=
  types.ListValue
    [ {| ServerCertificateConfiguration :=
           types.ListValue
             [ {| CertificateAuthorityArn := types.StringNull;
                  CheckCertificateRevocationsStatus := types.ListNull;
                  Scope := types.ListNull;
                  ServerCertificates :=
                    types.ListValue [ {| ResourceARN := types.StringNull |} ] |} ] |} ].

(** Inbound inspection of HTTPS with one certificate and one scope. *)
Definition tls_inbound : types.List tlsInspectionConfigurationData :=
  types.ListValue
    [ {| ServerCertificateConfiguration :=
           types.ListValue
             [ {| CertificateAuthorityArn := types.StringNull;
                  CheckCertificateRevocationsStatus := types.ListNull;
                  Scope :=
                    types.ListValue
                      [ {| DestinationPorts :=
                             types.ListValue
                               [ {| FromPort := types.Int64Value 443;
                                    ToPort := types.Int64Value 443 |} ];
                           Destinations :=
                             types.ListValue
                               [ {| AddressDefinition := types.StringValue "0.0.0.0/0" |} ];
                           Protocols := types.ListValue [types.Int64Value 6];
                           SourcePorts :=
                             types.ListValue
                               [ {| FromPort := types.Int64Value 0;
                                    ToPort := types.Int64Value 65535 |} ];
                           Sources :=
                             types.ListValue
                               [ {| AddressDefinition := types.StringValue "0.0.0.0/0" |} ] |} ];
                  ServerCertificates :=
                    types.ListValue
                      [ {| ResourceARN :=
                             types.StringValue
                               "arn:aws:acm:us-east-1:123456789012:certificate/a1" |} ] |} ] |} ].

(** The definition block of an action without [assume_role] and
    [parameters], as [d.Get] returns it: unset strings are empty. *)
Definition action_unset : gmap string any :=
  <["assume_role" := anyString ""]>
  (<["name" := anyString "AWS-RestartEC2Instance"]>
  (<["parameters" := anyString ""]>
  (<["type" := anyString "SSM_AUTOMATION"]>
  (<["version" := anyString "1"]> ∅)))).

(** The same block holding only the attributes that are set. *)
Definition action_set : gmap string any :=
  <["name" := anyString "AWS-RestartEC2Instance"]>
  (<["type" := anyString "SSM_AUTOMATION"]>
  (<["version" := anyString "1"]> ∅)).

(** ** Sample remote services *)

Definition unavailable : error := AWSError "InternalServerError" "service unavailable".

(** A service that fails every call. *)
Definition conn_down : Conn :=
  {| conn_CreateTLSInspectionConfiguration := fun _ _ => (None, Some unavailable);
     conn_DescribeTLSInspectionConfiguration := fun _ _ => (None, Some unavailable);
     conn_UpdateTLSInspectionConfiguration := fun _ _ => (None, Some unavailable);
     conn_DeleteTLSInspectionConfiguration := fun _ _ => Some unavailable;
     conn_CreateServiceAction := fun _ _ => (None, Some unavailable);
     conn_UpdateServiceAction := fun _ _ => Some unavailable;
     conn_DeleteServiceAction := fun _ _ => Some unavailable;
     conn_WaitServiceActionReady := fun _ _ _ => (None, Some unavailable);
     conn_WaitServiceActionDeleted := fun _ _ _ => Some unavailable |}.

Definition sample_arn : string :=
  "arn:aws:network-firewall:us-east-1:123456789012:tls-configuration/cfg1".
Definition sample_id : string := "2f0a8b1c-6a51-4c69-9d5e-0d2f3a7b9c11".

Definition sample_response (status : string)
  : networkfirewall.TLSInspectionConfigurationResponse :=
  {| networkfirewall.Description := None;
     networkfirewall.LastModifiedTime := Some "2024-05-01T10:00:00Z";
     networkfirewall.NumberOfAssociations := Some 0%Z;
     networkfirewall.TLSInspectionConfigurationArn := Some sample_arn;
     networkfirewall.TLSInspectionConfigurationId := Some sample_id;
     networkfirewall.TLSInspectionConfigurationName := Some "cfg1";
     networkfirewall.TLSInspectionConfigurationStatus := Some status;
     networkfirewall.Response_EncryptionConfiguration := None;
     networkfirewall.CertificateAuthority := None;
     networkfirewall.Certificates := None |}.

(** The answers of the describe call: the object in some status, or the
    not-found exception of the service. *)
Definition found (status : string)
  : option networkfirewall.DescribeTLSInspectionConfigurationOutput * option error :=
  (Some {| networkfirewall.DescribeOutput_TLSInspectionConfiguration := None;
           networkfirewall.DescribeOutput_TLSInspectionConfigurationResponse :=
             Some (sample_response status);
           networkfirewall.DescribeOutput_UpdateToken := Some "token-2" |},
   None).

Definition absent
  : option networkfirewall.DescribeTLSInspectionConfigurationOutput * option error :=
  (None, Some (AWSError ResourceNotFoundException "configuration not found")).

(** A service whose answer to the describe call made as call number [n] of
    the execution is the [n]-th entry of a script, and [last] afterwards;
    create and update succeed. *)
Definition conn_scripted
    (script : list (option networkfirewall.DescribeTLSInspectionConfigurationOutput
                    * option error))
    (last : option networkfirewall.DescribeTLSInspectionConfigurationOutput * option error)
  : Conn :=
  {| conn_CreateTLSInspectionConfiguration := fun _ _ =>
       (Some {| networkfirewall.CreateOutput_TLSInspectionConfigurationResponse :=
                  Some (sample_response "ACTIVE");
                networkfirewall.CreateOutput_UpdateToken := Some "token-1" |}, None);
     conn_DescribeTLSInspectionConfiguration := fun n _ => nth n script last;
     conn_UpdateTLSInspectionConfiguration := fun _ _ =>
       (Some {| networkfirewall.UpdateOutput_TLSInspectionConfigurationResponse :=
                  Some (sample_response "ACTIVE");
                networkfirewall.UpdateOutput_UpdateToken := Some "token-2" |}, None);
     conn_DeleteTLSInspectionConfiguration := fun _ _ =>
       Some (AWSError ResourceNotFoundException "configuration not found");
     conn_CreateServiceAction := fun _ _ => (None, Some unavailable);
     conn_UpdateServiceAction := fun _ _ => None;
     conn_DeleteServiceAction := fun _ _ =>
       Some (AWSError ResourceNotFoundException "service action not found");
     conn_WaitServiceActionReady := fun _ _ _ =>
       (Some {| servicecatalog.Definition_ := None;
                servicecatalog.ServiceActionSummary_ :=
                  Some {| servicecatalog.Id := Some "act-1";
                          servicecatalog.Name := Some "restart";
                          servicecatalog.Description := None;
                          servicecatalog.DefinitionType := Some "SSM_AUTOMATION" |} |}, None);
     conn_WaitServiceActionDeleted := fun _ _ _ => None |}.

(** The object is absent for the first [k] calls, then active. *)
Definition conn_absent_then_active (k : nat) : Conn :=
  conn_scripted (repeat absent k) (found "ACTIVE").



(** Active, then pending, then active for good. *)
Definition conn_active_pending : Conn :=
  conn_scripted [found "ACTIVE"; found "Pending"] (found "ACTIVE").


(** Create succeeds, the object is never visible afterwards. *)
Definition conn_created_invisible : Conn := conn_scripted [] absent.

(** Everything succeeds and the object is active. *)
Definition conn_active : Conn := conn_scripted [] (found "ACTIVE").

(** The service action is in use for the first [k] calls and gone
    afterwards. *)
Definition conn_in_use_then_gone (k : nat) : Conn :=
  {| conn_CreateTLSInspectionConfiguration := conn_CreateTLSInspectionConfiguration conn_down;
     conn_DescribeTLSInspectionConfiguration := conn_DescribeTLSInspectionConfiguration conn_down;
     conn_UpdateTLSInspectionConfiguration := conn_UpdateTLSInspectionConfiguration conn_down;
     conn_DeleteTLSInspectionConfiguration := fun _ _ =>
       Some (AWSError ResourceNotFoundException "configuration not found");
     conn_CreateServiceAction := conn_CreateServiceAction conn_down;
     conn_UpdateServiceAction := conn_UpdateServiceAction conn_down;
     conn_DeleteServiceAction := fun n _ =>
       if n <? k then Some (AWSError ResourceInUseException "action is associated")
       else Some (AWSError ResourceNotFoundException "service action not found");
     conn_WaitServiceActionReady := conn_WaitServiceActionReady conn_down;
     conn_WaitServiceActionDeleted := conn_WaitServiceActionDeleted conn_down |}.



(** No certificates to flatten. *)
Definition flatten_no_certificates
    (s : slice (option networkfirewall.TlsCertificateData))
  : types.List certificatesData * list diagnostic :=
  (types.ListNull, []).

(** ** Sample plans and states *)

Definition sample_timeouts : timeouts_Value :=
  {| timeouts_Create := 60; timeouts_Update := 60; timeouts_Delete := 60 |}.

(** A plan for a new configuration named cfg1, without description. *)
Definition plan_cfg1 : resourceTLSInspectionConfigurationData :=
  {| ARN := types.StringUnknown;
     EncryptionConfiguration := types.ListNull;
     Certificates := types.ListUnknown;
     CertificateAuthority := types.ListNull;
     Description := types.StringNull;
     ID := types.StringUnknown;
     LastModifiedTime := types.StringUnknown;
     Name := types.StringValue "cfg1";
     NumberOfAssociations := types.Int64Unknown;
     Status := types.StringUnknown;
     TLSInspectionConfiguration := tls_inbound;
     Timeouts := sample_timeouts;
     UpdateToken := types.StringUnknown |}.

(** The state recorded after cfg1 was created: the id is the ARN. *)
Definition state_cfg1 : resourceTLSInspectionConfigurationData :=
  {| ARN := types.StringValue sample_arn;
     EncryptionConfiguration := types.ListNull;
     Certificates := types.ListNull;
     CertificateAuthority := types.ListNull;
     Description := types.StringNull;
     ID := types.StringValue sample_arn;
     LastModifiedTime := types.StringValue "2024-05-01T10:00:00Z";
     Name := types.StringValue "cfg1";
     NumberOfAssociations := types.Int64Value 0;
     Status := types.StringValue "ACTIVE";
     TLSInspectionConfiguration := tls_inbound;
     Timeouts := sample_timeouts;
     UpdateToken := types.StringValue "token-1" |}.

(** The plan that gives cfg1 a description and changes nothing else. *)
Definition plan_cfg1_described : resourceTLSInspectionConfigurationData :=
  {| ARN := types.StringValue sample_arn;
     EncryptionConfiguration := types.ListNull;
     Certificates := types.ListNull;
     CertificateAuthority := types.ListNull;
     Description := types.StringValue "inbound inspection";
     ID := types.StringValue sample_arn;
     LastModifiedTime := types.StringValue "2024-05-01T10:00:00Z";
     Name := types.StringValue "cfg1";
     NumberOfAssociations := types.Int64Value 0;
     Status := types.StringValue "ACTIVE";
     TLSInspectionConfiguration := tls_inbound;
     Timeouts := sample_timeouts;
     UpdateToken := types.StringValue "token-1" |}.

Definition action_values : serviceActionValues :=
  {| accept_language := "en";
     definition := [action_unset];
     description := "";
     name := "restart" |}.

(** A service action whose declared values equal its recorded state. *)
Definition action_unchanged : ResourceData :=
  {| d_Id := "act-1";
     d_IsNewResource := false;
     d_prior := action_values;
     d_values := action_values;
     d_TimeoutCreate := 3;
     d_TimeoutRead := 3;
     d_TimeoutUpdate := 3;
     d_TimeoutDelete := 3 |}.

(** The same service action when the deadline of every operation passes
    before a first attempt completes. *)
Definition action_no_time : ResourceData :=
  {| d_Id := "act-1";
     d_IsNewResource := false;
     d_prior := action_values;
     d_values := action_values;
     d_TimeoutCreate := 0;
     d_TimeoutRead := 0;
     d_TimeoutUpdate := 0;
     d_TimeoutDelete := 0 |}.

(** ** The read operation of the TLS inspection configuration resource *)

(** Assignments to the remaining fields of the state. *)
Definition set_CertificateAuthority (v : types.List certificatesData) (d : resourceTLSInspectionConfigurationData)
  : resourceTLSInspectionConfigurationData :=
  {| ARN := ARN d;
     EncryptionConfiguration := EncryptionConfiguration d;
     Certificates := Certificates d;
     CertificateAuthority := v;
     Description := Description d;
     ID := ID d;
     LastModifiedTime := LastModifiedTime d;
     Name := Name d;
     NumberOfAssociations := NumberOfAssociations d;
     Status := Status d;
     TLSInspectionConfiguration := TLSInspectionConfiguration d;
     Timeouts := Timeouts d;
     UpdateToken := UpdateToken d |}.

Definition set_Description (v : types.String) (d : resourceTLSInspectionConfigurationData)
  : resourceTLSInspectionConfigurationData :=
  {| ARN := ARN d;
     EncryptionConfiguration := EncryptionConfiguration d;
     Certificates := Certificates d;
     CertificateAuthority := CertificateAuthority d;
     Description := v;
     ID := ID d;
     LastModifiedTime := LastModifiedTime d;
     Name := Name d;
     NumberOfAssociations := NumberOfAssociations d;
     Status := Status d;
     TLSInspectionConfiguration := TLSInspectionConfiguration d;
     Timeouts := Timeouts d;
     UpdateToken := UpdateToken d |}.

Definition set_EncryptionConfiguration (v : types.List encryptionConfigurationData) (d : resourceTLSInspectionConfigurationData)
  : resourceTLSInspectionConfigurationData :=
  {| ARN := ARN d;
     EncryptionConfiguration := v;
     Certificates := Certificates d;
     CertificateAuthority := CertificateAuthority d;
     Description := Description d;
     ID := ID d;
     LastModifiedTime := LastModifiedTime d;
     Name := Name d;
     NumberOfAssociations := NumberOfAssociations d;
     Status := Status d;
     TLSInspectionConfiguration := TLSInspectionConfiguration d;
     Timeouts := Timeouts d;
     UpdateToken := UpdateToken d |}.

Definition set_Name (v : types.String) (d : resourceTLSInspectionConfigurationData)
  : resourceTLSInspectionConfigurationData :=
  {| ARN := ARN d;
     EncryptionConfiguration := EncryptionConfiguration d;
     Certificates := Certificates d;
     CertificateAuthority := CertificateAuthority d;
     Description := Description d;
     ID := ID d;
     LastModifiedTime := LastModifiedTime d;
     Name := v;
     NumberOfAssociations := NumberOfAssociations d;
     Status := Status d;
     TLSInspectionConfiguration := TLSInspectionConfiguration d;
     Timeouts := Timeouts d;
     UpdateToken := UpdateToken d |}.

Definition set_TLSInspectionConfiguration (v : types.List tlsInspectionConfigurationData) (d : resourceTLSInspectionConfigurationData)
  : resourceTLSInspectionConfigurationData :=
  {| ARN := ARN d;
     EncryptionConfiguration := EncryptionConfiguration d;
     Certificates := Certificates d;
     CertificateAuthority := CertificateAuthority d;
     Description := Description d;
     ID := ID d;
     LastModifiedTime := LastModifiedTime d;
     Name := Name d;
     NumberOfAssociations := NumberOfAssociations d;
     Status := Status d;
     TLSInspectionConfiguration := v;
     Timeouts := Timeouts d;
     UpdateToken := UpdateToken d |}.

(** [create.ErrActionSetting] *)
Definition ErrActionSetting : string := "setting".

(** What Read leaves in its response: the diagnostics, the value given to
    [resp.State.Set] when Read reached it, and whether Read called
    [resp.State.RemoveResource]. *)
Record readResponse : Type := {
  Read_Diagnostics : list diagnostic;
  Read_State : option resourceTLSInspectionConfigurationData;
  Read_Removed : bool;
}.

Section TLSInspectionConfigurationRead.

Variable conn : Conn.

(** The three calls of [flex.Flatten], the generic flattener of the
    provider, which Read only calls: from the describe output into the
    state, from the certificates of the response into [state.Certificates]
    (as in Create), and from the payload tree into
    [state.TLSInspectionConfiguration]. Each returns what it leaves in its
    target and its diagnostics. *)
Variable flex_Flatten_Output :
  networkfirewall.DescribeTLSInspectionConfigurationOutput ->
  resourceTLSInspectionConfigurationData ->
  resourceTLSInspectionConfigurationData * list diagnostic.

Variable flex_Flatten_Certificates :
  slice (option networkfirewall.TlsCertificateData) ->
  types.List certificatesData * list diagnostic.

Variable flex_Flatten_TLSInspectionConfiguration :
  option networkfirewall.TLSInspectionConfiguration ->
  types.List tlsInspectionConfigurationData ->
  types.List tlsInspectionConfigurationData * list diagnostic.

Definition findTLSInspectionConfigurationByID (id : string)
  : M (option networkfirewall.DescribeTLSInspectionConfigurationOutput * option error) :=
  let input := aws.String id in
  r <- remote (DescribeTLSInspectionConfiguration input)
         (fun n => conn_DescribeTLSInspectionConfiguration conn n input) ;;
  let '(out, err) := r in
  match err with
  | Some e =>
      if errs.IsA ResourceNotFoundException err then ret (None, Some (NotFoundError (Some e)))
      else ret (None, Some e)
  | None =>
      match out with
      | None => ret (None, Some tfresource.NewEmptyResultError)
      | Some o =>
          match networkfirewall.DescribeOutput_TLSInspectionConfigurationResponse o with
          | None => ret (None, Some tfresource.NewEmptyResultError)
          | Some _ => ret (Some o, None)
          end
      end
  end.

Definition Read (state : resourceTLSInspectionConfigurationData) : M readResponse :=
  r <- findTLSInspectionConfigurationByID (types.ValueString (ID state)) ;;
  let '(out, err) := r in
  if tfresource.NotFound err then
    ret {| Read_Diagnostics := []; Read_State := None; Read_Removed := true |}
  else
    match err with
    | Some e =>
        ret {| Read_Diagnostics := [ErrorDiagnostic ErrActionSetting (Some e)];
               Read_State := None;
               Read_Removed := false |}
    | None =>
        o <- lift (deref out) ;;
        resp <- lift (deref (networkfirewall.DescribeOutput_TLSInspectionConfigurationResponse o)) ;;
        let state :=
          set_ARN (flex.StringToFramework (networkfirewall.TLSInspectionConfigurationArn resp)) state in
        let state :=
          set_Description (flex.StringToFramework (networkfirewall.Description resp)) state in
        (* Set ID to ARN *)
        let state :=
          set_ID (flex.StringToFramework (networkfirewall.TLSInspectionConfigurationArn resp)) state in
        let state :=
          set_Name (flex.StringToFramework (networkfirewall.TLSInspectionConfigurationName resp)) state in
        lastModified <- lift (deref (networkfirewall.LastModifiedTime resp)) ;;
        let state := set_LastModifiedTime (flex.StringValueToFramework lastModified) state in
        let state :=
          set_NumberOfAssociations
            (flex.Int64ToFramework (networkfirewall.NumberOfAssociations resp)) state in
        let state :=
          set_UpdateToken (flex.StringToFramework (networkfirewall.DescribeOutput_UpdateToken o)) state in
        let state :=
          set_Status
            (flex.StringToFramework (networkfirewall.TLSInspectionConfigurationStatus resp)) state in
        (* Complex types *)
        let encryptionConfiguration :=
          flattenTLSEncryptionConfiguration (networkfirewall.Response_EncryptionConfiguration resp) in
        let state := set_EncryptionConfiguration encryptionConfiguration state in
        let certificateAuthority :=
          flattenTLSCertificate (networkfirewall.CertificateAuthority resp) in
        let state := set_CertificateAuthority certificateAuthority state in
        let '(state, d1) := flex_Flatten_Output o state in
        let '(certs, d2) := flex_Flatten_Certificates (networkfirewall.Certificates resp) in
        let state := set_Certificates certs state in
        let '(tls, d3) :=
          flex_Flatten_TLSInspectionConfiguration
            (networkfirewall.DescribeOutput_TLSInspectionConfiguration o)
            (TLSInspectionConfiguration state) in
        let state := set_TLSInspectionConfiguration tls state in
        tlsInspectionConfiguration <-
          lift (flattenTLSInspectionConfiguration
                  (networkfirewall.DescribeOutput_TLSInspectionConfiguration o)) ;;
        let state := set_TLSInspectionConfiguration tlsInspectionConfiguration state in
        ret {| Read_Diagnostics := d1 ++ d2 ++ d3;
               Read_State := Some state;
               Read_Removed := false |}
    end.

End TLSInspectionConfigurationRead.

(** ** Classes of payloads

    [canonical]: a payload as the service stores it. No slice holds a nil
    element, no slice is empty without being nil, and every scalar pointer
    is set, the certificate authority ARN apart. *)

Definition slice_canonical {A} (elem : A -> bool) (s : slice (option A)) : bool :=
  match s with
  | None => true
  | Some [] => false
  | Some l => forallb (fun x => match x with Some a => elem a | None => false end) l
  end.

Definition isSet {A} (p : option A) : bool :=
  match p with Some _ => true | None => false end.

Definition PortRange_canonical (p : networkfirewall.PortRange) : bool :=
  isSet (networkfirewall.FromPort p) && isSet (networkfirewall.ToPort p).
Definition Address_canonical (a : networkfirewall.Address) : bool :=
  isSet (networkfirewall.AddressDefinition a).
Definition ServerCertificateScope_canonical (s : networkfirewall.ServerCertificateScope) : bool :=
  slice_canonical PortRange_canonical (networkfirewall.DestinationPorts s)
  && slice_canonical Address_canonical (networkfirewall.Destinations s)
  && slice_canonical (fun _ : Z => true) (networkfirewall.Protocols s)
  && slice_canonical PortRange_canonical (networkfirewall.SourcePorts s)
  && slice_canonical Address_canonical (networkfirewall.Sources s).
Definition CheckCertificateRevocationStatusActions_canonical
    (c : networkfirewall.CheckCertificateRevocationStatusActions) : bool :=
  isSet (networkfirewall.RevokedStatusAction c) && isSet (networkfirewall.UnknownStatusAction c).
Definition ServerCertificate_canonical (c : networkfirewall.ServerCertificate) : bool :=
  isSet (networkfirewall.ResourceArn c).
Definition ServerCertificateConfiguration_canonical
    (c : networkfirewall.ServerCertificateConfiguration) : bool :=
  match networkfirewall.CheckCertificateRevocationStatus c with
  | None => true
  | Some a => CheckCertificateRevocationStatusActions_canonical a
  end
  && slice_canonical ServerCertificateScope_canonical (networkfirewall.Scopes c)
  && slice_canonical ServerCertificate_canonical (networkfirewall.ServerCertificates c).
Definition canonical (p : option networkfirewall.TLSInspectionConfiguration) : bool :=
  match p with
  | None => true
  | Some c =>
      slice_canonical ServerCertificateConfiguration_canonical
        (networkfirewall.ServerCertificateConfigurations c)
  end.

Definition EncryptionConfiguration_canonical
    (p : option networkfirewall.EncryptionConfiguration) : bool :=
  match p with
  | None => true
  | Some c => isSet (networkfirewall.KeyId c) && isSet (networkfirewall.Type_ c)
  end.

Definition encryptionConfiguration_faithful (c : encryptionConfigurationData) : bool :=
  String_known (KeyId c) && String_known (Type_ c).

(** The elements of a slice that are not nil, in order. *)
Definition present {A} (l : list (option A)) : list A := omap id l.

(** A flattener that leaves the nil elements of a non-empty slice out: its
    result is a known list with one element for each element that is not
    nil, the same list as for the slice without its nil elements. *)
Definition skips_nil {B C} (flatten : slice (option B) -> types.List C) : Prop :=
  forall l, l <> [] ->
    (exists elems, flatten (Some l) = types.ListValue elems
                   /\ length elems = length (present l))
    /\ (present l <> [] -> flatten (Some l) = flatten (Some (map Some (present l)))).

(** An expander that builds one element, never nil, for each block, and the
    nil slice for no block. *)
Definition one_per_block {A B} (expand : list A -> slice (option B)) : Prop :=
  forall l,
    len (expand l) = length l
    /\ Forall (fun x => isSet x = true) (range (expand l))
    /\ (expand l = None <-> l = []).

(** The attributes of a definition block that travel in the definition
    map, each with its key in the payload. *)
Definition definitionKeyPairs : list (string * string) :=
  [ ("assume_role", servicecatalog_types.ServiceActionDefinitionKeyAssumeRole);
    ("name", servicecatalog_types.ServiceActionDefinitionKeyName);
    ("parameters", servicecatalog_types.ServiceActionDefinitionKeyParameters);
    ("version", servicecatalog_types.ServiceActionDefinitionKeyVersion) ].

(** What expand puts in the payload for one attribute of the block: the
    attribute when it is a non-empty string, nothing otherwise. *)
Definition expandedEntry (tfMap : gmap string any) (key : string)
  : option (option string) :=
  match assertString (tfMap !! key) with
  | Some v => if bool_decide (v = "") then None else Some (Some v)
  | None => None
  end.

(** What flatten puts in the block for one key of the payload: the value
    when the key is present with a pointer that is not nil. *)
Definition flattenedEntry (apiObject : gmap string (option string)) (apiKey : string)
  : option any :=
  match apiObject !! apiKey with
  | Some (Some v) => Some (anyString v)
  | _ => None
  end.

(** A definition map as the service stores it: only the four keys, each
    with a non-empty value. *)
Definition definition_canonical (apiObject : gmap string (option string)) : Prop :=
  map_Forall
    (fun k p => k ∈ definitionKeyPairs.*2 /\ exists v, p = Some v /\ v <> "")
    apiObject.

(** A found object whose status is one of the given ones. *)
Definition observesOneOf {A} (statuses : list string)
    (r : option A * string * option error) : Prop :=
  exists o st, r = (Some o, st, None) /\ In st statuses.

(** A found object, whatever its status. *)
Definition found_any {A} (r : option A * string * option error) : Prop :=
  exists o st, r = (Some o, st, None).

(** The number of results of a probe sequence that found the object in the
    given status. *)
Definition occurrences {A} (status : string)
    (s : list (option A * string * option error)) : nat :=
  length (List.filter
            (fun r : option A * string * option error =>
               match r with
               | (Some _, st, None) => String.eqb st status
               | _ => false
               end) s).

(** ** Further samples *)

(** A plan whose [tls_inspection_configuration] block is not known yet. *)
Definition plan_unknown_block : resourceTLSInspectionConfigurationData :=
  set_TLSInspectionConfiguration types.ListUnknown plan_cfg1.

(** The state recorded after the description of cfg1 was sent: the
    update call returned a new token and the resource id. *)
Definition state_cfg1_described : resourceTLSInspectionConfigurationData :=
  set_UpdateToken (types.StringValue "token-2")
    (set_ID (types.StringValue sample_id) plan_cfg1_described).

(** The describe answer for an active object that holds the given payload
    tree. *)
Definition described (tls : option networkfirewall.TLSInspectionConfiguration)
  : option networkfirewall.DescribeTLSInspectionConfigurationOutput * option error :=
  (Some {| networkfirewall.DescribeOutput_TLSInspectionConfiguration := tls;
           networkfirewall.DescribeOutput_TLSInspectionConfigurationResponse :=
             Some (sample_response "ACTIVE");
           networkfirewall.DescribeOutput_UpdateToken := Some "token-2" |},
   None).

(** A service that stores the tree of cfg1 as Create sent it. *)
Definition conn_storing : Conn := conn_scripted [] (described (expandTLSBlock tls_inbound)).

(** The delete call succeeds; the object is then seen deleting for [k]
    probes and is gone afterwards. *)
Definition conn_deleting (k : nat) : Conn :=
  {| conn_CreateTLSInspectionConfiguration := conn_CreateTLSInspectionConfiguration conn_down;
     conn_DescribeTLSInspectionConfiguration := fun n _ =>
       if n <=? k then found "DELETING" else absent;
     conn_UpdateTLSInspectionConfiguration := conn_UpdateTLSInspectionConfiguration conn_down;
     conn_DeleteTLSInspectionConfiguration := fun _ _ => None;
     conn_CreateServiceAction := conn_CreateServiceAction conn_down;
     conn_UpdateServiceAction := conn_UpdateServiceAction conn_down;
     conn_DeleteServiceAction := conn_DeleteServiceAction conn_down;
     conn_WaitServiceActionReady := conn_WaitServiceActionReady conn_down;
     conn_WaitServiceActionDeleted := conn_WaitServiceActionDeleted conn_down |}.

(** An encryption block with a customer managed key. *)
Definition encryption_kms : types.List encryptionConfigurationData :=
  types.ListValue
    [ {| Type_ := types.StringValue "CUSTOMER_KMS";
         KeyId := types.StringValue "alias/firewall" |} ].


(** The autoflex calls of Read when they leave their targets as they are. *)
Definition flatten_output_kept
    (o : networkfirewall.DescribeTLSInspectionConfigurationOutput)
    (state : resourceTLSInspectionConfigurationData)
  : resourceTLSInspectionConfigurationData * list diagnostic :=
  (state, []).

Definition flatten_tls_kept
    (p : option networkfirewall.TLSInspectionConfiguration)
    (v : types.List tlsInspectionConfigurationData)
  : types.List tlsInspectionConfigurationData * list diagnostic :=
  (v, []).

(** The definition map and the detail of the sample service action, as
    the service stores them. *)
Definition action_definition : gmap string (option string) :=
  <["Name" := Some "AWS-RestartEC2Instance"]> (<["Version" := Some "1"]> ∅).

Definition action_summary : servicecatalog.ServiceActionSummary :=
  {| servicecatalog.Id := Some "act-1";
     servicecatalog.Name := Some "restart";
     servicecatalog.Description := None;
     servicecatalog.DefinitionType := Some "SSM_AUTOMATION" |}.

Definition action_detail : servicecatalog.ServiceActionDetail :=
  {| servicecatalog.Definition_ := Some action_definition;
     servicecatalog.ServiceActionSummary_ := Some action_summary |}.

(** A service on which every call for a service action succeeds. *)
Definition conn_actions : Conn :=
  {| conn_CreateTLSInspectionConfiguration := conn_CreateTLSInspectionConfiguration conn_down;
     conn_DescribeTLSInspectionConfiguration := conn_DescribeTLSInspectionConfiguration conn_down;
     conn_UpdateTLSInspectionConfiguration := conn_UpdateTLSInspectionConfiguration conn_down;
     conn_DeleteTLSInspectionConfiguration := conn_DeleteTLSInspectionConfiguration conn_down;
     conn_CreateServiceAction := fun _ _ =>
       (Some {| servicecatalog.CreateOutput_ServiceActionDetail := Some action_detail |}, None);
     conn_UpdateServiceAction := fun _ _ => None;
     conn_DeleteServiceAction := fun _ _ => None;
     conn_WaitServiceActionReady := fun _ _ _ => (Some action_detail, None);
     conn_WaitServiceActionDeleted := fun _ _ _ => None |}.

(** A service action that is being created: no id yet, the declared block
    holds the attributes that are set. *)
Definition action_new : ResourceData :=
  {| d_Id := "";
     d_IsNewResource := true;
     d_prior := {| accept_language := ""; definition := []; description := ""; name := "" |};
     d_values := {| accept_language := "en"; definition := [action_set];
                    description := ""; name := "restart" |};
     d_TimeoutCreate := 3;
     d_TimeoutRead := 3;
     d_TimeoutUpdate := 3;
     d_TimeoutDelete := 3 |}.

(** A service action declared without a definition block. *)
Definition action_no_definition : ResourceData :=
  {| d_Id := "act-1";
     d_IsNewResource := false;
     d_prior := action_values;
     d_values := {| accept_language := "en"; definition := [];
                    description := ""; name := "restart" |};
     d_TimeoutCreate := 3;
     d_TimeoutRead := 3;
     d_TimeoutUpdate := 3;
     d_TimeoutDelete := 3 |}.

(** * Properties *)

(** ** The loops of the mappers *)

Lemma expand_loop {A B} (f : A -> B) (l : list A) (s : slice (option B)) :
  fold_left (fun apiObject x => append apiObject (Some (f x))) l s =
  match l with
  | [] => s
  | _ :: _ => Some (range s ++ map Some (map f l))
  end.
Proof.
  revert s. induction l as [|x l IH]; intros s; [reflexivity|].
  cbn [fold_left]. rewrite IH. destruct l as [|y l].
  - reflexivity.
  - unfold append. cbn [range map]. rewrite <- app_assoc. reflexivity.
Qed.

Lemma flatten_loop {B C} (g : B -> C) (l : list B) (elems : list C) :
  fold_left
    (fun elems x => match x with None => elems | Some v => elems ++ [g v] end)
    (map Some l) elems
  = elems ++ map g l.
Proof.
  revert elems. induction l as [|x l IH]; intros elems; cbn.
  - by rewrite app_nil_r.
  - rewrite IH, <- app_assoc. reflexivity.
Qed.

Lemma map_fixed {A} (h : A -> A) (ok : A -> bool) (l : list A) :
  (forall x, ok x = true -> h x = x) -> forallb ok l = true -> map h l = l.
Proof.
  intros Hh. induction l as [|x l IH]; cbn; [done|].
  intros [Hx Hl]%andb_prop. by rewrite Hh, IH.
Qed.

(** A populated list value: what one expand loop followed by the matching
    flatten loop gives back. *)
Lemma loops_round_trip {A B} (f : A -> B) (g : B -> A) (ok : A -> bool)
    (v : types.List A) :
  (forall x, ok x = true -> g (f x) = x) ->
  List_populated ok v = true ->
  (let s :=
     if types.List_IsNull v then None
     else fold_left (fun apiObject x => append apiObject (Some (f x)))
            (types.ElementsAs v []) None in
   if Nat.eqb (len s) 0 then types.ListNull
   else types.ListValue
          (fold_left
             (fun elems x => match x with None => elems | Some b => elems ++ [g b] end)
             (range s) []))
  = v.
Proof.
  intros Hgf Hv. destruct v as [| |[|x l]]; try discriminate; [reflexivity|].
  cbn [types.List_IsNull types.ElementsAs]. rewrite expand_loop.
  cbn [len range app length map Nat.eqb].
  change (Some (f x) :: map Some (map f l)) with (map Some (map f (x :: l))).
  rewrite flatten_loop, map_map. cbn [app].
  f_equal. apply (map_fixed _ ok); [|exact Hv]. intros y Hy. by apply Hgf.
Qed.

(** ** Round trip of the nested lists, innermost first *)

Ltac known_fields :=
  repeat match goal with
    | H : _ && _ = true |- _ => apply andb_prop in H; destruct H
    | H : String_known ?v = true |- _ => destruct v; try discriminate H; clear H
    | H : Int64_known ?v = true |- _ => destruct v; try discriminate H; clear H
    end.

Lemma portRange_round_trip (v : types.List portRangeData) :
  List_populated portRange_faithful v = true ->
  flattenPortRange
    (if types.List_IsNull v then None else expandPortRange (types.ElementsAs v [])) = v.
Proof.
  intros Hv. unfold flattenPortRange, expandPortRange.
  apply (loops_round_trip
           (fun tfObj =>
              {| networkfirewall.FromPort := aws.Int64 (types.ValueInt64 (FromPort tfObj));
                 networkfirewall.ToPort := aws.Int64 (types.ValueInt64 (ToPort tfObj)) |})
           (fun pr =>
              {| FromPort := flex.Int64ToFramework (networkfirewall.FromPort pr);
                 ToPort := flex.Int64ToFramework (networkfirewall.ToPort pr) |})
           portRange_faithful); [|exact Hv].
  intros [from to] H. unfold portRange_faithful in H. cbn in *. known_fields. reflexivity.
Qed.

Lemma sourceDestinations_round_trip (v : types.List sourceDestinationData) :
  List_populated sourceDestination_faithful v = true ->
  flattenSourceDestinations
    (if types.List_IsNull v then None else expandSourceDestinations (types.ElementsAs v [])) = v.
Proof.
  intros Hv. unfold flattenSourceDestinations, expandSourceDestinations.
  apply (loops_round_trip
           (fun tfObj =>
              {| networkfirewall.AddressDefinition :=
                   aws.String (types.ValueString (AddressDefinition tfObj)) |})
           (fun d =>
              {| AddressDefinition :=
                   flex.StringToFramework (networkfirewall.AddressDefinition d) |})
           sourceDestination_faithful); [|exact Hv].
  intros [a] H. unfold sourceDestination_faithful in H. cbn in *. known_fields. reflexivity.
Qed.

Lemma serverCertificates_round_trip (v : types.List serverCertificatesData) :
  List_populated serverCertificates_faithful v = true ->
  flattenServerCertificates
    (if types.List_IsNull v then None else expandServerCertificates (types.ElementsAs v [])) = v.
Proof.
  intros Hv. unfold flattenServerCertificates, expandServerCertificates.
  apply (loops_round_trip
           (fun item =>
              {| networkfirewall.ResourceArn :=
                   aws.String (types.ValueString (ResourceARN item)) |})
           (fun c =>
              {| ResourceARN := flex.StringToFramework (networkfirewall.ResourceArn c) |})
           serverCertificates_faithful); [|exact Hv].
  intros [a] H. unfold serverCertificates_faithful in H. cbn in *. known_fields. reflexivity.
Qed.

Lemma mapM_Int64_pointer (l : list types.Int64) :
  forallb Int64_known l = true ->
  mapM types.Int64_pointer l = Some (map Some (map types.ValueInt64 l)).
Proof.
  induction l as [|x l IH]; cbn; [done|].
  intros [Hx Hl]%andb_prop. destruct x; try discriminate.
  cbn. rewrite (IH Hl). reflexivity.
Qed.

Lemma protocols_round_trip (v : types.List types.Int64) :
  List_populated Int64_known v = true ->
  flattenProtocols
    (if types.List_IsNull v then None else types.ElementsAs_Int64 v (Some [])) = v.
Proof.
  intros Hv. destruct v as [| |[|x l]]; try discriminate; [reflexivity|].
  cbn [types.List_IsNull types.ElementsAs_Int64]. cbn [List_populated] in Hv.
  rewrite (mapM_Int64_pointer _ Hv). unfold flattenProtocols.
  cbn [len length map Nat.eqb range].
  change (Some (types.ValueInt64 x) :: map Some (map types.ValueInt64 l))
    with (map Some (map types.ValueInt64 (x :: l))).
  rewrite (flatten_loop types.Int64Value), map_map. cbn [app]. f_equal.
  apply (map_fixed _ Int64_known); [|exact Hv].
  intros [| |i] Hi; try discriminate. reflexivity.
Qed.

Lemma checkCertificateRevocationStatus_round_trip
    (v : types.List checkCertificateRevocationStatusData) :
  List_single checkCertificateRevocationStatus_faithful v = true ->
  flattenCheckCertificateRevocationStatus
    (if types.List_IsNull v then None
     else expandCheckCertificateRevocationStatus (types.ElementsAs v [])) = v.
Proof.
  intros Hv. destruct v as [| |[|[r u] [|? ?]]]; try discriminate; [reflexivity|].
  cbn in Hv. unfold checkCertificateRevocationStatus_faithful in Hv. cbn in *.
  known_fields. reflexivity.
Qed.

Lemma scopes_round_trip (v : types.List scopeData) :
  List_populated scope_faithful v = true ->
  flattenScopes (if types.List_IsNull v then None else expandScopes (types.ElementsAs v [])) = v.
Proof.
  intros Hv. unfold flattenScopes, expandScopes.
  apply (loops_round_trip
           (fun tfObj =>
              {| networkfirewall.Protocols :=
                   if types.List_IsNull (Protocols tfObj) then None
                   else types.ElementsAs_Int64 (Protocols tfObj) (Some []);
                 networkfirewall.DestinationPorts :=
                   if types.List_IsNull (DestinationPorts tfObj) then None
                   else expandPortRange (types.ElementsAs (DestinationPorts tfObj) []);
                 networkfirewall.Destinations :=
                   if types.List_IsNull (Destinations tfObj) then None
                   else expandSourceDestinations (types.ElementsAs (Destinations tfObj) []);
                 networkfirewall.SourcePorts :=
                   if types.List_IsNull (SourcePorts tfObj) then None
                   else expandPortRange (types.ElementsAs (SourcePorts tfObj) []);
                 networkfirewall.Sources :=
                   if types.List_IsNull (Sources tfObj) then None
                   else expandSourceDestinations (types.ElementsAs (Sources tfObj) []) |})
           (fun sc =>
              {| DestinationPorts := flattenPortRange (networkfirewall.DestinationPorts sc);
                 Destinations := flattenSourceDestinations (networkfirewall.Destinations sc);
                 Protocols := flattenProtocols (networkfirewall.Protocols sc);
                 SourcePorts := flattenPortRange (networkfirewall.SourcePorts sc);
                 Sources := flattenSourceDestinations (networkfirewall.Sources sc) |})
           scope_faithful); [|exact Hv].
  intros [dp ds pr sp ss] H. unfold scope_faithful in H. cbn in H.
  repeat (apply andb_prop in H; destruct H as [H ?]).
  cbn [networkfirewall.DestinationPorts networkfirewall.Destinations
       networkfirewall.Protocols networkfirewall.SourcePorts networkfirewall.Sources
       DestinationPorts Destinations Protocols SourcePorts Sources].
  rewrite !portRange_round_trip, !sourceDestinations_round_trip, protocols_round_trip
    by assumption.
  reflexivity.
Qed.

Lemma flatten_deref_loop {B C} (g : B -> C) (l : list B) (elems : list C) :
  fold_left
    (fun acc x =>
       outcome_bind acc (fun elems =>
       outcome_bind (deref x) (fun b => Return (elems ++ [g b]))))
    (map Some l) (Return elems)
  = Return (elems ++ map g l).
Proof.
  revert elems. induction l as [|x l IH]; intros elems; cbn.
  - by rewrite app_nil_r.
  - rewrite IH, <- app_assoc. reflexivity.
Qed.

Lemma serverCertificateConfigurations_round_trip
    (v : types.List serverCertificateConfigurationsData) :
  List_populated serverCertificateConfigurations_faithful v = true ->
  flattenServerCertificateConfigurations
    (expandServerCertificateConfigurations (types.ElementsAs v [])) = Return v.
Proof.
  intros Hv. destruct v as [| |[|x l]]; try discriminate; [reflexivity|].
  cbn [types.ElementsAs]. unfold expandServerCertificateConfigurations.
  rewrite (expand_loop
             (fun item =>
                {| networkfirewall.CertificateAuthorityArn :=
                     if types.String_IsNull (CertificateAuthorityArn item) then None
                     else aws.String (types.ValueString (CertificateAuthorityArn item));
                   networkfirewall.CheckCertificateRevocationStatus :=
                     if types.List_IsNull (CheckCertificateRevocationsStatus item) then None
                     else expandCheckCertificateRevocationStatus
                            (types.ElementsAs (CheckCertificateRevocationsStatus item) []);
                   networkfirewall.Scopes :=
                     if types.List_IsNull (Scope item) then None
                     else expandScopes (types.ElementsAs (Scope item) []);
                   networkfirewall.ServerCertificates :=
                     if types.List_IsNull (ServerCertificates item) then None
                     else expandServerCertificates
                            (types.ElementsAs (ServerCertificates item) []) |})).
  cbn [range app]. unfold flattenServerCertificateConfigurations.
  rewrite (flatten_deref_loop
             (fun scc =>
                {| CertificateAuthorityArn :=
                     flex.StringToFramework (networkfirewall.CertificateAuthorityArn scc);
                   CheckCertificateRevocationsStatus :=
                     flattenCheckCertificateRevocationStatus
                       (networkfirewall.CheckCertificateRevocationStatus scc);
                   Scope := flattenScopes (networkfirewall.Scopes scc);
                   ServerCertificates :=
                     flattenServerCertificates (networkfirewall.ServerCertificates scc) |})).
  cbn [outcome_bind app]. rewrite map_map. do 2 f_equal.
  apply (map_fixed _ serverCertificateConfigurations_faithful); [|exact Hv].
  intros [ca cs sc ce] H. unfold serverCertificateConfigurations_faithful in H. cbn in H.
  repeat (apply andb_prop in H; destruct H as [H ?]).
  cbn [networkfirewall.CertificateAuthorityArn networkfirewall.CheckCertificateRevocationStatus
       networkfirewall.Scopes networkfirewall.ServerCertificates
       CertificateAuthorityArn CheckCertificateRevocationsStatus Scope ServerCertificates].
  rewrite checkCertificateRevocationStatus_round_trip, scopes_round_trip,
    serverCertificates_round_trip by assumption.
  destruct ca; try discriminate; reflexivity.
Qed.

Lemma tls_round_trip (t : types.List tlsInspectionConfigurationData) :
  faithful t = true ->
  flattenTLSInspectionConfiguration (expandTLSBlock t) = Return t.
Proof.
  intros Ht. destruct t as [| |[|[scc] [|? ?]]]; try discriminate; [reflexivity|].
  cbn in Ht. unfold tlsInspectionConfiguration_faithful in Ht. cbn in Ht.
  unfold expandTLSBlock. cbn [types.List_IsNull types.ElementsAs].
  unfold expandTLSInspectionConfiguration, flattenTLSInspectionConfiguration.
  cbn [ServerCertificateConfiguration networkfirewall.ServerCertificateConfigurations].
  rewrite serverCertificateConfigurations_round_trip by exact Ht. reflexivity.
Qed.

(** A faithful tree is syntactically valid. *)
Lemma String_known_resolved v : String_known v = true -> String_resolved v = true.
Proof. by destruct v. Qed.

Lemma Int64_known_resolved v : Int64_known v = true -> Int64_resolved v = true.
Proof. by destruct v. Qed.

Lemma forallb_impl {A} (p q : A -> bool) (l : list A) :
  (forall x, p x = true -> q x = true) -> forallb p l = true -> forallb q l = true.
Proof.
  intros Hpq. induction l as [|x l IH]; cbn; [done|].
  intros [Hx Hl]%andb_prop. by rewrite (Hpq _ Hx), IH.
Qed.

Lemma List_populated_resolved {A} (p q : A -> bool) (v : types.List A) :
  (forall x, p x = true -> q x = true) ->
  List_populated p v = true -> List_resolved q v = true.
Proof.
  intros Hpq. destruct v as [| |[|x l]]; try done. cbn [List_populated List_resolved].
  by apply forallb_impl.
Qed.

Lemma List_single_resolved {A} (p q : A -> bool) (v : types.List A) :
  (forall x, p x = true -> q x = true) ->
  List_single p v = true -> List_resolved q v = true.
Proof.
  intros Hpq. destruct v as [| |[|x [|? ?]]]; try done. cbn. intros H.
  by rewrite (Hpq _ H).
Qed.

Lemma faithful_resolved (t : types.List tlsInspectionConfigurationData) :
  faithful t = true -> resolved t = true.
Proof.
  apply List_single_resolved. intros c.
  apply List_populated_resolved. intros [ca cs sc ce].
  unfold serverCertificateConfigurations_faithful, serverCertificateConfigurations_resolved.
  cbn. intros H. repeat (apply andb_prop in H; destruct H as [H ?]).
  repeat (apply andb_true_intro; split); try assumption.
  - eapply List_single_resolved; [|eassumption]. intros [r u].
    unfold checkCertificateRevocationStatus_faithful, checkCertificateRevocationStatus_resolved.
    cbn. intros [? ?]%andb_prop. by rewrite !String_known_resolved.
  - eapply List_populated_resolved; [|eassumption]. intros [dp ds pr sp ss].
    unfold scope_faithful, scope_resolved. cbn. intros H'.
    repeat (apply andb_prop in H'; destruct H' as [H' ?]).
    assert (Hp : forall x, portRange_faithful x = true -> portRange_resolved x = true).
    { intros [f t']. unfold portRange_faithful, portRange_resolved. cbn.
      intros [? ?]%andb_prop. by rewrite !Int64_known_resolved. }
    assert (Hs : forall x, sourceDestination_faithful x = true ->
                           sourceDestination_resolved x = true).
    { intros [a]. apply String_known_resolved. }
    repeat (apply andb_true_intro; split);
      (eapply List_populated_resolved; [|eassumption]);
      auto using Int64_known_resolved.
  - eapply List_populated_resolved; [|eassumption]. intros [a].
    apply String_known_resolved.
Qed.

(** ** Round trip of the definition block of a service action *)

Lemma lookup_expandKey (tfMap : gmap string any) (key apiKey : string)
    (apiObject : gmap string (option string)) (j : string) :
  expandKey tfMap key apiKey apiObject !! j =
  match assertString (tfMap !! key) with
  | Some v =>
      if bool_decide (v = "") then apiObject !! j
      else if decide (apiKey = j) then Some (Some v) else apiObject !! j
  | None => apiObject !! j
  end.
Proof.
  unfold expandKey. destruct (assertString (tfMap !! key)) as [v|]; [|done].
  case_bool_decide; [done|]. unfold aws.String. by rewrite lookup_insert.
Qed.

Lemma lookup_flattenKey (apiObject : gmap string (option string)) (apiKey key : string)
    (tfMap : gmap string any) (i : string) :
  flattenKey apiObject apiKey key tfMap !! i =
  match apiObject !! apiKey with
  | Some (Some v) => if decide (key = i) then Some (anyString v) else tfMap !! i
  | _ => tfMap !! i
  end.
Proof.
  unfold flattenKey. destruct (apiObject !! apiKey) as [[v|]|]; try done.
  cbn. by rewrite lookup_insert.
Qed.

Lemma lookup_expandKey_ne (tfMap : gmap string any) (key apiKey : string)
    (apiObject : gmap string (option string)) (j : string) :
  apiKey <> j -> expandKey tfMap key apiKey apiObject !! j = apiObject !! j.
Proof.
  intros Hne. rewrite lookup_expandKey.
  destruct (assertString (tfMap !! key)); [|done].
  case_bool_decide; [done|]. by rewrite decide_False.
Qed.

Lemma lookup_flattenKey_ne (apiObject : gmap string (option string)) (apiKey key : string)
    (tfMap : gmap string any) (i : string) :
  key <> i -> flattenKey apiObject apiKey key tfMap !! i = tfMap !! i.
Proof.
  intros Hne. rewrite lookup_flattenKey.
  destruct (apiObject !! apiKey) as [[v|]|]; try done. by rewrite decide_False.
Qed.

(** A present attribute of a faithful block is a non-empty string. *)
Lemma definition_faithful_lookup (m : gmap string any) (k : string) :
  definition_faithful m ->
  m !! k = None \/ (k ∈ definitionKeys /\ exists s, m !! k = Some (anyString s) /\ s <> "").
Proof.
  intros Hm. destruct (m !! k) as [v|] eqn:Hk; [right|by left].
  destruct (Hm k v Hk) as (Hin & Hv). destruct v as [s| |]; try discriminate.
  cbn in Hv. apply negb_true_iff, bool_decide_eq_false in Hv. eauto.
Qed.

(** One attribute through [expandKey] and back through [flattenKey]. *)
Lemma key_round_trip (m : gmap string any) (key apiKey : string)
    (apiObject : gmap string (option string)) (tfMap : gmap string any) :
  definition_faithful m ->
  apiObject !! apiKey =
    match assertString (m !! key) with
    | Some v => if bool_decide (v = "") then None else Some (Some v)
    | None => None
    end ->
  tfMap !! key = None ->
  flattenKey apiObject apiKey key tfMap !! key = m !! key.
Proof.
  intros Hm Hapi Htf. rewrite lookup_flattenKey, Hapi.
  destruct (definition_faithful_lookup m key Hm) as [->|(_ & s & -> & Hs)]; cbn.
  - done.
  - rewrite bool_decide_false by done. by rewrite decide_True.
Qed.

Lemma definition_round_trip (m : gmap string any) :
  definition_faithful m ->
  flattenServiceActionDefinition (expandServiceActionDefinition (Some m)) (definitionType m)
  = Some m.
Proof.
  intros Hm. unfold flattenServiceActionDefinition, expandServiceActionDefinition.
  cbv zeta. set (E := expandKey m "version" _ _).
  assert (HEa : E !! "AssumeRole" =
                match assertString (m !! "assume_role") with
                | Some v => if bool_decide (v = "") then None else Some (Some v)
                | None => None
                end).
  { unfold E. rewrite !lookup_expandKey_ne by done. rewrite lookup_expandKey.
    destruct (assertString (m !! "assume_role")); [|done]. by case_bool_decide. }
  assert (HEn : E !! "Name" =
                match assertString (m !! "name") with
                | Some v => if bool_decide (v = "") then None else Some (Some v)
                | None => None
                end).
  { unfold E. rewrite !lookup_expandKey_ne by done. rewrite lookup_expandKey.
    rewrite lookup_expandKey_ne by done.
    destruct (assertString (m !! "name")); [|done]. by case_bool_decide. }
  assert (HEp : E !! "Parameters" =
                match assertString (m !! "parameters") with
                | Some v => if bool_decide (v = "") then None else Some (Some v)
                | None => None
                end).
  { unfold E. rewrite !lookup_expandKey_ne by done. rewrite lookup_expandKey.
    rewrite !lookup_expandKey_ne by done.
    destruct (assertString (m !! "parameters")); [|done]. by case_bool_decide. }
  assert (HEv : E !! "Version" =
                match assertString (m !! "version") with
                | Some v => if bool_decide (v = "") then None else Some (Some v)
                | None => None
                end).
  { unfold E. rewrite lookup_expandKey. rewrite !lookup_expandKey_ne by done.
    destruct (assertString (m !! "version")); [|done]. by case_bool_decide. }
  clearbody E. f_equal. apply map_eq. intros i.
  unfold servicecatalog_types.ServiceActionDefinitionKeyAssumeRole,
    servicecatalog_types.ServiceActionDefinitionKeyName,
    servicecatalog_types.ServiceActionDefinitionKeyParameters,
    servicecatalog_types.ServiceActionDefinitionKeyVersion.
  set (T := flattenKey E "Version" "version" _).
  assert (HT : (if bool_decide (definitionType m = "") then T
                else <["type" := anyString (definitionType m)]> T) !! i
               = if decide (i = "type") then m !! "type" else T !! i).
  { unfold definitionType.
    destruct (definition_faithful_lookup m "type" Hm) as [Ht|(_ & s & Ht & Hs)];
      rewrite Ht; cbn [assertString].
    - rewrite bool_decide_true by done. case_decide; [|done]. subst i.
      unfold T. by rewrite !lookup_flattenKey_ne by done.
    - rewrite bool_decide_false by done. rewrite lookup_insert.
      case_decide; subst; by rewrite ?decide_True, ?decide_False by done. }
  rewrite HT. clear HT. case_decide as Hty; [by subst|].
  unfold T. clear T.
  destruct (decide (i = "version")) as [->|Hve].
  { apply key_round_trip; [done|done|]. by rewrite !lookup_flattenKey_ne by done. }
  rewrite lookup_flattenKey_ne by done.
  destruct (decide (i = "parameters")) as [->|Hpa].
  { apply key_round_trip; [done|done|]. by rewrite !lookup_flattenKey_ne by done. }
  rewrite lookup_flattenKey_ne by done.
  destruct (decide (i = "name")) as [->|Hna].
  { apply key_round_trip; [done|done|]. by rewrite !lookup_flattenKey_ne by done. }
  rewrite lookup_flattenKey_ne by done.
  destruct (decide (i = "assume_role")) as [->|Has].
  { apply key_round_trip; [done|done|]. done. }
  rewrite lookup_flattenKey_ne by done. rewrite lookup_empty.
  destruct (definition_faithful_lookup m i Hm) as [->|(Hin & _)]; [done|].
  unfold definitionKeys in Hin.
  repeat (apply elem_of_cons in Hin; destruct Hin as [->|Hin]; [done|]).
  by apply elem_of_nil in Hin.
Qed.

(** ** C1: round trip of the two mappers *)

(** C1, as amended. Flattening the payload obtained by expanding a tree
    gives the tree back when the tree is faithful: no node is unknown,
    every list node is null or non-empty, the single-block lists hold one
    element, and the scalars of nested blocks other than
    [certificate_authority_arn] are known. For the definition block of a
    service action the same holds when every attribute present in the block
    is a non-empty string, the type being handed to flatten next to the
    payload. *)
Theorem mapper_round_trip (t : types.List tlsInspectionConfigurationData)
    (m : gmap string any) :
  faithful t = true ->
  definition_faithful m ->
  flattenTLSInspectionConfiguration (expandTLSBlock t) = Return t
  /\ flattenServiceActionDefinition (expandServiceActionDefinition (Some m)) (definitionType m)
     = Some m.
Proof.
  intros Ht Hm. split.
  - by apply tls_round_trip.
  - by apply definition_round_trip.
Qed.

Lemma mapper_round_trip_witness :
  faithful tls_inbound = true
  /\ definition_faithful action_set
  /\ flattenTLSInspectionConfiguration (expandTLSBlock tls_inbound) = Return tls_inbound
  /\ flattenServiceActionDefinition (expandServiceActionDefinition (Some action_set))
       (definitionType action_set) = Some action_set.
Proof.
  split; [reflexivity|]. split; [unfold definition_faithful; compute_done|].
  apply (mapper_round_trip tls_inbound action_set);
    [reflexivity|unfold definition_faithful; compute_done].
Defined.

(** C1, as stated, fails on syntactically valid trees: a known empty block
    list comes back null, an unset [resource_arn] comes back as the known
    empty string, and the unset attributes of a definition block are
    missing from the flattened block. *)
Lemma mapper_round_trip_counterexample :
  (resolved tls_no_block = true
   /\ flattenTLSInspectionConfiguration (expandTLSBlock tls_no_block) <> Return tls_no_block)
  /\ (resolved tls_unset_arn = true
      /\ flattenTLSInspectionConfiguration (expandTLSBlock tls_unset_arn)
         <> Return tls_unset_arn)
  /\ (definition_resolved action_unset
      /\ flattenServiceActionDefinition (expandServiceActionDefinition (Some action_unset))
           (definitionType action_unset) <> Some action_unset).
Proof.
  split; [|split].
  - split; [reflexivity|]. cbn. discriminate.
  - split; [reflexivity|]. cbn. discriminate.
  - split; [unfold definition_resolved; compute_done|]. intros H.
    assert (Hl : forall x y : option (gmap string any),
               x = y -> (x ≫= (.!! "parameters")) = (y ≫= (.!! "parameters")))
      by (intros ? ? ->; reflexivity).
    apply Hl in H. vm_compute in H. discriminate H.
Qed.

(** ** C3: empty and nil slices *)

(** The flatteners guarded by [len(..) == 0] give the null list for the
    empty slice as for the nil slice. *)
Lemma flatten_empty_is_null :
  flattenServerCertificates (Some []) = types.ListNull
  /\ flattenScopes (Some []) = types.ListNull
  /\ flattenProtocols (Some []) = types.ListNull
  /\ flattenSourceDestinations (Some []) = types.ListNull
  /\ flattenPortRange (Some []) = types.ListNull
  /\ flattenCertificates (Some []) = types.ListNull.
Proof. repeat split; reflexivity. Qed.

(** C3. [flattenServerCertificateConfigurations] is guarded by [== nil]:
    for the empty, non-nil slice it returns a known empty list, for the nil
    slice the null list, while its sibling [flattenServerCertificates]
    returns the null list for both. *)
Theorem flattenServerCertificateConfigurations_empty_slice :
  flattenServerCertificateConfigurations (Some []) = Return (types.ListValue [])
  /\ flattenServerCertificateConfigurations None = Return types.ListNull
  /\ flattenServerCertificateConfigurations (Some [])
     <> flattenServerCertificateConfigurations None
  /\ flattenServerCertificates (Some []) = flattenServerCertificates None.
Proof. repeat split; try reflexivity. discriminate. Qed.

(** ** The status prober *)

Lemma status_probe (conn : Conn) (arn : string) (w : World) :
  statusTLSInspectionConfiguration conn arn w
  = (Return (probeResult (conn_DescribeTLSInspectionConfiguration conn (length w) (Some arn))),
     w ++ [DescribeTLSInspectionConfiguration (Some arn)]).
Proof.
  unfold statusTLSInspectionConfiguration, findTLSInspectionConfigurationByNameAndARN,
    bind, remote, probeResult, aws.String.
  destruct (conn_DescribeTLSInspectionConfiguration conn (length w) (Some arn))
    as [[o|] [e|]]; cbn [errs.IsA].
  - destruct (errs.IsA_error ResourceNotFoundException e); [reflexivity|].
    cbn. destruct e; reflexivity.
  - destruct (networkfirewall.DescribeOutput_TLSInspectionConfigurationResponse o) eqn:Hr;
      cbn; [rewrite Hr|]; reflexivity.
  - destruct (errs.IsA_error ResourceNotFoundException e); [reflexivity|].
    cbn. destruct e; reflexivity.
  - reflexivity.
Qed.

(** C6. One invocation of the status prober issues exactly one describe
    call. A not-found answer of the service becomes the sentinel: no object,
    no status, no error; any other error of the call is returned as the
    error of the probe, and the sentinel is none of these error outcomes. *)
Theorem status_prober_single_lookup (conn : Conn) (arn : string) (w : World) :
  let answer := conn_DescribeTLSInspectionConfiguration conn (length w) (Some arn) in
  statusTLSInspectionConfiguration conn arn w
  = (Return (probeResult answer), w ++ [DescribeTLSInspectionConfiguration (Some arn)])
  /\ probes (snd (statusTLSInspectionConfiguration conn arn w)) = probes w + 1
  /\ length (snd (statusTLSInspectionConfiguration conn arn w)) = length w + 1
  /\ (forall out code msg,
        probeResult (out, Some (AWSError code msg))
        = if bool_decide (code = ResourceNotFoundException) then (None, "", None)
          else (None, "", Some (AWSError code msg)))
  /\ (forall out e,
        probeResult (out, Some e)
        = if errs.IsA_error ResourceNotFoundException e || tfresource.NotFound (Some e)
          then (None, "", None)
          else (None, "", Some e))
  /\ (forall e, gone <> (None, "", Some e)).
Proof.
  cbv zeta. rewrite status_probe. repeat split.
  - cbn [snd]. unfold probes. rewrite List.filter_app, length_app. reflexivity.
  - cbn. rewrite length_app. reflexivity.
  - intros out code msg. unfold probeResult. cbn [errs.IsA_error tfresource.NotFound].
    by destruct out.
  - intros out e. unfold probeResult. destruct out;
      (destruct (errs.IsA_error ResourceNotFoundException e); [reflexivity|];
       cbn [orb]; by destruct (tfresource.NotFound (Some e))).
  - intros e. discriminate.
Qed.

(** ** The refresh loop as a poll over the probe sequence *)

Lemma probeSequence_S (conn : Conn) (arn : string) (start n : nat) :
  probeSequence conn arn start (S n)
  = probeResult (conn_DescribeTLSInspectionConfiguration conn start (Some arn))
    :: probeSequence conn arn (S start) n.
Proof. reflexivity. Qed.

Lemma probeSequence_app (conn : Conn) (arn : string) (start a b : nat) :
  probeSequence conn arn start (a + b)
  = probeSequence conn arn start a ++ probeSequence conn arn (start + a) b.
Proof. unfold probeSequence. by rewrite seq_app, map_app. Qed.

Lemma probeSequence_length (conn : Conn) (arn : string) (start n : nat) :
  length (probeSequence conn arn start n) = n.
Proof. unfold probeSequence. by rewrite length_map, length_seq. Qed.

Lemma refreshLoop_poll (conn : Conn) (arn : string) (conf : retry.StateChangeConf)
    (budget : nat) (c : retry.counters) (w : World) :
  retry.refreshLoop budget conf (statusTLSInspectionConfiguration conn arn) c w
  = let '(v, n) := poll conf c (probeSequence conn arn (length w) budget) in
    (Return (verdictResult v), w ++ repeat (DescribeTLSInspectionConfiguration (Some arn)) n).
Proof.
  revert c w. induction budget as [|budget IH]; intros c w.
  - cbn. by rewrite app_nil_r.
  - rewrite probeSequence_S. cbn [retry.refreshLoop poll]. unfold bind at 1.
    rewrite status_probe.
    destruct (retry.refreshStep conf c _) as [c'|res|res e]; try reflexivity.
    rewrite IH, length_app. cbn [length]. rewrite Nat.add_1_r.
    destruct (poll conf c' _) as [v n]. cbn [repeat]. by rewrite <- app_assoc.
Qed.

Lemma poll_app {A} (conf : retry.StateChangeConf) (c : retry.counters)
    (s1 s2 : list (option A * string * option error)) :
  poll conf c (s1 ++ s2)
  = match poll conf c s1 with
    | (retry.Continue c', n1) => let '(v, n2) := poll conf c' s2 in (v, n1 + n2)
    | r => r
    end.
Proof.
  revert c. induction s1 as [|r s1 IH]; intros c; cbn [app poll].
  - by destruct (poll conf c s2).
  - destruct (retry.refreshStep conf c r) as [c'| |]; try reflexivity.
    rewrite IH. destruct (poll conf c' s1) as [[c''| |] n1]; try reflexivity.
    by destruct (poll conf c'' s2).
Qed.

Lemma poll_consumed {A} (conf : retry.StateChangeConf) (c : retry.counters)
    (s : list (option A * string * option error)) :
  snd (poll conf c s) <= length s
  /\ (s <> [] -> 1 <= snd (poll conf c s))
  /\ (forall c', fst (poll conf c s) = retry.Continue c' -> snd (poll conf c s) = length s).
Proof.
  revert c. induction s as [|r s IH]; intros c; cbn [poll length].
  - cbn. split; [lia|split; done].
  - destruct (retry.refreshStep conf c r) as [c1| |]; cbn;
      try (split; [lia|split; [lia|done]]).
    destruct (IH c1) as (Hle & _ & Hc). destruct (poll conf c1 s) as [v n]. cbn in *.
    split; [lia|split; [lia|]]. intros c' Hv. by rewrite (Hc c' Hv).
Qed.

(** The three waiters, as polls. The deadline does not enter the steps of
    the loop. *)
Lemma wait_poll (conn : Conn) (arn : string) (conf : retry.StateChangeConf) (w : World) :
  (r <- retry.WaitForStateContext conf (statusTLSInspectionConfiguration conn arn) ;;
   let '(outputRaw, err) := r in
   ret (@None networkfirewall.TLSInspectionConfiguration, err)) w
  = let '(v, n) := poll (retry.withDefaults conf) startCounters
                     (probeSequence conn arn (length w) (retry.Timeout conf)) in
    (Return (None, snd (verdictResult v)),
     w ++ repeat (DescribeTLSInspectionConfiguration (Some arn)) n).
Proof.
  unfold bind, retry.WaitForStateContext. rewrite refreshLoop_poll.
  cbn [retry.withDefaults retry.Timeout]. unfold startCounters.
  destruct (poll _ _ _) as [v n]. by destruct (verdictResult v).
Qed.

(** ** Steps of the refresh loop under the waiters' configurations *)

Lemma notFound_step {A} (conf : retry.StateChangeConf) (c : retry.counters)
    (r : option A * string * option error) :
  notFound r -> retry.Target conf <> [] ->
  retry.refreshStep conf c r
  = if retry.NotFoundChecks conf <? S (retry.notfoundTick c)
    then retry.Stop None (NotFoundError None)
    else retry.Continue {| retry.notfoundTick := S (retry.notfoundTick c);
                           retry.targetOccurence := retry.targetOccurence c |}.
Proof.
  intros [st ->] Ht. unfold retry.refreshStep.
  destruct (retry.Target conf); [done|reflexivity].
Qed.

(** Not-found probes within the tolerance: the loop goes on and counts. *)
Lemma poll_notFound_tolerated {A} (conf : retry.StateChangeConf) (c : retry.counters)
    (s : list (option A * string * option error)) :
  Forall notFound s -> retry.Target conf <> [] ->
  retry.notfoundTick c + length s <= retry.NotFoundChecks conf ->
  poll conf c s
  = (retry.Continue {| retry.notfoundTick := retry.notfoundTick c + length s;
                       retry.targetOccurence := retry.targetOccurence c |},
     length s).
Proof.
  intros Hs Ht. revert c. induction Hs as [|r s Hr Hs IH]; intros c Hle.
  - cbn. rewrite Nat.add_0_r. by destruct c.
  - cbn [poll length] in *. rewrite notFound_step by done.
    destruct (Nat.ltb_spec (retry.NotFoundChecks conf) (S (retry.notfoundTick c))); [lia|].
    rewrite IH by (cbn; lia). cbn. do 3 f_equal. lia.
Qed.

(** One not-found probe beyond the tolerance ends the loop. *)
Lemma poll_notFound_exceeded {A} (conf : retry.StateChangeConf) (c : retry.counters)
    (s : list (option A * string * option error)) :
  Forall notFound s -> retry.Target conf <> [] ->
  retry.notfoundTick c + length s = S (retry.NotFoundChecks conf) ->
  s <> [] ->
  poll conf c s = (retry.Stop None (NotFoundError None), length s).
Proof.
  intros Hs Ht. revert c. induction Hs as [|r s Hr Hs IH]; intros c Heq Hne; [done|].
  cbn [poll length] in *. rewrite notFound_step by done.
  destruct (Nat.ltb_spec (retry.NotFoundChecks conf) (S (retry.notfoundTick c))) as [Hlt|Hge].
  - assert (length s = 0) as Hl by lia. by rewrite Hl.
  - destruct s as [|r' s']; [cbn in Heq; lia|].
    rewrite IH by (cbn in *; done || lia). reflexivity.
Qed.

Lemma probeSequence_Forall (conn : Conn) (arn : string) (start n : nat)
    (P : option networkfirewall.DescribeTLSInspectionConfigurationOutput
         * string * option error -> Prop) :
  (forall i, i < n ->
     P (probeResult (conn_DescribeTLSInspectionConfiguration conn (start + i) (Some arn)))) ->
  Forall P (probeSequence conn arn start n).
Proof.
  revert start. induction n as [|n IH]; intros start HP; [constructor|].
  rewrite probeSequence_S. constructor.
  - specialize (HP 0). rewrite Nat.add_0_r in HP. apply HP. lia.
  - apply IH. intros i Hi. specialize (HP (S i)).
    replace (S start + i) with (start + S i) by lia. apply HP. lia.
Qed.

(** ** C8: tolerance of the create poll for not-found probes *)

Lemma waitCreated_poll (conn : Conn) (arn : string) (timeout : nat) (w : World) :
  waitTLSInspectionConfigurationCreated conn arn timeout w
  = let '(v, n) := poll (retry.withDefaults (createdConf timeout)) startCounters
                     (probeSequence conn arn (length w) timeout) in
    (Return (None, snd (verdictResult v)),
     w ++ repeat (DescribeTLSInspectionConfiguration (Some arn)) n).
Proof. apply (wait_poll conn arn (createdConf timeout)). Qed.

(** C8, as amended. Let the create poll still be running after [p]
    probes, the last of which (if any) found the object. If the next [k]
    probes all report not-found then, for [k] up to and including 20, the
    poll keeps polling: it issues a further probe when the deadline
    allows. The 21st consecutive not-found probe ends the poll with a
    not-found error, and no probe follows it. *)
Theorem create_poll_not_found_tolerance (conn : Conn) (arn : string) (w : World)
    (timeout p k : nat) (c : retry.counters) :
  poll (retry.withDefaults (createdConf timeout)) startCounters
    (probeSequence conn arn (length w) p) = (retry.Continue c, p) ->
  retry.notfoundTick c = 0 ->
  (forall i, i < k ->
     notFound (probeResult
                 (conn_DescribeTLSInspectionConfiguration conn (length w + p + i) (Some arn)))) ->
  (k <= 20 -> p + k < timeout ->
   exists r n,
     waitTLSInspectionConfigurationCreated conn arn timeout w
     = (r, w ++ repeat (DescribeTLSInspectionConfiguration (Some arn)) n)
     /\ p + k < n)
  /\ (k = 21 -> p + k <= timeout ->
      waitTLSInspectionConfigurationCreated conn arn timeout w
      = (Return (None, Some (NotFoundError None)),
         w ++ repeat (DescribeTLSInspectionConfiguration (Some arn)) (p + 21))).
Proof.
  intros Hp Hc Hk.
  assert (Hs := probeSequence_Forall conn arn (length w + p) k _ Hk).
  assert (Hl := probeSequence_length conn arn (length w + p) k).
  rewrite waitCreated_poll.
  set (conf := retry.withDefaults (createdConf timeout)) in *.
  split.
  - intros Hk20 Hlt.
    replace timeout with (p + (k + (timeout - p - k))) by lia.
    rewrite !probeSequence_app, poll_app, Hp, poll_app.
    rewrite poll_notFound_tolerated; [|done|done|rewrite Hc, Hl; cbn; lia].
    rewrite Hl.
    destruct (poll_consumed conf
                {| retry.notfoundTick := retry.notfoundTick c + k;
                   retry.targetOccurence := retry.targetOccurence c |}
                (probeSequence conn arn (length w + p + k) (timeout - p - k)))
      as (_ & Hone & _).
    destruct (poll _ _ (probeSequence conn arn (length w + p + k) _)) as [v n] eqn:Hv.
    cbn in Hone. eexists _, _. split; [reflexivity|].
    assert (1 <= n); [|lia]. apply Hone. intros Hnil.
    apply (f_equal length) in Hnil. rewrite probeSequence_length in Hnil. cbn in Hnil. lia.
  - intros -> Hle.
    replace timeout with (p + (21 + (timeout - p - 21))) by lia.
    rewrite !probeSequence_app, poll_app, Hp, poll_app.
    rewrite poll_notFound_exceeded; [|done|done|rewrite Hc, Hl; reflexivity|].
    + rewrite Hl. reflexivity.
    + intros Hnil. rewrite Hnil in Hl. discriminate.
Qed.

Lemma create_poll_not_found_tolerance_witness :
  (exists r n,
     waitTLSInspectionConfigurationCreated (conn_absent_then_active 3) sample_arn 60 []
     = (r, [] ++ repeat (DescribeTLSInspectionConfiguration (Some sample_arn)) n)
     /\ 0 + 3 < n)
  /\ waitTLSInspectionConfigurationCreated (conn_absent_then_active 21) sample_arn 60 []
     = (Return (None, Some (NotFoundError None)),
        [] ++ repeat (DescribeTLSInspectionConfiguration (Some sample_arn)) (0 + 21)).
Proof.
  split.
  - refine (proj1 (create_poll_not_found_tolerance (conn_absent_then_active 3) sample_arn []
                     60 0 3 startCounters _ _ _) _ _).
    + reflexivity.
    + reflexivity.
    + intros i Hi. destruct i as [|[|[|i]]]; [eexists; reflexivity ..|lia].
    + lia.
    + lia.
  - refine (proj2 (create_poll_not_found_tolerance (conn_absent_then_active 21) sample_arn []
                     60 0 21 startCounters _ _ _) _ _).
    + reflexivity.
    + reflexivity.
    + intros i Hi. do 21 (destruct i as [|i]; [eexists; reflexivity|]). lia.
    + reflexivity.
    + lia.
Defined.

(** C8, as stated, fails at the bound: after 20 consecutive not-found
    probes the create poll is still polling, and converges on the two
    probes that follow. *)
Lemma create_poll_counterexample :
  Forall notFound (probeSequence (conn_absent_then_active 20) sample_arn 0 20)
  /\ waitTLSInspectionConfigurationCreated (conn_absent_then_active 20) sample_arn 60 []
     = (Return (None, None),
        repeat (DescribeTLSInspectionConfiguration (Some sample_arn)) 22).
Proof.
  split.
  - apply probeSequence_Forall. intros i Hi.
    do 20 (destruct i as [|i]; [eexists; reflexivity|]). lia.
  - vm_compute. reflexivity.
Qed.

(** ** C7: the update poll *)

Lemma waitUpdated_poll (conn : Conn) (arn : string) (timeout : nat) (w : World) :
  waitTLSInspectionConfigurationUpdated conn arn timeout w
  = let '(v, n) := poll (retry.withDefaults (updatedConf timeout)) startCounters
                     (probeSequence conn arn (length w) timeout) in
    (Return (None, snd (verdictResult v)),
     w ++ repeat (DescribeTLSInspectionConfiguration (Some arn)) n).
Proof. apply (wait_poll conn arn (updatedConf timeout)). Qed.

Section UpdatePoll.

Context {A : Type}.
Variable timeout : nat.

Local Abbreviation conf := (retry.withDefaults (updatedConf timeout)).






End UpdatePoll.





(** ** Counting the calls of a trace *)

Lemma mutatingCalls_app (w1 w2 : World) :
  mutatingCalls (w1 ++ w2) = mutatingCalls w1 + mutatingCalls w2.
Proof. unfold mutatingCalls. by rewrite List.filter_app, length_app. Qed.

Lemma mutatingCalls_describes (arn : option string) (n : nat) :
  mutatingCalls (repeat (DescribeTLSInspectionConfiguration arn) n) = 0.
Proof. induction n as [|n IH]; [reflexivity|]. cbn [repeat]. exact IH. Qed.

(** ** C5: the read after the create call *)

(** Whenever the create call succeeded and the describe call that follows
    it fails, with not-found or with any other error, Create dereferences the
    nil result of the finder. *)
Lemma Create_read_error_faults (conn : Conn)
    (flatten : slice (option networkfirewall.TlsCertificateData) ->
               types.List certificatesData * list diagnostic)
    (plan : resourceTLSInspectionConfigurationData) (w : World)
    diags tls enc resp token e out :
  expandBlocks plan = (diags, Some (tls, enc)) ->
  (forall input,
     conn_CreateTLSInspectionConfiguration conn (length w) input
     = (Some {| networkfirewall.CreateOutput_TLSInspectionConfigurationResponse := Some resp;
                networkfirewall.CreateOutput_UpdateToken := token |}, None)) ->
  conn_DescribeTLSInspectionConfiguration conn (S (length w))
    (Some (aws.ToString (networkfirewall.TLSInspectionConfigurationArn resp)))
  = (out, Some e) ->
  exists input,
    Create conn flatten plan w
    = (Panic,
       w ++ [CreateTLSInspectionConfiguration input;
             DescribeTLSInspectionConfiguration
               (Some (aws.ToString (networkfirewall.TLSInspectionConfigurationArn resp)))]).
Proof.
  intros Hblocks Hcreate Hdescribe. unfold Create. rewrite Hblocks.
  eexists. unfold bind at 1. unfold remote at 1. rewrite Hcreate.
  cbn [set_ARN set_ID set_UpdateToken ARN].
  replace (types.ValueString
             (flex.StringToFramework (networkfirewall.TLSInspectionConfigurationArn resp)))
    with (aws.ToString (networkfirewall.TLSInspectionConfigurationArn resp))
    by (by destruct (networkfirewall.TLSInspectionConfigurationArn resp)).
  unfold bind at 1. unfold findTLSInspectionConfigurationByNameAndARN, bind at 1.
  unfold remote, aws.String. rewrite length_app. cbn [length]. rewrite Nat.add_1_r, Hdescribe.
  rewrite <- app_assoc. cbn [app].
  destruct (errs.IsA ResourceNotFoundException (Some e)); reflexivity.
Qed.

(** C5. After a successful create call whose object is not yet visible,
    the read that follows returns not-found, Create drops the error and
    dereferences the nil result: the operation faults after these two calls
    and never starts the create poll. *)
Theorem create_faults_when_read_finds_nothing :
  forall flatten,
    fst (Create conn_created_invisible flatten plan_cfg1 []) = Panic
    /\ length (snd (Create conn_created_invisible flatten plan_cfg1 [])) = 2
    /\ mutatingCalls (snd (Create conn_created_invisible flatten plan_cfg1 [])) = 1
    /\ fst (findTLSInspectionConfigurationByNameAndARN conn_created_invisible sample_arn
              [CreateTLSInspectionConfiguration
                 {| networkfirewall.CreateInput_TLSInspectionConfigurationName := Some "cfg1";
                    networkfirewall.CreateInput_Description := None;
                    networkfirewall.CreateInput_TLSInspectionConfiguration :=
                      expandTLSBlock tls_inbound;
                    networkfirewall.CreateInput_EncryptionConfiguration := None |}])
       = Return (None,
                 Some (NotFoundError
                         (Some (AWSError ResourceNotFoundException "configuration not found")))).
Proof. intros flatten. repeat split; vm_compute; reflexivity. Qed.

(** ** C2: the identifier across operations *)

Lemma String_Equal_refl (v : types.String) : types.String_Equal v v = true.
Proof. destruct v; cbn; [done|done|by apply bool_decide_eq_true]. Qed.

Lemma changed_false (plan state : resourceTLSInspectionConfigurationData) :
  Description plan = Description state ->
  TLSInspectionConfiguration plan = TLSInspectionConfiguration state ->
  EncryptionConfiguration plan = EncryptionConfiguration state ->
  changed plan state = false.
Proof.
  intros Hd Ht He. unfold changed, List_Equal. rewrite Hd, Ht, He, String_Equal_refl.
  by rewrite !bool_decide_true.
Qed.

(** Without a change of a tracked field, Update only polls, and the state
    it sets is the plan: the identifier is untouched. *)
Lemma Update_unchanged (conn : Conn) (plan state : resourceTLSInspectionConfigurationData)
    (w : World) :
  changed plan state = false ->
  exists r n,
    Update conn plan state w
    = (Return r,
       w ++ repeat (DescribeTLSInspectionConfiguration
                      (Some (types.ValueString (ARN plan)))) n)
    /\ (State r = Some plan \/ State r = None /\ Diagnostics r <> []).
Proof.
  intros Hc. unfold Update. rewrite Hc. unfold bind. rewrite waitUpdated_poll.
  destruct (poll _ _ _) as [v n]. destruct (snd (verdictResult v)) as [e|];
    eexists _, n; (split; [reflexivity|]); cbn; [right|left]; done.
Qed.

(** C2. Create assigns the ARN of the response to the identifier, but an
    Update that sends a change assigns the identifier from
    [TLSInspectionConfigurationId] of the response, not from its ARN: the
    state it sets carries an id that differs from the ARN assigned at
    creation. *)
Theorem update_replaces_id_by_resource_id :
  (exists r w,
     Create conn_active flatten_no_certificates plan_cfg1 [] = (Return r, w)
     /\ Diagnostics r = []
     /\ (ID <$> State r) = Some (types.StringValue sample_arn)
     /\ (ARN <$> State r) = Some (types.StringValue sample_arn))
  /\ ID state_cfg1 = types.StringValue sample_arn
  /\ ID plan_cfg1_described = types.StringValue sample_arn
  /\ exists r w,
       Update conn_active plan_cfg1_described state_cfg1 [] = (Return r, w)
       /\ Diagnostics r = []
       /\ (ID <$> State r) = Some (types.StringValue sample_id)
       /\ (ARN <$> State r) = Some (types.StringValue sample_arn)
       /\ types.StringValue sample_id <> types.StringValue sample_arn.
Proof.
  split; [|split; [reflexivity|split; [reflexivity|]]].
  - eexists _, _. split; [vm_compute; reflexivity|]. repeat split.
  - eexists _, _. split; [vm_compute; reflexivity|]. repeat split. discriminate.
Qed.

(** ** The retry loop and the reads of the service action resource *)

Lemma mutatingCalls_repeat (c : Call) (n : nat) :
  mutatingCalls (repeat c n) = if mutating c then n else 0.
Proof.
  unfold mutatingCalls. induction n as [|n IH]; cbn [repeat List.filter].
  - by destruct (mutating c).
  - destruct (mutating c); cbn [length]; by rewrite ?IH.
Qed.

(** A retried function that makes one call [c] per run: the loop makes at
    most [timeout] calls, at least one when the deadline allows a run, and
    when it makes none its error is the one it started with or the
    [TimeoutError] without last error. *)
Lemma retryLoop_trace {St} (c : Call) (h : St -> nat -> St * option retry.RetryError)
    (f : St -> M (St * option retry.RetryError)) :
  (forall s w, f s w = (Return (h s (length w)), w ++ [c])) ->
  forall timeout s resultErr w,
  exists s' err k,
    retry.retryLoop timeout f s resultErr w = (Return (s', err), w ++ repeat c k)
    /\ k <= timeout
    /\ (0 < timeout -> 0 < k)
    /\ (k = 0 ->
        err = Some (match resultErr with None => TimeoutError None | Some e => e end)).
Proof.
  intros Hf timeout. induction timeout as [|t IH]; intros s resultErr w.
  - exists s, (Some (match resultErr with None => TimeoutError None | Some e => e end)), 0.
    cbn. rewrite app_nil_r. by destruct resultErr.
  - cbn [retry.retryLoop]. unfold bind. rewrite Hf.
    destruct (h s (length w)) as [s1 [[e retryable]|]].
    + destruct retryable; cbn [retry.Retryable retry.Err].
      * destruct (IH s1 (Some e) (w ++ [c])) as (s' & err & k & Heq & Hk & _ & _).
        exists s', err, (S k). rewrite Heq, <- app_assoc. cbn [repeat app].
        repeat split; (done || lia).
      * exists s1, (Some e), 1. cbn. repeat split; (done || lia).
    + exists s1, None, 1. cbn. repeat split; (done || lia).
Qed.

Lemma updateRetry_trace (conn : Conn) (timeout : nat)
    (input : servicecatalog.UpdateServiceActionInput) (w : World) :
  exists err k,
    updateRetry conn timeout input w
    = (Return (tt, err), w ++ repeat (UpdateServiceAction input) k)
    /\ (k = 0 -> err = Some (TimeoutError None)).
Proof.
  unfold updateRetry, retry.RetryContext.
  edestruct (retryLoop_trace (UpdateServiceAction input)
               (fun (_ : unit) n =>
                  let err := conn_UpdateServiceAction conn n input in
                  if errs.Contains err "profile does not exist" then
                    (tt, match err with Some e => retry.RetryableError e | None => None end)
                  else
                    match err with
                    | Some e => (tt, retry.NonRetryableError e)
                    | None => (tt, None)
                    end))
    as (s' & err & k & Heq & _ & _ & Hk0); [|exists err, k; destruct s'; eauto].
  intros s w0. unfold bind, updateAttempt, remote. cbv zeta.
  destruct (errs.Contains _ _); [reflexivity|].
  by destruct (conn_UpdateServiceAction conn (length w0) input).
Qed.

Lemma Read_trace (conn : Conn) (d : ResourceData) (w : World) :
  exists r,
    resourceServiceActionRead conn d w
    = (Return r, w ++ [ServiceActionReady (accept_language (d_values d)) (d_Id d)]).
Proof.
  unfold resourceServiceActionRead, bind, remote.
  destruct (conn_WaitServiceActionReady conn (length w) _ _) as [output err].
  destruct (negb (d_IsNewResource d) && tfresource.NotFound err); [by eexists|].
  destruct err; [by eexists|].
  destruct output as [[def [sas|]]|]; by eexists.
Qed.

(** ** C4: the calls of Update *)

(** C4, as amended. An Update of the TLS inspection configuration whose
    plan equals the recorded state on the description, the nested definition
    tree and the encryption settings issues no mutating call, whatever the
    other fields hold. The Update of a service action sends its update call
    even when no attribute changed. *)
Theorem update_mutating_calls (conn : Conn)
    (plan state : resourceTLSInspectionConfigurationData) (w : World)
    (d : ResourceData) (w2 : World) :
  Description plan = Description state ->
  TLSInspectionConfiguration plan = TLSInspectionConfiguration state ->
  EncryptionConfiguration plan = EncryptionConfiguration state ->
  d_prior d = d_values d ->
  mutatingCalls (snd (Update conn plan state w)) = mutatingCalls w
  /\ mutatingCalls w2 < mutatingCalls (snd (resourceServiceActionUpdate conn d w2)).
Proof.
  intros Hd Ht He Hprior. split.
  - destruct (Update_unchanged conn plan state w (changed_false _ _ Hd Ht He))
      as (r & n & -> & _).
    cbn [snd]. rewrite mutatingCalls_app, mutatingCalls_describes. lia.
  - unfold resourceServiceActionUpdate, updateDefinition, HasChange_definition.
    rewrite Hprior. rewrite bool_decide_true by done. cbn [negb].
    unfold bind at 1. unfold lift at 1. unfold bind at 1.
    destruct (updateRetry_trace conn (d_TimeoutUpdate d) (updateInput d None) w2)
      as (err & k & -> & Hk0).
    unfold bind at 1.
    assert (Hcount : forall n, mutatingCalls (w2 ++ repeat (UpdateServiceAction
                                   (updateInput d None)) n) = mutatingCalls w2 + n).
    { intros n. by rewrite mutatingCalls_app, mutatingCalls_repeat. }
    destruct k as [|k].
    + rewrite (Hk0 eq_refl). cbn [tfresource.TimedOut]. unfold updateAttempt, remote.
      cbn [repeat]. rewrite app_nil_r.
      destruct (conn_UpdateServiceAction conn (length w2) (updateInput d None)).
      * unfold ret. cbn [snd]. rewrite mutatingCalls_app. cbn. lia.
      * destruct (Read_trace conn d (w2 ++ [UpdateServiceAction (updateInput d None)]))
          as (r & ->).
        cbn [snd]. rewrite !mutatingCalls_app. cbn. lia.
    + destruct (tfresource.TimedOut err).
      * unfold updateAttempt, remote.
        destruct (conn_UpdateServiceAction conn _ (updateInput d None)).
        -- unfold ret. cbn [snd]. rewrite mutatingCalls_app, Hcount. lia.
        -- match goal with
           | |- context [resourceServiceActionRead conn d ?w0] =>
               destruct (Read_trace conn d w0) as (r & ->)
           end.
           cbn [snd]. rewrite 2!mutatingCalls_app, Hcount. lia.
      * unfold ret at 1. destruct err.
        -- unfold ret. cbn [snd]. rewrite Hcount. lia.
        -- match goal with
           | |- context [resourceServiceActionRead conn d ?w0] =>
               destruct (Read_trace conn d w0) as (r & ->)
           end.
           cbn [snd]. rewrite mutatingCalls_app, Hcount. lia.
Qed.

Lemma update_mutating_calls_witness :
  mutatingCalls (snd (Update conn_active state_cfg1 state_cfg1 [])) = mutatingCalls []
  /\ mutatingCalls [] < mutatingCalls (snd (resourceServiceActionUpdate conn_active
                                             action_unchanged [])).
Proof.
  apply (update_mutating_calls conn_active state_cfg1 state_cfg1 [] action_unchanged []);
    reflexivity.
Defined.

(** C4, as stated, fails for the service action: with declared values
    equal to the recorded state its Update still issues the update call. *)
Lemma update_mutating_calls_counterexample :
  d_prior action_unchanged = d_values action_unchanged
  /\ mutatingCalls (snd (resourceServiceActionUpdate conn_active action_unchanged [])) = 1
  /\ head (snd (resourceServiceActionUpdate conn_active action_unchanged []))
     = Some (UpdateServiceAction
               {| servicecatalog.UpdateInput_Id := Some "act-1";
                  servicecatalog.UpdateInput_AcceptLanguage := None;
                  servicecatalog.UpdateInput_Definition := None;
                  servicecatalog.UpdateInput_Description := None;
                  servicecatalog.UpdateInput_Name := None |}).
Proof. repeat split; vm_compute; reflexivity. Qed.

(** ** C9: idempotent delete *)

(** An error carries one error code. *)
Lemma IsA_error_exclusive (code1 code2 : string) :
  code1 <> code2 ->
  forall e, errs.IsA_error code1 e = true -> errs.IsA_error code2 e = false.
Proof.
  intros Hne. fix IH 1. intros [c m|s|[e'|]| |st|[e'|]]; cbn; try done.
  - intros Hc%bool_decide_eq_true. apply bool_decide_eq_false. congruence.
  - apply IH.
  - apply IH.
Qed.

Lemma IsA_not_TimedOut (code : string) (err : option error) :
  errs.IsA code err = true -> tfresource.TimedOut err = false.
Proof. by destruct err as [[| |[?|]| | |[?|]]|]. Qed.

(** The delete loop of the service action: the resource is in use for [k]
    attempts, the next attempt returns not-found, and the deadline is after
    that attempt. *)
Lemma deleteRetry_in_use_then_not_found (conn : Conn) (input : option string) (k : nat) :
  forall timeout w resultErr,
    (forall i, i < k ->
       errs.IsA ResourceInUseException (conn_DeleteServiceAction conn (length w + i) input)
       = true) ->
    errs.IsA ResourceNotFoundException (conn_DeleteServiceAction conn (length w + k) input)
    = true ->
    k < timeout ->
    retry.retryLoop timeout
      (fun _ : unit =>
         err <- deleteAttempt conn input ;;
         if errs.IsA ResourceInUseException err then
           ret (tt, match err with Some e => retry.RetryableError e | None => None end)
         else
           match err with
           | Some e => ret (tt, retry.NonRetryableError e)
           | None => ret (tt, None)
           end)
      tt resultErr w
    = (Return (tt, conn_DeleteServiceAction conn (length w + k) input),
       w ++ repeat (DeleteServiceAction input) (S k)).
Proof.
  induction k as [|k IH]; intros timeout w resultErr Hbusy Hgone Hlt;
    (destruct timeout as [|t]; [lia|]); cbn [retry.retryLoop];
    unfold bind at 1; unfold deleteAttempt at 1, remote at 1; unfold bind at 1.
  - rewrite Nat.add_0_r in Hgone.
    destruct (conn_DeleteServiceAction conn (length w) input) as [e|] eqn:He;
      [|discriminate Hgone].
    cbn [errs.IsA] in *.
    rewrite (IsA_error_exclusive ResourceNotFoundException ResourceInUseException) by done.
    cbn. by rewrite Nat.add_0_r, He.
  - assert (H0 := Hbusy 0 ltac:(lia)). rewrite Nat.add_0_r in H0.
    destruct (conn_DeleteServiceAction conn (length w) input) as [e|] eqn:He;
      [|discriminate H0].
    rewrite H0. cbn [ret retry.RetryableError retry.Retryable retry.Err].
    rewrite IH.
    + rewrite length_app. cbn [length]. rewrite <- app_assoc. cbn [app repeat].
      by replace (length w + 1 + k) with (length w + S k) by lia.
    + intros i Hi. rewrite length_app. cbn [length].
      replace (length w + 1 + i) with (length w + S i) by lia. apply Hbusy. lia.
    + rewrite length_app. cbn [length].
      by replace (length w + 1 + k) with (length w + S k) by lia.
    + lia.
Qed.

(** C9. When the delete call returns the not-found exception of the
    service, Delete of the TLS inspection configuration returns at once:
    no diagnostic, no further call. So does the Delete of a service action,
    whether the not-found answer comes on the first attempt (or on the
    single attempt made after the deadline) or after [k] attempts that
    found the action in use. *)
Theorem delete_not_found_converges (conn : Conn)
    (state : resourceTLSInspectionConfigurationData) (w : World)
    (d : ResourceData) (w2 : World) (k : nat) :
  errs.IsA ResourceNotFoundException
    (conn_DeleteTLSInspectionConfiguration conn (length w)
       (Some (types.ValueString (ARN state)))) = true ->
  (forall i, i < k ->
     errs.IsA ResourceInUseException
       (conn_DeleteServiceAction conn (length w2 + i) (Some (d_Id d))) = true) ->
  errs.IsA ResourceNotFoundException
    (conn_DeleteServiceAction conn (length w2 + k) (Some (d_Id d))) = true ->
  k = 0 \/ k < d_TimeoutDelete d ->
  Delete conn state w
  = (Return [], w ++ [DeleteTLSInspectionConfiguration (Some (types.ValueString (ARN state)))])
  /\ resourceServiceActionDelete conn d w2
     = (Return [], w2 ++ repeat (DeleteServiceAction (Some (d_Id d))) (S k)).
Proof.
  intros Htls Hbusy Hgone Hk. split.
  - unfold Delete, bind, remote, aws.String.
    destruct (conn_DeleteTLSInspectionConfiguration conn (length w) _) as [e|];
      [|discriminate Htls].
    by rewrite Htls.
  - unfold resourceServiceActionDelete, aws.String. unfold bind at 1.
    unfold deleteRetry, retry.RetryContext.
    destruct (d_TimeoutDelete d) as [|t] eqn:Ht.
    + (* the deadline passes before a first attempt completes *)
      destruct Hk as [->|Hk]; [|lia]. rewrite Nat.add_0_r in Hgone.
      cbn [retry.retryLoop ret tfresource.TimedOut].
      unfold bind, deleteAttempt, remote. by rewrite Hgone.
    + assert (Hlt : k < S t) by lia.
      rewrite (deleteRetry_in_use_then_not_found conn _ k (S t) w2 None Hbusy Hgone Hlt).
      rewrite (IsA_not_TimedOut _ _ Hgone). unfold bind, ret. by rewrite Hgone.
Qed.

Lemma delete_not_found_converges_witness :
  (Delete conn_active state_cfg1 []
   = (Return [], [] ++ [DeleteTLSInspectionConfiguration
                          (Some (types.ValueString (ARN state_cfg1)))])
   /\ resourceServiceActionDelete conn_active action_unchanged []
      = (Return [], [] ++ repeat (DeleteServiceAction (Some (d_Id action_unchanged))) 1))
  /\ (Delete (conn_in_use_then_gone 2) state_cfg1 []
      = (Return [], [] ++ [DeleteTLSInspectionConfiguration
                             (Some (types.ValueString (ARN state_cfg1)))])
      /\ resourceServiceActionDelete (conn_in_use_then_gone 2) action_unchanged []
         = (Return [], [] ++ repeat (DeleteServiceAction (Some (d_Id action_unchanged))) 3))
  /\ (Delete conn_active state_cfg1 []
      = (Return [], [] ++ [DeleteTLSInspectionConfiguration
                             (Some (types.ValueString (ARN state_cfg1)))])
      /\ resourceServiceActionDelete conn_active action_no_time []
         = (Return [], [] ++ repeat (DeleteServiceAction (Some (d_Id action_no_time))) 1)).
Proof.
  split; [|split].
  - apply (delete_not_found_converges conn_active state_cfg1 [] action_unchanged [] 0).
    + reflexivity.
    + intros i Hi. lia.
    + reflexivity.
    + left. reflexivity.
  - apply (delete_not_found_converges (conn_in_use_then_gone 2) state_cfg1 []
             action_unchanged [] 2).
    + reflexivity.
    + intros i Hi. destruct i as [|[|i]]; [reflexivity ..|lia].
    + reflexivity.
    + right. cbn. lia.
  - apply (delete_not_found_converges conn_active state_cfg1 [] action_no_time [] 0).
    + reflexivity.
    + intros i Hi. lia.
    + reflexivity.
    + left. reflexivity.
Defined.

(** ** C10: the attempt made after a timed-out retry loop *)















(** * Further properties of the two resources *)

(** ** The loops of the flatteners and the nil elements of a slice *)

Lemma flatten_loop_present {B C} (g : B -> C) (l : list (option B)) (elems : list C) :
  fold_left (fun elems x => match x with None => elems | Some v => elems ++ [g v] end) l elems
  = elems ++ map g (present l).
Proof.
  revert elems. induction l as [|[b|] l IH]; intros elems; cbn.
  - by rewrite app_nil_r.
  - rewrite IH, <- app_assoc. reflexivity.
  - apply IH.
Qed.

Lemma present_map_Some {A} (l : list A) : present (map Some l) = l.
Proof. induction l as [|x l IH]; cbn; [done|]. unfold present in IH. by rewrite IH. Qed.

Lemma skips_nil_loop {B C} (g : B -> C) :
  skips_nil (fun s : slice (option B) =>
    if Nat.eqb (len s) 0 then types.ListNull
    else types.ListValue
           (fold_left (fun elems x => match x with None => elems | Some v => elems ++ [g v] end)
              (range s) [])).
Proof.
  intros l Hl. cbn [len range]. destruct l as [|x l]; [done|]. cbn [length Nat.eqb].
  rewrite flatten_loop_present. cbn [app]. split.
  - eexists. split; [reflexivity|]. by rewrite length_map.
  - intros Hp. destruct (present (x :: l)) as [|b bs] eqn:Hb; [done|].
    cbn [map length Nat.eqb].
    change (Some b :: map Some bs) with (map Some (b :: bs)).
    rewrite flatten_loop_present, present_map_Some. reflexivity.
Qed.

(** X1. The flatteners guarded by [len(..) == 0] skip the nil elements of
    a slice: for a non-empty slice the result is a known list that holds
    one element for each element that is not nil, and it is the result for
    the slice without its nil elements. A slice of nil elements only
    therefore gives the known empty list, not the null list. *)
Theorem flatten_skips_nil_elements :
  skips_nil flattenPortRange
  /\ skips_nil flattenSourceDestinations
  /\ skips_nil flattenProtocols
  /\ skips_nil flattenScopes
  /\ skips_nil flattenServerCertificates.
Proof.
  split; [|split; [|split; [|split]]].
  - apply (skips_nil_loop
             (fun pr => {| FromPort := flex.Int64ToFramework (networkfirewall.FromPort pr);
                           ToPort := flex.Int64ToFramework (networkfirewall.ToPort pr) |})).
  - apply (skips_nil_loop
             (fun d => {| AddressDefinition :=
                            flex.StringToFramework (networkfirewall.AddressDefinition d) |})).
  - apply (skips_nil_loop types.Int64Value).
  - apply (skips_nil_loop
             (fun sc =>
                {| DestinationPorts := flattenPortRange (networkfirewall.DestinationPorts sc);
                   Destinations := flattenSourceDestinations (networkfirewall.Destinations sc);
                   Protocols := flattenProtocols (networkfirewall.Protocols sc);
                   SourcePorts := flattenPortRange (networkfirewall.SourcePorts sc);
                   Sources := flattenSourceDestinations (networkfirewall.Sources sc) |})).
  - apply (skips_nil_loop
             (fun c => {| ResourceARN := flex.StringToFramework (networkfirewall.ResourceArn c) |})).
Qed.

(** ** The loops of the expanders *)

Lemma one_per_block_loop {A B} (f : A -> B) :
  one_per_block (fun l : list A =>
    fold_left (fun apiObject x => append apiObject (Some (f x))) l None).
Proof.
  intros l. rewrite expand_loop. destruct l as [|x l].
  - cbn. split; [done|]. split; [constructor|done].
  - cbn [len range app]. split; [by rewrite !length_map|]. split.
    + apply Forall_forall. intros y Hy. apply list_elem_of_In, in_map_iff in Hy.
      destruct Hy as (b & <- & _). reflexivity.
    + split; discriminate.
Qed.





Lemma expandServerCertificateConfigurations_elements : one_per_block expandServerCertificateConfigurations.
Proof.
  apply (one_per_block_loop
             (fun item =>
                {| networkfirewall.CertificateAuthorityArn :=
                     if types.String_IsNull (CertificateAuthorityArn item) then None
                     else aws.String (types.ValueString (CertificateAuthorityArn item));
                   networkfirewall.CheckCertificateRevocationStatus :=
                     if types.List_IsNull (CheckCertificateRevocationsStatus item) then None
                     else expandCheckCertificateRevocationStatus
                            (types.ElementsAs (CheckCertificateRevocationsStatus item) []);
                   networkfirewall.Scopes :=
                     if types.List_IsNull (Scope item) then None
                     else expandScopes (types.ElementsAs (Scope item) []);
                   networkfirewall.ServerCertificates :=
                     if types.List_IsNull (ServerCertificates item) then None
                     else expandServerCertificates
                            (types.ElementsAs (ServerCertificates item) []) |})).
Qed.


(** ** Nil elements of the server certificate configurations *)

Lemma flatten_deref_loop_faults {B C} (g : B -> C) (l : list (option B))
    (acc : outcome (list C)) :
  fold_left
    (fun acc x =>
       outcome_bind acc (fun elems =>
       outcome_bind (deref x) (fun b => Return (elems ++ [g b]))))
    l acc = Panic
  <-> acc = Panic \/ In None l.
Proof.
  revert acc. induction l as [|x l IH]; intros acc; cbn [fold_left In].
  - tauto.
  - rewrite IH. destruct acc as [elems|], x as [b|]; cbn; intuition congruence.
Qed.

Lemma canonical_not_nil {A B} (expand : list A -> slice (option B)) (l : list A) :
  one_per_block expand -> ~ In None (range (expand l)).
Proof.
  intros Hone Hin. destruct (Hone l) as (_ & Hall & _).
  rewrite Forall_forall in Hall. apply list_elem_of_In, Hall in Hin. discriminate.
Qed.

(** X3. [flattenServerCertificateConfigurations] reads the fields of every
    element without a nil check: it faults exactly when the slice holds a nil
    element, and so does [flattenTLSInspectionConfiguration] on a payload
    with such a slice. The expanders never build a nil element, so
    flattening what was expanded never faults, whatever the tree. *)
Theorem flatten_faults_iff_nil_element :
  (forall s, flattenServerCertificateConfigurations s = Panic <-> In None (range s))
  /\ (forall p,
        flattenTLSInspectionConfiguration p = Panic
        <-> exists c, p = Some c
                      /\ In None (range (networkfirewall.ServerCertificateConfigurations c)))
  /\ (forall tfList,
        flattenServerCertificateConfigurations (expandServerCertificateConfigurations tfList)
        <> Panic)
  /\ (forall t, flattenTLSInspectionConfiguration (expandTLSBlock t) <> Panic).
Proof.
  assert (H1 : forall s, flattenServerCertificateConfigurations s = Panic <-> In None (range s)).
  { intros [l|]; cbn [range In]; [|split; [discriminate|tauto]].
    unfold flattenServerCertificateConfigurations.
    match goal with
    | |- outcome_bind ?x _ = Panic <-> _ =>
        assert (Hx : x = Panic <-> In None l);
        [rewrite flatten_deref_loop_faults; intuition discriminate|]
    end. 
    rewrite <- Hx. 
    match goal with |- outcome_bind ?x _ = _ <-> _ => destruct x end; cbn; intuition discriminate. }
  assert (H2 : forall p,
        flattenTLSInspectionConfiguration p = Panic
        <-> exists c, p = Some c
                      /\ In None (range (networkfirewall.ServerCertificateConfigurations c))).
  { intros [c|]; cbn [flattenTLSInspectionConfiguration].
    - specialize (H1 (networkfirewall.ServerCertificateConfigurations c)).
      destruct (flattenServerCertificateConfigurations _); cbn [outcome_bind]; split.
      + discriminate.
      + intros (c' & [= <-] & H). apply H1 in H. discriminate.
      + intros _. exists c. split; [done|]. by apply H1.
      + done.
    - split; [discriminate|]. intros (c & H & _). discriminate. }
  assert (H3 : forall tfList,
        flattenServerCertificateConfigurations (expandServerCertificateConfigurations tfList)
        <> Panic).
  { intros tfList. rewrite H1. apply canonical_not_nil.
    apply expandServerCertificateConfigurations_elements. }
  split; [exact H1|]. split; [exact H2|]. split; [exact H3|].
  intros t. rewrite H2. intros (c & Hc & Hin). unfold expandTLSBlock in Hc.
  destruct (types.List_IsNull t); [discriminate|].
  unfold expandTLSInspectionConfiguration in Hc.
  destruct (types.ElementsAs t []) as [|tfObj ?]; [discriminate|].
  injection Hc as <-. cbn in Hin. revert Hin. apply canonical_not_nil.
  apply expandServerCertificateConfigurations_elements.
Qed.

(** ** Round trip from the payload *)

Lemma canonical_elements {B} (ok : B -> bool) (l : list (option B)) :
  forallb (fun x => match x with Some a => ok a | None => false end) l = true ->
  l = map Some (present l) /\ forallb ok (present l) = true.
Proof.
  induction l as [|[b|] l IH]; cbn; [done| |discriminate].
  intros [Hb Hl]%andb_prop. destruct (IH Hl) as [Heq Hok]. unfold present in *.
  split; [by rewrite <- Heq|]. by rewrite Hb, Hok.
Qed.

Lemma loops_round_trip_payload {A B} (f : A -> B) (g : B -> A) (ok : B -> bool)
    (s : slice (option B)) :
  (forall b, ok b = true -> f (g b) = b) ->
  slice_canonical ok s = true ->
  (let v :=
     if Nat.eqb (len s) 0 then types.ListNull
     else types.ListValue
            (fold_left
               (fun elems x => match x with None => elems | Some b => elems ++ [g b] end)
               (range s) []) in
   if types.List_IsNull v then None
   else fold_left (fun apiObject x => append apiObject (Some (f x)))
          (types.ElementsAs v []) None)
  = s.
Proof.
  intros Hfg Hs. destruct s as [[|x l]|]; [discriminate| |reflexivity].
  cbn [slice_canonical] in Hs. apply canonical_elements in Hs. destruct Hs as [Heq Hok].
  cbn [len range length Nat.eqb]. cbv zeta. cbn [types.List_IsNull types.ElementsAs].
  rewrite flatten_loop_present, expand_loop. cbn [app range].
  destruct (present (x :: l)) as [|b bs] eqn:Hb; [discriminate Heq|].
  cbn [map]. rewrite Heq. cbn [map]. f_equal.
  cbn [forallb] in Hok. apply andb_prop in Hok. destruct Hok as [Hb1 Hbs].
  rewrite Hfg by done. f_equal. f_equal. rewrite map_map.
  clear Hb Heq. induction bs as [|y bs IH]; [reflexivity|].
  cbn [forallb map] in *. apply andb_prop in Hbs. destruct Hbs as [Hy Hbs].
  by rewrite Hfg, IH.
Qed.

Ltac set_fields :=
  repeat match goal with
    | H : _ && _ = true |- _ => apply andb_prop in H; destruct H
    | H : isSet ?p = true |- _ => destruct p; try discriminate H; clear H
    end.

Lemma portRange_round_trip_payload (s : slice (option networkfirewall.PortRange)) :
  slice_canonical PortRange_canonical s = true ->
  (if types.List_IsNull (flattenPortRange s) then None
   else expandPortRange (types.ElementsAs (flattenPortRange s) [])) = s.
Proof.
  intros Hs. unfold flattenPortRange, expandPortRange.
  apply (loops_round_trip_payload
           (fun tfObj =>
              {| networkfirewall.FromPort := aws.Int64 (types.ValueInt64 (FromPort tfObj));
                 networkfirewall.ToPort := aws.Int64 (types.ValueInt64 (ToPort tfObj)) |})
           (fun pr =>
              {| FromPort := flex.Int64ToFramework (networkfirewall.FromPort pr);
                 ToPort := flex.Int64ToFramework (networkfirewall.ToPort pr) |})
           PortRange_canonical); [|exact Hs].
  intros [from to] H. unfold PortRange_canonical in H. cbn in *. set_fields. reflexivity.
Qed.

Lemma sourceDestinations_round_trip_payload (s : slice (option networkfirewall.Address)) :
  slice_canonical Address_canonical s = true ->
  (if types.List_IsNull (flattenSourceDestinations s) then None
   else expandSourceDestinations (types.ElementsAs (flattenSourceDestinations s) [])) = s.
Proof.
  intros Hs. unfold flattenSourceDestinations, expandSourceDestinations.
  apply (loops_round_trip_payload
           (fun tfObj =>
              {| networkfirewall.AddressDefinition :=
                   aws.String (types.ValueString (AddressDefinition tfObj)) |})
           (fun d =>
              {| AddressDefinition :=
                   flex.StringToFramework (networkfirewall.AddressDefinition d) |})
           Address_canonical); [|exact Hs].
  intros [a] H. unfold Address_canonical in H. cbn in *. set_fields. reflexivity.
Qed.

Lemma serverCertificates_round_trip_payload
    (s : slice (option networkfirewall.ServerCertificate)) :
  slice_canonical ServerCertificate_canonical s = true ->
  (if types.List_IsNull (flattenServerCertificates s) then None
   else expandServerCertificates (types.ElementsAs (flattenServerCertificates s) [])) = s.
Proof.
  intros Hs. unfold flattenServerCertificates, expandServerCertificates.
  apply (loops_round_trip_payload
           (fun item =>
              {| networkfirewall.ResourceArn :=
                   aws.String (types.ValueString (ResourceARN item)) |})
           (fun c =>
              {| ResourceARN := flex.StringToFramework (networkfirewall.ResourceArn c) |})
           ServerCertificate_canonical); [|exact Hs].
  intros [a] H. unfold ServerCertificate_canonical in H. cbn in *. set_fields. reflexivity.
Qed.

Lemma mapM_Int64_pointer_values (l : list Z) :
  mapM types.Int64_pointer (map types.Int64Value l) = Some (map Some l).
Proof. induction l as [|x l IH]; cbn; [done|]. by rewrite IH. Qed.

Lemma protocols_round_trip_payload (s : slice (option Z)) :
  slice_canonical (fun _ : Z => true) s = true ->
  (if types.List_IsNull (flattenProtocols s) then None
   else types.ElementsAs_Int64 (flattenProtocols s) (Some [])) = s.
Proof.
  intros Hs. destruct s as [[|x l]|]; [discriminate| |reflexivity].
  cbn [slice_canonical] in Hs. apply canonical_elements in Hs. destruct Hs as [Heq _].
  unfold flattenProtocols. cbn [len length Nat.eqb range].
  rewrite (flatten_loop_present types.Int64Value). cbn [app types.List_IsNull types.ElementsAs_Int64].
  by rewrite mapM_Int64_pointer_values, <- Heq.
Qed.

Lemma checkCertificateRevocationStatus_round_trip_payload
    (p : option networkfirewall.CheckCertificateRevocationStatusActions) :
  match p with
  | None => true
  | Some a => CheckCertificateRevocationStatusActions_canonical a
  end = true ->
  (if types.List_IsNull (flattenCheckCertificateRevocationStatus p) then None
   else expandCheckCertificateRevocationStatus
          (types.ElementsAs (flattenCheckCertificateRevocationStatus p) [])) = p.
Proof.
  destruct p as [[r u]|]; [|reflexivity].
  unfold CheckCertificateRevocationStatusActions_canonical. cbn. intros H. set_fields.
  reflexivity.
Qed.

Lemma scopes_round_trip_payload (s : slice (option networkfirewall.ServerCertificateScope)) :
  slice_canonical ServerCertificateScope_canonical s = true ->
  (if types.List_IsNull (flattenScopes s) then None
   else expandScopes (types.ElementsAs (flattenScopes s) [])) = s.
Proof.
  intros Hs. unfold flattenScopes, expandScopes.
  apply (loops_round_trip_payload
           (fun tfObj =>
              {| networkfirewall.Protocols :=
                   if types.List_IsNull (Protocols tfObj) then None
                   else types.ElementsAs_Int64 (Protocols tfObj) (Some []);
                 networkfirewall.DestinationPorts :=
                   if types.List_IsNull (DestinationPorts tfObj) then None
                   else expandPortRange (types.ElementsAs (DestinationPorts tfObj) []);
                 networkfirewall.Destinations :=
                   if types.List_IsNull (Destinations tfObj) then None
                   else expandSourceDestinations (types.ElementsAs (Destinations tfObj) []);
                 networkfirewall.SourcePorts :=
                   if types.List_IsNull (SourcePorts tfObj) then None
                   else expandPortRange (types.ElementsAs (SourcePorts tfObj) []);
                 networkfirewall.Sources :=
                   if types.List_IsNull (Sources tfObj) then None
                   else expandSourceDestinations (types.ElementsAs (Sources tfObj) []) |})
           (fun sc =>
              {| DestinationPorts := flattenPortRange (networkfirewall.DestinationPorts sc);
                 Destinations := flattenSourceDestinations (networkfirewall.Destinations sc);
                 Protocols := flattenProtocols (networkfirewall.Protocols sc);
                 SourcePorts := flattenPortRange (networkfirewall.SourcePorts sc);
                 Sources := flattenSourceDestinations (networkfirewall.Sources sc) |})
           ServerCertificateScope_canonical); [|exact Hs].
  intros [dp ds pr sp ss] H. unfold ServerCertificateScope_canonical in H. cbn in H.
  repeat (apply andb_prop in H; destruct H as [H ?]).
  cbn [networkfirewall.DestinationPorts networkfirewall.Destinations
       networkfirewall.Protocols networkfirewall.SourcePorts networkfirewall.Sources
       DestinationPorts Destinations Protocols SourcePorts Sources].
  rewrite !portRange_round_trip_payload, !sourceDestinations_round_trip_payload,
    protocols_round_trip_payload by assumption.
  reflexivity.
Qed.

Lemma certificateAuthorityArn_round_trip_payload (p : option string) :
  (if types.String_IsNull (flex.StringToFramework p) then None
   else aws.String (types.ValueString (flex.StringToFramework p))) = p.
Proof. by destruct p. Qed.

Lemma serverCertificateConfigurations_round_trip_payload
    (s : slice (option networkfirewall.ServerCertificateConfiguration)) :
  slice_canonical ServerCertificateConfiguration_canonical s = true ->
  exists v,
    flattenServerCertificateConfigurations s = Return v
    /\ expandServerCertificateConfigurations (types.ElementsAs v []) = s.
Proof.
  intros Hs. destruct s as [[|x l]|]; [discriminate| |by exists types.ListNull].
  cbn [slice_canonical] in Hs. apply canonical_elements in Hs. destruct Hs as [Heq Hok].
  set (pl := present (x :: l)) in *. clearbody pl.
  rewrite Heq. unfold flattenServerCertificateConfigurations.
  rewrite (flatten_deref_loop
             (fun scc =>
                {| CertificateAuthorityArn :=
                     flex.StringToFramework (networkfirewall.CertificateAuthorityArn scc);
                   CheckCertificateRevocationsStatus :=
                     flattenCheckCertificateRevocationStatus
                       (networkfirewall.CheckCertificateRevocationStatus scc);
                   Scope := flattenScopes (networkfirewall.Scopes scc);
                   ServerCertificates :=
                     flattenServerCertificates (networkfirewall.ServerCertificates scc) |})).
  cbn [outcome_bind app]. eexists. split; [reflexivity|]. cbn [types.ElementsAs].
  unfold expandServerCertificateConfigurations.
  rewrite (expand_loop
             (fun item =>
                {| networkfirewall.CertificateAuthorityArn :=
                     if types.String_IsNull (CertificateAuthorityArn item) then None
                     else aws.String (types.ValueString (CertificateAuthorityArn item));
                   networkfirewall.CheckCertificateRevocationStatus :=
                     if types.List_IsNull (CheckCertificateRevocationsStatus item) then None
                     else expandCheckCertificateRevocationStatus
                            (types.ElementsAs (CheckCertificateRevocationsStatus item) []);
                   networkfirewall.Scopes :=
                     if types.List_IsNull (Scope item) then None
                     else expandScopes (types.ElementsAs (Scope item) []);
                   networkfirewall.ServerCertificates :=
                     if types.List_IsNull (ServerCertificates item) then None
                     else expandServerCertificates
                            (types.ElementsAs (ServerCertificates item) []) |})).
  assert (Hfix : map (fun item : serverCertificateConfigurationsData =>
                   {| networkfirewall.CertificateAuthorityArn :=
                        if types.String_IsNull (CertificateAuthorityArn item) then None
                        else aws.String (types.ValueString (CertificateAuthorityArn item));
                      networkfirewall.CheckCertificateRevocationStatus :=
                        if types.List_IsNull (CheckCertificateRevocationsStatus item) then None
                        else expandCheckCertificateRevocationStatus
                               (types.ElementsAs (CheckCertificateRevocationsStatus item) []);
                      networkfirewall.Scopes :=
                        if types.List_IsNull (Scope item) then None
                        else expandScopes (types.ElementsAs (Scope item) []);
                      networkfirewall.ServerCertificates :=
                        if types.List_IsNull (ServerCertificates item) then None
                        else expandServerCertificates
                               (types.ElementsAs (ServerCertificates item) []) |})
                (map (fun scc =>
                   {| CertificateAuthorityArn :=
                        flex.StringToFramework (networkfirewall.CertificateAuthorityArn scc);
                      CheckCertificateRevocationsStatus :=
                        flattenCheckCertificateRevocationStatus
                          (networkfirewall.CheckCertificateRevocationStatus scc);
                      Scope := flattenScopes (networkfirewall.Scopes scc);
                      ServerCertificates :=
                        flattenServerCertificates (networkfirewall.ServerCertificates scc) |})
                   pl)
              = pl).
  { clear Heq. induction pl as [|y ys IH]; [reflexivity|].
    cbn [forallb map] in *. apply andb_prop in Hok. destruct Hok as [Hy Hys].
    rewrite IH by done. f_equal.
    destruct y as [ca cs sc ce]. unfold ServerCertificateConfiguration_canonical in Hy.
    cbn in Hy. repeat (apply andb_prop in Hy; destruct Hy as [Hy ?]).
    cbn [networkfirewall.CertificateAuthorityArn networkfirewall.CheckCertificateRevocationStatus
         networkfirewall.Scopes networkfirewall.ServerCertificates
         CertificateAuthorityArn CheckCertificateRevocationsStatus Scope ServerCertificates].
    rewrite certificateAuthorityArn_round_trip_payload,
      checkCertificateRevocationStatus_round_trip_payload, scopes_round_trip_payload,
      serverCertificates_round_trip_payload by assumption.
    reflexivity. }
  rewrite Hfix. destruct pl as [|b bs]; [discriminate Heq|]. reflexivity.
Qed.

(** X4. Expanding the tree obtained by flattening a payload gives the
    payload back when the payload is canonical: no slice holds a nil element
    or is empty without being nil, and every scalar pointer is set, the
    certificate authority ARN apart, which may be nil. Flatten does not fault
    on such a payload. *)
Theorem expand_flatten_round_trip (p : option networkfirewall.TLSInspectionConfiguration) :
  canonical p = true ->
  exists t, flattenTLSInspectionConfiguration p = Return t /\ expandTLSBlock t = p.
Proof.
  intros Hp. destruct p as [[s]|]; [|by exists types.ListNull].
  cbn in Hp. destruct (serverCertificateConfigurations_round_trip_payload s Hp) as (v & Hv & He).
  cbn. rewrite Hv. cbn. eexists. split; [reflexivity|].
  unfold expandTLSBlock. cbn. by rewrite He.
Qed.

Lemma expand_flatten_round_trip_witness :
  canonical (expandTLSBlock tls_inbound) = true
  /\ exists t,
       flattenTLSInspectionConfiguration (expandTLSBlock tls_inbound) = Return t
       /\ expandTLSBlock t = expandTLSBlock tls_inbound.
Proof.
  split; [reflexivity|].
  apply (expand_flatten_round_trip (expandTLSBlock tls_inbound)). reflexivity.
Defined.

(** ** The encryption configuration *)

(** X5. The encryption block survives both round trips. Flattening the
    expanded block gives the block back when it is null or holds one element
    whose key id and type are known; expanding the flattened payload gives
    the payload back when it is nil or has both pointers set. *)
Theorem encryption_configuration_round_trip
    (v : types.List encryptionConfigurationData)
    (p : option networkfirewall.EncryptionConfiguration) :
  List_single encryptionConfiguration_faithful v = true ->
  EncryptionConfiguration_canonical p = true ->
  flattenTLSEncryptionConfiguration (expandEncryptionBlock v) = v
  /\ expandEncryptionBlock (flattenTLSEncryptionConfiguration p) = p.
Proof.
  intros Hv Hp. split.
  - destruct v as [| |[|[ty key] [|? ?]]]; try discriminate; [reflexivity|].
    cbn in Hv. unfold encryptionConfiguration_faithful in Hv. cbn in Hv.
    apply andb_prop in Hv. destruct Hv as [Hk Ht].
    destruct key; try discriminate. destruct ty; try discriminate. reflexivity.
  - destruct p as [[key ty]|]; [|reflexivity]. cbn in Hp. set_fields. reflexivity.
Qed.

Lemma encryption_configuration_round_trip_witness :
  flattenTLSEncryptionConfiguration (expandEncryptionBlock encryption_kms) = encryption_kms
  /\ expandEncryptionBlock
       (flattenTLSEncryptionConfiguration (expandEncryptionBlock encryption_kms))
     = expandEncryptionBlock encryption_kms.
Proof.
  apply (encryption_configuration_round_trip encryption_kms
           (expandEncryptionBlock encryption_kms)); reflexivity.
Defined.

(** ** The certificates of the response *)




(** Reading a field of a state through the assignments made to it. *)
Ltac read_field P :=
  repeat match goal with
    | |- context [P (?f ?v ?d)] =>
        let r := eval cbn [P set_ARN set_Certificates set_ID set_LastModifiedTime
                             set_NumberOfAssociations set_Status set_UpdateToken
                             set_CertificateAuthority set_Description
                             set_EncryptionConfiguration set_Name
                             set_TLSInspectionConfiguration] in (P (f v d)) in
        progress change (P (f v d)) with r
    end.

(** ** The finders *)

Lemma find_by_arn (conn : Conn) (arn : string) (w : World) :
  findTLSInspectionConfigurationByNameAndARN conn arn w
  = (Return
       (match conn_DescribeTLSInspectionConfiguration conn (length w) (Some arn) with
        | (_, Some e) =>
            (None, Some (if errs.IsA_error ResourceNotFoundException e
                         then NotFoundError (Some e) else e))
        | (Some o, None) =>
            match networkfirewall.DescribeOutput_TLSInspectionConfigurationResponse o with
            | Some _ => (Some o, None)
            | None => (None, Some tfresource.NewEmptyResultError)
            end
        | (None, None) => (None, Some tfresource.NewEmptyResultError)
        end),
     w ++ [DescribeTLSInspectionConfiguration (Some arn)]).
Proof.
  unfold findTLSInspectionConfigurationByNameAndARN, bind, remote, aws.String.
  destruct (conn_DescribeTLSInspectionConfiguration conn (length w) (Some arn))
    as [[o|] [e|]]; cbn [errs.IsA].
  - by destruct (errs.IsA_error ResourceNotFoundException e).
  - by destruct (networkfirewall.DescribeOutput_TLSInspectionConfigurationResponse o).
  - by destruct (errs.IsA_error ResourceNotFoundException e).
  - reflexivity.
Qed.

Lemma find_by_id (conn : Conn) (id : string) (w : World) :
  findTLSInspectionConfigurationByID conn id w
  = findTLSInspectionConfigurationByNameAndARN conn id w.
Proof. reflexivity. Qed.

(** X7. The two finders are the same lookup: one describe call for the
    given ARN (the identifier is sent as the ARN). Exactly one of the
    returned object and error is nil; a returned object is the one the
    service answered and carries a response; the not-found exception of the
    service comes back wrapped in a not-found error that [tfresource.NotFound]
    recognises, every other error of the call comes back as it is. *)
Theorem finder_result (conn : Conn) (arn : string) (w : World) :
  let answer := conn_DescribeTLSInspectionConfiguration conn (length w) (Some arn) in
  exists out err,
    findTLSInspectionConfigurationByNameAndARN conn arn w
    = (Return (out, err), w ++ [DescribeTLSInspectionConfiguration (Some arn)])
    /\ findTLSInspectionConfigurationByID conn arn w
       = findTLSInspectionConfigurationByNameAndARN conn arn w
    /\ (out = None <-> err <> None)
    /\ (forall o, out = Some o ->
          answer = (Some o, None)
          /\ networkfirewall.DescribeOutput_TLSInspectionConfigurationResponse o <> None)
    /\ (forall o e, answer = (o, Some e) ->
          err = Some (if errs.IsA_error ResourceNotFoundException e
                      then NotFoundError (Some e) else e))
    /\ (forall o e, answer = (o, Some e) ->
          errs.IsA_error ResourceNotFoundException e = true ->
          tfresource.NotFound err = true).
Proof.
  cbv zeta. assert (H := find_by_arn conn arn w).
  destruct (conn_DescribeTLSInspectionConfiguration conn (length w) (Some arn))
    as [[o|] [e|]];
    [| destruct (networkfirewall.DescribeOutput_TLSInspectionConfigurationResponse o) eqn:Hr | |];
    eexists _, _; (split; [exact H|]); (split; [reflexivity|]);
    (split; [split; [discriminate || (intros _; discriminate) |
                     intros Hn; try reflexivity; by destruct Hn]|]);
    (split; [intros o' Ho; simplify_eq; try (split; [reflexivity|by rewrite Hr])|]);
    (split; [intros o' e' He; simplify_eq; reflexivity|]);
    intros o' e' He Hnf; simplify_eq; by rewrite ?Hnf.
Qed.

Lemma waitDeleted_poll (conn : Conn) (arn : string) (timeout : nat) (w : World) :
  waitTLSInspectionConfigurationDeleted conn arn timeout w
  = let '(v, n) := poll (retry.withDefaults (deletedConf timeout)) startCounters
                     (probeSequence conn arn (length w) timeout) in
    (Return (None, snd (verdictResult v)),
     w ++ repeat (DescribeTLSInspectionConfiguration (Some arn)) n).
Proof. apply (wait_poll conn arn (deletedConf timeout)). Qed.

Lemma mutatingCalls_probes (arn : option string) (n : nat) :
  mutatingCalls (DescribeTLSInspectionConfiguration arn
                 :: repeat (DescribeTLSInspectionConfiguration arn) n) = 0.
Proof. apply (mutatingCalls_describes arn (S n)). Qed.

Lemma ValueString_StringToFramework (p : option string) :
  types.ValueString (flex.StringToFramework p) = aws.ToString p.
Proof. by destruct p. Qed.


(** The request that Create sends. *)
Lemma HasError_app (a b : list diagnostic) :
  b <> [] -> HasError (a ++ b) = true.
Proof. intros Hb. destruct a; [by destruct b|reflexivity]. Qed.

Ltac has_error :=
  first [ reflexivity
        | by apply HasError_app
        | rewrite app_assoc; by apply HasError_app ].

Lemma Create_post (conn : Conn)
    (flatten : slice (option networkfirewall.TlsCertificateData) ->
               types.List certificatesData * list diagnostic)
    (plan : resourceTLSInspectionConfigurationData) (w : World)
    (res : outcome response) (w' : World) :
  Create conn flatten plan w = (res, w') ->
  exists tr,
    w' = w ++ tr
    /\ mutatingCalls (tail tr) = 0
    /\ (forall c, head tr = Some c -> exists input, c = CreateTLSInspectionConfiguration input)
    /\ forall r, res = Return r ->
         (State r = None -> HasError (Diagnostics r) = true)
         /\ forall s, State r = Some s ->
              (Name s = Name plan
               /\ Description s = Description plan
               /\ TLSInspectionConfiguration s = TLSInspectionConfiguration plan
               /\ EncryptionConfiguration s = EncryptionConfiguration plan
               /\ CertificateAuthority s = CertificateAuthority plan
               /\ Timeouts s = Timeouts plan)
              /\ ID s = ARN s
              /\ exists input resp token o rcr,
                   head tr = Some (CreateTLSInspectionConfiguration input)
                   /\ conn_CreateTLSInspectionConfiguration conn (length w) input
                      = (Some {| networkfirewall.CreateOutput_TLSInspectionConfigurationResponse :=
                                   Some resp;
                                 networkfirewall.CreateOutput_UpdateToken := token |}, None)
                   /\ ARN s = flex.StringToFramework
                                (networkfirewall.TLSInspectionConfigurationArn resp)
                   /\ UpdateToken s = flex.StringToFramework token
                   /\ conn_DescribeTLSInspectionConfiguration conn (S (length w))
                        (Some (aws.ToString (networkfirewall.TLSInspectionConfigurationArn resp)))
                      = (Some o, None)
                   /\ networkfirewall.DescribeOutput_TLSInspectionConfigurationResponse o
                      = Some rcr
                   /\ Status s = flex.StringToFramework
                                   (networkfirewall.TLSInspectionConfigurationStatus rcr)
                   /\ NumberOfAssociations s
                      = flex.Int64ToFramework (networkfirewall.NumberOfAssociations rcr)
                   /\ Certificates s = fst (flatten (networkfirewall.Certificates rcr)).
Proof.
  unfold Create. destruct (expandBlocks plan) as [diags [[tls enc]|]] eqn:Hblocks.
  2:{ intros [= <- <-]. exists []. rewrite app_nil_r.
      split; [done|split; [done|split; [done|]]].
      intros r [= <-]. split; [|discriminate]. intros _. cbn. unfold expandBlocks in Hblocks.
      repeat match type of Hblocks with
             | (if HasError ?d then _ else _) = _ =>
                 destruct (HasError d) eqn:?; [by injection Hblocks as <-|]
             end.
      discriminate. }
  unfold bind at 1. unfold remote at 1.
  match goal with
  | |- context [CreateTLSInspectionConfiguration ?i] => set (input := i) in *
  end.
  destruct (conn_CreateTLSInspectionConfiguration conn (length w) input) as [out [e|]] eqn:Hcreate.
  { intros [= <- <-]. eexists [_]. split; [done|split; [done|split]].
    - intros c [= <-]. by eexists.
    - intros r [= <-]. split; [|discriminate]. intros _. has_error. }
  destruct out as [[[resp|] token]|].
  2,3: intros [= <- <-]; eexists [_]; (split; [done|split; [done|split]]);
       [intros c [= <-]; by eexists
       |intros r [= <-]; (split; [|discriminate]); intros _; has_error].
  read_field ARN. rewrite ValueString_StringToFramework.
  unfold bind at 1. rewrite find_by_arn.
  set (arn := aws.ToString (networkfirewall.TLSInspectionConfigurationArn resp)) in *.
  assert (Hfault : forall tr', tr' = [CreateTLSInspectionConfiguration input;
                                       DescribeTLSInspectionConfiguration (Some arn)] ->
            (@Panic response, (w ++ [CreateTLSInspectionConfiguration input])
                                ++ [DescribeTLSInspectionConfiguration (Some arn)]) = (res, w') ->
            exists tr,
              w' = w ++ tr
              /\ mutatingCalls (tail tr) = 0
              /\ (forall c, head tr = Some c ->
                    exists input, c = CreateTLSInspectionConfiguration input)
              /\ forall r, res = Return r -> False).
  { intros tr' -> [= <- <-]. eexists [_; _]. rewrite <- app_assoc.
    split; [done|split; [done|split]].
    - intros c [= <-]. by eexists.
    - discriminate. }
  rewrite length_app, Nat.add_1_r. cbn [length].
  destruct (conn_DescribeTLSInspectionConfiguration conn (S (length w)) (Some arn))
    as [[o|] [e|]] eqn:Hdescribe.
  1,3,4: intros HC; destruct (Hfault _ eq_refl HC) as (tr & H1 & H2 & H3 & H4); exists tr;
         (split; [exact H1|split; [exact H2|split; [exact H3|]]]);
         intros r Hr; destruct (H4 r Hr).
  destruct (networkfirewall.DescribeOutput_TLSInspectionConfigurationResponse o) as [rcr|] eqn:Hr.
  2:{ intros HC; destruct (Hfault _ eq_refl HC) as (tr & H1 & H2 & H3 & H4); exists tr;
      (split; [exact H1|split; [exact H2|split; [exact H3|]]]);
      intros r Hr'; destruct (H4 r Hr'). }
  unfold bind at 1, lift at 1. cbn [deref]. unfold bind at 1, lift at 1. rewrite Hr. cbn [deref].
  unfold bind at 1, lift at 1.
  destruct (networkfirewall.LastModifiedTime rcr) as [lm|]; cbn [deref].
  2:{ intros HC; destruct (Hfault _ eq_refl HC) as (tr & H1 & H2 & H3 & H4); exists tr;
      (split; [exact H1|split; [exact H2|split; [exact H3|]]]);
      intros r Hr'; destruct (H4 r Hr'). }
  destruct (flatten (networkfirewall.Certificates rcr)) as [certs d] eqn:Hflat.
  read_field ARN. read_field Timeouts. rewrite ValueString_StringToFramework. fold arn.
  unfold bind at 1. rewrite waitCreated_poll.
  destruct (poll _ _ _) as [v n].
  destruct (snd (verdictResult v)) as [e|]; cbn [ret]; intros [= <- <-];
    eexists (_ :: _ :: repeat _ n); rewrite <- !app_assoc;
    (split; [reflexivity|split; [apply mutatingCalls_probes|split]]);
    try (intros c [= <-]; by eexists); intros r [= <-]; cbn [State Diagnostics].
  - split; [intros _; has_error|discriminate].
  - split; [discriminate|]. intros s [= <-].
    split; [repeat split; reflexivity|]. split; [reflexivity|].
    exists input, resp, token, o, rcr. rewrite Hflat.
    split; [reflexivity|]. split; [exact Hcreate|]. split; [reflexivity|].
    split; [reflexivity|]. split; [exact Hdescribe|]. split; [exact Hr|].
    split; [reflexivity|]. split; reflexivity.
Qed.

Lemma poll_length {A} (conf : retry.StateChangeConf) (c : retry.counters)
    (s : list (option A * string * option error)) :
  snd (poll conf c s) <= length s.
Proof. apply poll_consumed. Qed.

Lemma Update_post (conn : Conn) (plan state : resourceTLSInspectionConfigurationData)
    (w : World) (res : outcome response) (w' : World) :
  Update conn plan state w = (res, w') ->
  exists tr,
    w' = w ++ tr
    /\ mutatingCalls (tail tr) = 0
    /\ (forall c, head tr = Some c -> mutating c = true ->
          changed plan state = true
          /\ exists tls enc,
               c = UpdateTLSInspectionConfiguration
                     {| networkfirewall.UpdateInput_TLSInspectionConfigurationArn :=
                          Some (types.ValueString (ARN plan));
                        networkfirewall.UpdateInput_TLSInspectionConfigurationName :=
                          Some (types.ValueString (Name plan));
                        networkfirewall.UpdateInput_UpdateToken :=
                          Some (types.ValueString (UpdateToken plan));
                        networkfirewall.UpdateInput_Description :=
                          if types.String_IsNull (Description plan) then None
                          else Some (types.ValueString (Description plan));
                        networkfirewall.UpdateInput_TLSInspectionConfiguration := tls;
                        networkfirewall.UpdateInput_EncryptionConfiguration := enc |})
    /\ forall r, res = Return r ->
         (State r = None -> HasError (Diagnostics r) = true)
         /\ forall s, State r = Some s ->
              (Name s = Name plan
               /\ Description s = Description plan
               /\ TLSInspectionConfiguration s = TLSInspectionConfiguration plan
               /\ EncryptionConfiguration s = EncryptionConfiguration plan
               /\ CertificateAuthority s = CertificateAuthority plan
               /\ Certificates s = Certificates plan
               /\ Timeouts s = Timeouts plan)
              /\ (changed plan state = false -> s = plan)
              /\ (changed plan state = true ->
                  exists input resp token,
                    head tr = Some (UpdateTLSInspectionConfiguration input)
                    /\ conn_UpdateTLSInspectionConfiguration conn (length w) input
                       = (Some {| networkfirewall.UpdateOutput_TLSInspectionConfigurationResponse :=
                                    Some resp;
                                  networkfirewall.UpdateOutput_UpdateToken := token |}, None)
                    /\ ARN s = flex.StringToFramework
                                 (networkfirewall.TLSInspectionConfigurationArn resp)
                    /\ UpdateToken s = flex.StringToFramework token
                    /\ Status s = flex.StringToFramework
                                    (networkfirewall.TLSInspectionConfigurationStatus resp)
                    /\ NumberOfAssociations s
                       = flex.Int64ToFramework (networkfirewall.NumberOfAssociations resp)).
Proof.
  unfold Update. destruct (changed plan state) eqn:Hchanged.
  2:{ unfold bind. rewrite waitUpdated_poll. destruct (poll _ _ _) as [v n].
      destruct (snd (verdictResult v)) as [e|]; cbn [ret]; intros [= <- <-];
        exists (repeat (DescribeTLSInspectionConfiguration
                          (Some (types.ValueString (ARN plan)))) n);
        (split; [reflexivity|split; [|split]]).
      - destruct n; [reflexivity|apply mutatingCalls_describes].
      - intros c Hc Hm. destruct n; [discriminate|]. injection Hc as <-. discriminate.
      - intros r [= <-]. cbn. split; [intros _; has_error|discriminate].
      - destruct n; [reflexivity|apply mutatingCalls_describes].
      - intros c Hc Hm. destruct n; [discriminate|]. injection Hc as <-. discriminate.
      - intros r [= <-]. cbn. split; [discriminate|]. intros s [= <-].
        split; [done|]. split; [done|discriminate]. }
  destruct (expandBlocks plan) as [diags [[tls enc]|]] eqn:Hblocks.
  2:{ intros [= <- <-]. exists []. rewrite app_nil_r.
      split; [done|split; [done|split; [discriminate|]]].
      intros r [= <-]. split; [|discriminate]. intros _. cbn. unfold expandBlocks in Hblocks.
      repeat match type of Hblocks with
             | (if HasError ?d then _ else _) = _ =>
                 destruct (HasError d) eqn:?; [by injection Hblocks as <-|]
             end.
      discriminate. }
  unfold bind at 1. unfold remote at 1. unfold aws.String.
  match goal with
  | |- context [UpdateTLSInspectionConfiguration ?i] => set (input := i) in *
  end.
  assert (Hhead : forall rest c,
            head (UpdateTLSInspectionConfiguration input :: rest) = Some c -> mutating c = true ->
            true = true
            /\ exists tls enc,
                 c = UpdateTLSInspectionConfiguration
                       {| networkfirewall.UpdateInput_TLSInspectionConfigurationArn :=
                            Some (types.ValueString (ARN plan));
                          networkfirewall.UpdateInput_TLSInspectionConfigurationName :=
                            Some (types.ValueString (Name plan));
                          networkfirewall.UpdateInput_UpdateToken :=
                            Some (types.ValueString (UpdateToken plan));
                          networkfirewall.UpdateInput_Description :=
                            if types.String_IsNull (Description plan) then None
                            else Some (types.ValueString (Description plan));
                          networkfirewall.UpdateInput_TLSInspectionConfiguration := tls;
                          networkfirewall.UpdateInput_EncryptionConfiguration := enc |}).
  { intros rest c [= <-] _. split; [done|]. by exists tls, enc. }
  destruct (conn_UpdateTLSInspectionConfiguration conn (length w) input) as [out [e|]] eqn:Hupdate.
  { intros [= <- <-]. eexists [_]. split; [done|split; [done|split; [apply (Hhead _)|]]].
    intros r [= <-]. split; [|discriminate]. intros _. has_error. }
  destruct out as [[[resp|] token]|].
  2,3: intros [= <- <-]; eexists [_]; (split; [done|split; [done|split; [apply (Hhead _)|]]]);
       intros r [= <-]; (split; [|discriminate]); intros _; has_error.
  unfold bind at 1, lift at 1.
  destruct (networkfirewall.LastModifiedTime resp) as [lm|]; cbn [deref].
  2:{ intros [= <- <-]. eexists [_]. split; [done|split; [done|split; [apply (Hhead _)|]]].
      discriminate. }
  read_field ARN. read_field Timeouts. unfold bind. rewrite waitUpdated_poll.
  destruct (poll _ _ _) as [v n].
  destruct (snd (verdictResult v)) as [e|]; cbn [ret]; intros [= <- <-];
    eexists (_ :: repeat _ n); rewrite <- !app_assoc;
    (split; [reflexivity|split; [apply mutatingCalls_describes|split; [apply (Hhead _)|]]]);
    intros r [= <-]; cbn [State Diagnostics].
  - split; [intros _; has_error|discriminate].
  - split; [discriminate|]. intros s [= <-].
    split; [repeat split; reflexivity|]. split; [discriminate|].
    intros _. exists input, resp, token.
    split; [reflexivity|]. split; [exact Hupdate|]. split; [reflexivity|].
    split; [reflexivity|]. split; reflexivity.
Qed.

Lemma Delete_post (conn : Conn) (state : resourceTLSInspectionConfigurationData) (w : World) :
  let arn := Some (types.ValueString (ARN state)) in
  exists diags n,
    Delete conn state w
    = (Return diags,
       w ++ DeleteTLSInspectionConfiguration arn
            :: repeat (DescribeTLSInspectionConfiguration arn) n)
    /\ n <= timeouts_Delete (Timeouts state)
    /\ length diags <= 1
    /\ (conn_DeleteTLSInspectionConfiguration conn (length w) arn <> None -> n = 0).
Proof.
  cbv zeta. unfold Delete, aws.String. unfold bind at 1. unfold remote at 1.
  destruct (conn_DeleteTLSInspectionConfiguration conn (length w) _) as [e|].
  - destruct (errs.IsA ResourceNotFoundException (Some e)); eexists _, 0; cbn [repeat];
      (split; [reflexivity|]); cbn [length]; (split; [lia|split; [lia|done]]).
  - unfold bind. rewrite waitDeleted_poll.
    assert (Hn := poll_length (retry.withDefaults (deletedConf (timeouts_Delete (Timeouts state))))
                    startCounters
                    (probeSequence conn (types.ValueString (ARN state))
                       (length (w ++ [DeleteTLSInspectionConfiguration
                                        (Some (types.ValueString (ARN state)))]))
                       (timeouts_Delete (Timeouts state)))).
    rewrite probeSequence_length in Hn.
    destruct (poll _ _ _) as [v n]. cbn [snd] in Hn.
    destruct (snd (verdictResult v)) as [e|];
      [destruct (errs.IsA ResourceNotFoundException (Some e))|];
      eexists _, n; rewrite <- app_assoc; (split; [reflexivity|]); cbn [length];
      (split; [exact Hn|]); (split; [lia|]); done.
Qed.

Section ReadProperties.

Variable conn : Conn.
Variable fo :
  networkfirewall.DescribeTLSInspectionConfigurationOutput ->
  resourceTLSInspectionConfigurationData ->
  resourceTLSInspectionConfigurationData * list diagnostic.
Variable fc :
  slice (option networkfirewall.TlsCertificateData) ->
  types.List certificatesData * list diagnostic.
Variable ft :
  option networkfirewall.TLSInspectionConfiguration ->
  types.List tlsInspectionConfigurationData ->
  types.List tlsInspectionConfigurationData * list diagnostic.

Lemma Read_trace_TLS (state : resourceTLSInspectionConfigurationData) (w : World) :
  snd (Read conn fo fc ft state w)
  = w ++ [DescribeTLSInspectionConfiguration (Some (types.ValueString (ID state)))].
Proof.
  unfold Read. unfold bind at 1. rewrite find_by_id, find_by_arn.
  destruct (conn_DescribeTLSInspectionConfiguration conn (length w) _) as [[o|] [e|]].
  - destruct (errs.IsA_error ResourceNotFoundException e); [reflexivity|].
    by destruct (tfresource.NotFound (Some e)).
  - destruct (networkfirewall.DescribeOutput_TLSInspectionConfigurationResponse o) as [resp|] eqn:Hr;
      [|reflexivity].
    cbn [tfresource.NotFound]. unfold bind at 1, lift at 1. cbn [deref].
    unfold bind at 1, lift at 1. rewrite Hr. cbn [deref].
    unfold bind at 1, lift at 1.
    destruct (networkfirewall.LastModifiedTime resp); cbn [deref]; [|reflexivity].
    destruct (fo _ _) as [s1 d1]. destruct (fc _) as [certs d2]. destruct (ft _ _) as [tls d3].
    unfold bind, lift. by destruct (flattenTLSInspectionConfiguration _).
  - destruct (errs.IsA_error ResourceNotFoundException e); [reflexivity|].
    by destruct (tfresource.NotFound (Some e)).
  - reflexivity.
Qed.

Lemma Read_error (state : resourceTLSInspectionConfigurationData) (w : World) o e :
  conn_DescribeTLSInspectionConfiguration conn (length w)
    (Some (types.ValueString (ID state))) = (o, Some e) ->
  fst (Read conn fo fc ft state w)
  = Return (if errs.IsA_error ResourceNotFoundException e || tfresource.NotFound (Some e)
            then {| Read_Diagnostics := []; Read_State := None; Read_Removed := true |}
            else {| Read_Diagnostics := [ErrorDiagnostic ErrActionSetting (Some e)];
                    Read_State := None;
                    Read_Removed := false |}).
Proof.
  intros Hanswer. unfold Read. unfold bind at 1. rewrite find_by_id, find_by_arn, Hanswer.
  destruct o; (destruct (errs.IsA_error ResourceNotFoundException e); [reflexivity|]);
    cbn [orb]; by destruct (tfresource.NotFound (Some e)).
Qed.

Lemma Read_found (state : resourceTLSInspectionConfigurationData) (w : World) o resp :
  conn_DescribeTLSInspectionConfiguration conn (length w)
    (Some (types.ValueString (ID state))) = (Some o, None) ->
  networkfirewall.DescribeOutput_TLSInspectionConfigurationResponse o = Some resp ->
  match networkfirewall.LastModifiedTime resp,
        flattenTLSInspectionConfiguration
          (networkfirewall.DescribeOutput_TLSInspectionConfiguration o) with
  | Some _, Return tls =>
      exists s diags,
        fst (Read conn fo fc ft state w)
        = Return {| Read_Diagnostics := diags; Read_State := Some s; Read_Removed := false |}
        /\ TLSInspectionConfiguration s = tls
        /\ Certificates s = fst (fc (networkfirewall.Certificates resp))
  | _, _ => fst (Read conn fo fc ft state w) = Panic
  end.
Proof.
  intros Hanswer Hr. remember (fst (Read conn fo fc ft state w)) as res eqn:HR.
  unfold Read in HR. unfold bind at 1 in HR.
  rewrite find_by_id, find_by_arn, Hanswer, Hr in HR.
  cbn [tfresource.NotFound] in HR. unfold bind at 1, lift at 1 in HR. cbn [deref] in HR.
  unfold bind at 1, lift at 1 in HR. rewrite Hr in HR. cbn [deref] in HR.
  unfold bind at 1, lift at 1 in HR.
  destruct (networkfirewall.LastModifiedTime resp); cbn [deref] in HR; [|by subst res].
  destruct (fo _ _) as [s1 d1] eqn:Hfo. destruct (fc _) as [certs d2].
  destruct (ft _ _) as [tls d3].
  unfold bind, lift in HR.
  destruct (flattenTLSInspectionConfiguration _) as [t|]; [|by subst res].
  subst res. eexists _, _. cbn [fst ret]. split; [reflexivity|]. split; reflexivity.
Qed.

End ReadProperties.


(** ** The create poll and the delete poll *)

Section CreatePoll.

Context {A : Type}.
Variable timeout : nat.

Local Abbreviation conf := (retry.withDefaults (createdConf timeout)).

Lemma created_found_step (c : retry.counters) (r : option A * string * option error) :
  found_any r ->
  retry.refreshStep conf c r
  = if String.eqb (snd (fst r)) networkfirewall.ResourceStatusActive then
      if Nat.eqb 2 (S (retry.targetOccurence c)) then retry.Done (fst (fst r))
      else retry.Continue {| retry.notfoundTick := 0;
                             retry.targetOccurence := S (retry.targetOccurence c) |}
    else retry.Continue {| retry.notfoundTick := 0;
                           retry.targetOccurence := retry.targetOccurence c |}.
Proof.
  intros (o & st & ->). cbn -[String.eqb].
  destruct (String.eqb st networkfirewall.ResourceStatusActive); [|reflexivity].
  by destruct (retry.targetOccurence c) as [|[|?]].
Qed.

Lemma occurrences_cons (st : string) (r : option A * string * option error)
    (s : list (option A * string * option error)) :
  found_any r ->
  occurrences st (r :: s)
  = (if String.eqb (snd (fst r)) st then 1 else 0) + occurrences st s.
Proof.
  intros (o & st' & ->). unfold occurrences. cbn [List.filter fst snd].
  by destruct (String.eqb st' st).
Qed.

Lemma created_poll_found (s : list (option A * string * option error)) :
  forall c,
    Forall found_any s ->
    retry.notfoundTick c = 0 ->
    retry.targetOccurence c + occurrences networkfirewall.ResourceStatusActive s < 2 ->
    poll conf c s
    = (retry.Continue
         {| retry.notfoundTick := 0;
            retry.targetOccurence :=
              retry.targetOccurence c + occurrences networkfirewall.ResourceStatusActive s |},
       length s).
Proof.
  induction s as [|r s IH]; intros c Hs Htick Hocc.
  - cbn. rewrite Nat.add_0_r. destruct c. cbn in *. by subst.
  - inversion Hs as [|? ? Hr Hs']; subst. rewrite occurrences_cons in * by done.
    cbn [poll]. rewrite created_found_step by done.
    destruct (String.eqb (snd (fst r)) networkfirewall.ResourceStatusActive).
    + destruct (Nat.eqb_spec 2 (S (retry.targetOccurence c))); [lia|].
      rewrite IH; [|done|done|cbn; lia]. cbn. do 3 f_equal. lia.
    + rewrite IH; [|done|done|cbn; lia]. cbn. reflexivity.
Qed.

End CreatePoll.

Lemma observes_found_any {A} (st : string) (r : option A * string * option error) :
  observes st r -> found_any r.
Proof. intros (o & ->). by exists o, st. Qed.

(** X15. The create poll names no pending status, so no status of a
    found object is unexpected and nothing resets the count of target
    observations: when the first [k] probes find the object, in whatever
    statuses, exactly one of them in the target status, and the next probe
    finds it in the target status, the poll ends there without error. The
    two observations of the target status need not be consecutive. *)
Theorem create_poll_counts_any_two_active (conn : Conn) (arn : string) (w : World)
    (timeout k : nat) :
  (forall i, i < k ->
     found_any (probeResult
                  (conn_DescribeTLSInspectionConfiguration conn (length w + i) (Some arn)))) ->
  occurrences networkfirewall.ResourceStatusActive (probeSequence conn arn (length w) k) = 1 ->
  observes networkfirewall.ResourceStatusActive
    (probeResult (conn_DescribeTLSInspectionConfiguration conn (length w + k) (Some arn))) ->
  k < timeout ->
  waitTLSInspectionConfigurationCreated conn arn timeout w
  = (Return (None, None),
     w ++ repeat (DescribeTLSInspectionConfiguration (Some arn)) (S k)).
Proof.
  intros Hfound Hocc Hlast Hlt.
  assert (Hs := probeSequence_Forall conn arn (length w) k _ Hfound).
  rewrite waitCreated_poll.
  replace timeout with (k + (1 + (timeout - k - 1))) at 2 by lia.
  rewrite !probeSequence_app, poll_app.
  rewrite created_poll_found; [|done|done|rewrite Hocc; cbn; lia].
  rewrite Hocc, probeSequence_length. cbn [startCounters retry.targetOccurence Nat.add].
  rewrite poll_app. cbn [probeSequence seq map poll].
  rewrite created_found_step by (by eapply observes_found_any).
  destruct Hlast as (o & ->). cbn. by rewrite Nat.add_1_r.
Qed.

Lemma create_poll_counts_any_two_active_witness :
  waitTLSInspectionConfigurationCreated conn_active_pending sample_arn 60 []
  = (Return (None, None),
     [] ++ repeat (DescribeTLSInspectionConfiguration (Some sample_arn)) 3).
Proof.
  apply (create_poll_counts_any_two_active conn_active_pending sample_arn [] 60 2).
  - intros i Hi. destruct i as [|[|i]]; [by eexists _, _ ..|lia].
  - reflexivity.
  - by eexists.
  - lia.
Defined.

Section DeletePoll.

Context {A : Type}.
Variable timeout : nat.

Local Abbreviation conf := (retry.withDefaults (deletedConf timeout)).

Lemma deleted_pending_step (c : retry.counters) (r : option A * string * option error) :
  observesOneOf [networkfirewall.ResourceStatusDeleting; networkfirewall.ResourceStatusActive] r ->
  retry.refreshStep conf c r = retry.Continue startCounters.
Proof.
  intros (o & st & -> & Hin). cbn -[String.eqb existsb].
  cbn in Hin. destruct Hin as [<-|[<-|[]]]; reflexivity.
Qed.

Lemma deleted_gone_step (r : option A * string * option error) :
  notFound r -> retry.refreshStep conf startCounters r = retry.Done None.
Proof. intros (st & ->). reflexivity. Qed.

Lemma deleted_unexpected_step (c : retry.counters) (o : A) (st : string) :
  ~ In st [networkfirewall.ResourceStatusDeleting; networkfirewall.ResourceStatusActive] ->
  retry.refreshStep conf c (Some o, st, None)
  = retry.Stop (Some o) (UnexpectedStateError st).
Proof.
  intros Hin. cbn -[String.eqb]. unfold retry.scanPending. cbn [existsb].
  destruct (String.eqb_spec st networkfirewall.ResourceStatusDeleting) as [->|_];
    [destruct Hin; cbn; tauto|].
  destruct (String.eqb_spec st networkfirewall.ResourceStatusActive) as [->|_];
    [destruct Hin; cbn; tauto|].
  reflexivity.
Qed.

Lemma deleted_poll_pending (s : list (option A * string * option error)) (c : retry.counters) :
  Forall (observesOneOf [networkfirewall.ResourceStatusDeleting;
                         networkfirewall.ResourceStatusActive]) s ->
  s <> [] \/ c = startCounters ->
  poll conf c s = (retry.Continue startCounters, length s).
Proof.
  intros Hs. revert c. induction Hs as [|r s Hr Hs IH]; intros c Hc.
  - destruct Hc as [Hc|Hc]; [done|by subst].
  - cbn [poll length]. rewrite deleted_pending_step by done.
    rewrite IH by (by right). reflexivity.
Qed.

End DeletePoll.

Lemma probeSequence_split (conn : Conn) (arn : string) (start k n : nat) :
  k < n ->
  probeSequence conn arn start n
  = probeSequence conn arn start k
    ++ probeResult (conn_DescribeTLSInspectionConfiguration conn (start + k) (Some arn))
       :: probeSequence conn arn (start + k + 1) (n - k - 1).
Proof.
  intros Hlt. replace n with (k + (1 + (n - k - 1))) at 1 by lia.
  by rewrite !probeSequence_app.
Qed.

(** X14. Delete after a successful delete call: while the probes find
    the object deleting or active the poll goes on; the first probe that
    does not find it ends Delete without diagnostic; a probe that finds it in
    another status ends Delete with an unexpected-state error; and when the
    deadline passes first Delete reports the timeout. *)
Theorem Delete_waits_until_gone (conn : Conn)
    (state : resourceTLSInspectionConfigurationData) (w : World) (k : nat) :
  let arn := types.ValueString (ARN state) in
  let timeout := timeouts_Delete (Timeouts state) in
  let probe i :=
    probeResult (conn_DescribeTLSInspectionConfiguration conn (length w + 1 + i) (Some arn)) in
  let trace n :=
    w ++ DeleteTLSInspectionConfiguration (Some arn)
         :: repeat (DescribeTLSInspectionConfiguration (Some arn)) n in
  conn_DeleteTLSInspectionConfiguration conn (length w) (Some arn) = None ->
  (forall i, i < k ->
     observesOneOf [networkfirewall.ResourceStatusDeleting; networkfirewall.ResourceStatusActive]
       (probe i)) ->
  (k < timeout -> notFound (probe k) ->
   Delete conn state w = (Return [], trace (S k)))
  /\ (k < timeout ->
      forall o st,
        probe k = (Some o, st, None) ->
        ~ In st [networkfirewall.ResourceStatusDeleting; networkfirewall.ResourceStatusActive] ->
        Delete conn state w
        = (Return [ErrorDiagnostic create.ErrActionWaitingForDeletion
                     (Some (UnexpectedStateError st))],
           trace (S k)))
  /\ (timeout <= k ->
      Delete conn state w
      = (Return [ErrorDiagnostic create.ErrActionWaitingForDeletion
                   (Some (TimeoutError None))],
         trace timeout)).
Proof.
  cbv zeta. intros Hdelete Hpending.
  set (arn := types.ValueString (ARN state)) in *.
  set (timeout := timeouts_Delete (Timeouts state)) in *.
  assert (Hop : Delete conn state w
                = (r <- waitTLSInspectionConfigurationDeleted conn arn timeout ;;
                   let '(_, err) := r in
                   match err with
                   | Some e =>
                       if errs.IsA ResourceNotFoundException err then ret []
                       else ret [ErrorDiagnostic create.ErrActionWaitingForDeletion (Some e)]
                   | None => ret []
                   end) (w ++ [DeleteTLSInspectionConfiguration (Some arn)])).
  { unfold Delete, aws.String. fold arn. unfold bind at 1. unfold remote at 1.
    by rewrite Hdelete. }
  rewrite Hop. clear Hop. unfold bind. rewrite waitDeleted_poll.
  rewrite length_app. cbn [length].
  assert (Hprefix : forall n, n <= k ->
            Forall (observesOneOf [networkfirewall.ResourceStatusDeleting;
                                   networkfirewall.ResourceStatusActive])
              (probeSequence conn arn (length w + 1) n)).
  { intros n Hn. apply probeSequence_Forall. intros i Hi. apply Hpending. lia. }
  split; [|split].
  - intros Hlt Hgone.
    rewrite (probeSequence_split _ _ _ k) by exact Hlt. rewrite poll_app.
    rewrite deleted_poll_pending by (by auto).
    rewrite probeSequence_length. cbn [poll].
    rewrite deleted_gone_step by done. cbn. rewrite <- app_assoc, Nat.add_1_r. reflexivity.
  - intros Hlt o st Hprobe Hin.
    rewrite (probeSequence_split _ _ _ k) by exact Hlt. rewrite poll_app.
    rewrite deleted_poll_pending by (by auto).
    rewrite probeSequence_length. cbn [poll].
    rewrite Hprobe, deleted_unexpected_step by done. cbn.
    rewrite <- app_assoc, Nat.add_1_r. reflexivity.
  - intros Hle. rewrite deleted_poll_pending by (by auto).
    rewrite probeSequence_length. cbn. rewrite <- app_assoc. reflexivity.
Qed.

Lemma Delete_waits_until_gone_witness :
  Delete (conn_deleting 2) state_cfg1 []
  = (Return [],
     [] ++ DeleteTLSInspectionConfiguration (Some (types.ValueString (ARN state_cfg1)))
           :: repeat (DescribeTLSInspectionConfiguration
                        (Some (types.ValueString (ARN state_cfg1)))) 3).
Proof.
  refine (proj1 (Delete_waits_until_gone (conn_deleting 2) state_cfg1 [] 2 _ _) _ _).
  - reflexivity.
  - intros i Hi. destruct i as [|[|i]]; [by eexists _, _; split; [reflexivity|cbn; tauto] ..|lia].
  - cbn. lia.
  - by eexists.
Defined.

(** ** The operations of the TLS inspection configuration resource *)

(** X8. Every operation of the TLS inspection configuration resource
    issues at most one mutating call, and issues it before any other call:
    whatever follows the first call of Create and Update is no mutating call,
    Delete issues its delete call and then only probes, and Read issues one
    describe call for the recorded identifier. *)
Theorem operations_mutate_at_most_once (conn : Conn)
    (flatten : slice (option networkfirewall.TlsCertificateData) ->
               types.List certificatesData * list diagnostic)
    (fo : networkfirewall.DescribeTLSInspectionConfigurationOutput ->
          resourceTLSInspectionConfigurationData ->
          resourceTLSInspectionConfigurationData * list diagnostic)
    (ft : option networkfirewall.TLSInspectionConfiguration ->
          types.List tlsInspectionConfigurationData ->
          types.List tlsInspectionConfigurationData * list diagnostic)
    (plan state : resourceTLSInspectionConfigurationData) (w : World) :
  (exists tr, snd (Create conn flatten plan w) = w ++ tr /\ mutatingCalls (tail tr) = 0)
  /\ (exists tr, snd (Update conn plan state w) = w ++ tr /\ mutatingCalls (tail tr) = 0)
  /\ (exists n,
        snd (Delete conn state w)
        = w ++ DeleteTLSInspectionConfiguration (Some (types.ValueString (ARN state)))
               :: repeat (DescribeTLSInspectionConfiguration
                            (Some (types.ValueString (ARN state)))) n)
  /\ snd (Read conn fo flatten ft state w)
     = w ++ [DescribeTLSInspectionConfiguration (Some (types.ValueString (ID state)))].
Proof.
  split; [|split; [|split]].
  - destruct (Create conn flatten plan w) as [res w'] eqn:HC.
    destruct (Create_post _ _ _ _ _ _ HC) as (tr & -> & Hm & _). by exists tr.
  - destruct (Update conn plan state w) as [res w'] eqn:HU.
    destruct (Update_post _ _ _ _ _ _ HU) as (tr & -> & Hm & _). by exists tr.
  - destruct (Delete_post conn state w) as (diags & n & -> & _). by exists n.
  - apply Read_trace_TLS.
Qed.

Lemma expandBlocks_unknown (plan : resourceTLSInspectionConfigurationData) :
  TLSInspectionConfiguration plan = types.ListUnknown
  \/ EncryptionConfiguration plan = types.ListUnknown ->
  exists diags, expandBlocks plan = (diags, None) /\ HasError diags = true.
Proof.
  unfold expandBlocks. intros [Ht|He].
  - rewrite Ht. cbn. by eexists.
  - rewrite He. destruct (TLSInspectionConfiguration plan); cbn; by eexists.
Qed.

(** X9. When the [tls_inspection_configuration] block or the
    [encryption_configuration] block of the plan is unknown, the conversion
    of the block fails: Create, and an Update that has a change to send,
    return error diagnostics without any remote call and set no state. *)
Theorem unknown_block_stops_before_any_call (conn : Conn)
    (flatten : slice (option networkfirewall.TlsCertificateData) ->
               types.List certificatesData * list diagnostic)
    (plan state : resourceTLSInspectionConfigurationData) (w : World) :
  TLSInspectionConfiguration plan = types.ListUnknown
  \/ EncryptionConfiguration plan = types.ListUnknown ->
  (exists diags,
     Create conn flatten plan w = (Return {| Diagnostics := diags; State := None |}, w)
     /\ HasError diags = true)
  /\ (changed plan state = true ->
      exists diags,
        Update conn plan state w = (Return {| Diagnostics := diags; State := None |}, w)
        /\ HasError diags = true).
Proof.
  intros Hu. destruct (expandBlocks_unknown plan Hu) as (diags & Hb & Hd). split.
  - exists diags. unfold Create. by rewrite Hb.
  - intros Hc. exists diags. unfold Update. by rewrite Hc, Hb.
Qed.

Lemma unknown_block_stops_before_any_call_witness :
  (exists diags,
     Create conn_active flatten_no_certificates plan_unknown_block []
     = (Return {| Diagnostics := diags; State := None |}, [])
     /\ HasError diags = true)
  /\ exists diags,
       Update conn_active plan_unknown_block state_cfg1 []
       = (Return {| Diagnostics := diags; State := None |}, [])
       /\ HasError diags = true.
Proof.
  destruct (unknown_block_stops_before_any_call conn_active flatten_no_certificates
              plan_unknown_block state_cfg1 [] (or_introl eq_refl)) as [HC HU].
  split; [exact HC|]. apply HU. reflexivity.
Defined.

(** X10. The state that a successful Create sets keeps the declared
    fields of the plan (name, description, the two blocks, certificate
    authority, timeouts), has the identifier equal to the ARN, takes the ARN
    and the update token from the answer of the create call, which is the
    first call, and takes status, number of associations and certificates
    from the describe call that follows it. *)
Theorem Create_postcondition (conn : Conn)
    (flatten : slice (option networkfirewall.TlsCertificateData) ->
               types.List certificatesData * list diagnostic)
    (plan s : resourceTLSInspectionConfigurationData) (w w' : World) (r : response) :
  Create conn flatten plan w = (Return r, w') ->
  State r = Some s ->
  (Name s = Name plan
   /\ Description s = Description plan
   /\ TLSInspectionConfiguration s = TLSInspectionConfiguration plan
   /\ EncryptionConfiguration s = EncryptionConfiguration plan
   /\ CertificateAuthority s = CertificateAuthority plan
   /\ Timeouts s = Timeouts plan)
  /\ ID s = ARN s
  /\ exists input resp token o rcr rest,
       w' = w ++ CreateTLSInspectionConfiguration input :: rest
       /\ conn_CreateTLSInspectionConfiguration conn (length w) input
          = (Some {| networkfirewall.CreateOutput_TLSInspectionConfigurationResponse := Some resp;
                     networkfirewall.CreateOutput_UpdateToken := token |}, None)
       /\ ARN s = flex.StringToFramework (networkfirewall.TLSInspectionConfigurationArn resp)
       /\ UpdateToken s = flex.StringToFramework token
       /\ conn_DescribeTLSInspectionConfiguration conn (S (length w))
            (Some (aws.ToString (networkfirewall.TLSInspectionConfigurationArn resp)))
          = (Some o, None)
       /\ networkfirewall.DescribeOutput_TLSInspectionConfigurationResponse o = Some rcr
       /\ Status s = flex.StringToFramework (networkfirewall.TLSInspectionConfigurationStatus rcr)
       /\ NumberOfAssociations s
          = flex.Int64ToFramework (networkfirewall.NumberOfAssociations rcr)
       /\ Certificates s = fst (flatten (networkfirewall.Certificates rcr)).
Proof.
  intros HC Hs. destruct (Create_post _ _ _ _ _ _ HC) as (tr & -> & _ & _ & Hr).
  destruct (Hr r eq_refl) as [_ Hset]. destruct (Hset s Hs) as (Hkept & Hid & Hrest).
  split; [exact Hkept|]. split; [exact Hid|].
  destruct Hrest as (input & resp & token & o & rcr & Hhead & Hrest).
  exists input, resp, token, o, rcr, (tail tr). split; [|exact Hrest].
  destruct tr as [|c tr]; [discriminate|]. by injection Hhead as ->.
Qed.

Lemma Create_postcondition_witness :
  exists w',
    Create conn_active flatten_no_certificates plan_cfg1 []
    = (Return {| Diagnostics := []; State := Some state_cfg1 |}, w')
    /\ ID state_cfg1 = ARN state_cfg1
    /\ Name state_cfg1 = Name plan_cfg1.
Proof.
  eexists.
  assert (HC : Create conn_active flatten_no_certificates plan_cfg1 []
               = (Return {| Diagnostics := []; State := Some state_cfg1 |},
                  snd (Create conn_active flatten_no_certificates plan_cfg1 [])))
    by (vm_compute; reflexivity).
  split; [exact HC|].
  destruct (Create_postcondition conn_active flatten_no_certificates plan_cfg1 state_cfg1
              [] _ _ HC eq_refl) as (Hkept & Hid & _).
  split; [exact Hid|apply Hkept].
Defined.

(** X11. No operation fails silently: when Create or Update returns
    without setting a state, its diagnostics hold an error; when Read returns
    without setting a state, it either removed the resource from the state or
    reports an error. *)
Theorem no_silent_failure (conn : Conn)
    (flatten : slice (option networkfirewall.TlsCertificateData) ->
               types.List certificatesData * list diagnostic)
    (fo : networkfirewall.DescribeTLSInspectionConfigurationOutput ->
          resourceTLSInspectionConfigurationData ->
          resourceTLSInspectionConfigurationData * list diagnostic)
    (ft : option networkfirewall.TLSInspectionConfiguration ->
          types.List tlsInspectionConfigurationData ->
          types.List tlsInspectionConfigurationData * list diagnostic)
    (plan state : resourceTLSInspectionConfigurationData) (w : World) :
  (forall r w', Create conn flatten plan w = (Return r, w') ->
                State r = None -> HasError (Diagnostics r) = true)
  /\ (forall r w', Update conn plan state w = (Return r, w') ->
                   State r = None -> HasError (Diagnostics r) = true)
  /\ (forall r w', Read conn fo flatten ft state w = (Return r, w') ->
                   Read_State r = None ->
                   Read_Removed r = true \/ HasError (Read_Diagnostics r) = true).
Proof.
  split; [|split].
  - intros r w' HC Hs. destruct (Create_post _ _ _ _ _ _ HC) as (tr & _ & _ & _ & Hr).
    by apply (Hr r eq_refl).
  - intros r w' HU Hs. destruct (Update_post _ _ _ _ _ _ HU) as (tr & _ & _ & _ & Hr).
    by apply (Hr r eq_refl).
  - intros r w' HR Hs. apply (f_equal fst) in HR. cbn [fst] in HR.
    destruct (conn_DescribeTLSInspectionConfiguration conn (length w)
                (Some (types.ValueString (ID state)))) as [o [e|]] eqn:Hanswer.
    + rewrite (Read_error _ _ _ _ _ _ _ _ Hanswer) in HR. injection HR as <-.
      destruct (_ || _); cbn; auto.
    + destruct o as [o|].
      * destruct (networkfirewall.DescribeOutput_TLSInspectionConfigurationResponse o)
          as [resp|] eqn:Hresp.
        -- assert (Hf := Read_found conn fo flatten ft state w o resp Hanswer Hresp).
           destruct (networkfirewall.LastModifiedTime resp) as [lm|]; [|congruence].
           destruct (flattenTLSInspectionConfiguration _) as [tls|]; [|congruence].
           destruct Hf as (s' & diags & Hf & _). rewrite Hf in HR. injection HR as <-.
           discriminate.
        -- revert HR. unfold Read. unfold bind at 1.
           rewrite find_by_id, find_by_arn, Hanswer, Hresp. cbn. intros [= <-]. cbn. auto.
      * revert HR. unfold Read. unfold bind at 1.
        rewrite find_by_id, find_by_arn, Hanswer. cbn. intros [= <-]. cbn. auto.
Qed.

Lemma no_silent_failure_witness :
  let r := {| Diagnostics := [ErrorDiagnostic create.ErrActionCreating (Some unavailable)];
              State := None |} in
  exists w',
    Create conn_down flatten_no_certificates plan_cfg1 [] = (Return r, w')
    /\ State r = None
    /\ HasError (Diagnostics r) = true.
Proof.
  cbv zeta. eexists.
  assert (HC : Create conn_down flatten_no_certificates plan_cfg1 []
               = (Return {| Diagnostics := [ErrorDiagnostic create.ErrActionCreating
                                              (Some unavailable)];
                            State := None |},
                  snd (Create conn_down flatten_no_certificates plan_cfg1 [])))
    by (vm_compute; reflexivity).
  split; [exact HC|]. split; [reflexivity|].
  exact (proj1 (no_silent_failure conn_down flatten_no_certificates flatten_output_kept
                  flatten_tls_kept plan_cfg1 state_cfg1 []) _ _ HC eq_refl).
Defined.

(** X12. The state that a successful Update sets keeps the declared
    fields of the plan. Without a change of a tracked field it is the plan
    itself. With one, the update call is the first call and carries the ARN,
    the name and the update token of the plan; the state takes the ARN, the
    new update token, the status and the number of associations from the
    answer of that call. *)
Theorem Update_postcondition (conn : Conn)
    (plan state s : resourceTLSInspectionConfigurationData) (w w' : World) (r : response) :
  Update conn plan state w = (Return r, w') ->
  State r = Some s ->
  (Name s = Name plan
   /\ Description s = Description plan
   /\ TLSInspectionConfiguration s = TLSInspectionConfiguration plan
   /\ EncryptionConfiguration s = EncryptionConfiguration plan
   /\ CertificateAuthority s = CertificateAuthority plan
   /\ Certificates s = Certificates plan
   /\ Timeouts s = Timeouts plan)
  /\ (changed plan state = false -> s = plan)
  /\ (changed plan state = true ->
      exists input resp token rest,
        w' = w ++ UpdateTLSInspectionConfiguration input :: rest
        /\ networkfirewall.UpdateInput_TLSInspectionConfigurationArn input
           = Some (types.ValueString (ARN plan))
        /\ networkfirewall.UpdateInput_TLSInspectionConfigurationName input
           = Some (types.ValueString (Name plan))
        /\ networkfirewall.UpdateInput_UpdateToken input
           = Some (types.ValueString (UpdateToken plan))
        /\ conn_UpdateTLSInspectionConfiguration conn (length w) input
           = (Some {| networkfirewall.UpdateOutput_TLSInspectionConfigurationResponse :=
                        Some resp;
                      networkfirewall.UpdateOutput_UpdateToken := token |}, None)
        /\ ARN s = flex.StringToFramework (networkfirewall.TLSInspectionConfigurationArn resp)
        /\ UpdateToken s = flex.StringToFramework token
        /\ Status s = flex.StringToFramework
                        (networkfirewall.TLSInspectionConfigurationStatus resp)
        /\ NumberOfAssociations s
           = flex.Int64ToFramework (networkfirewall.NumberOfAssociations resp)).
Proof.
  intros HU Hs. destruct (Update_post _ _ _ _ _ _ HU) as (tr & -> & _ & Hfirst & Hr).
  destruct (Hr r eq_refl) as [_ Hset]. destruct (Hset s Hs) as (Hkept & Hsame & Hsent).
  split; [exact Hkept|]. split; [exact Hsame|].
  intros Hc. destruct (Hsent Hc) as (input & resp & token & Hhead & Hrest).
  destruct tr as [|c tr]; [discriminate|]. injection Hhead as ->.
  destruct (Hfirst _ eq_refl eq_refl) as (_ & tls & enc & Hinput).
  exists input, resp, token, tr. split; [reflexivity|].
  injection Hinput as ->. repeat split; apply Hrest.
Qed.

Lemma Update_postcondition_witness :
  exists w',
    Update conn_active plan_cfg1_described state_cfg1 []
    = (Return {| Diagnostics := []; State := Some state_cfg1_described |}, w')
    /\ Description state_cfg1_described = Description plan_cfg1_described
    /\ TLSInspectionConfiguration state_cfg1_described
       = TLSInspectionConfiguration plan_cfg1_described.
Proof.
  eexists.
  assert (HU : Update conn_active plan_cfg1_described state_cfg1 []
               = (Return {| Diagnostics := []; State := Some state_cfg1_described |},
                  snd (Update conn_active plan_cfg1_described state_cfg1 [])))
    by (vm_compute; reflexivity).
  split; [exact HU|].
  destruct (Update_postcondition conn_active plan_cfg1_described state_cfg1
              state_cfg1_described [] _ _ HU eq_refl) as (Hkept & _).
  split; apply Hkept.
Defined.

(** X13. Delete never faults. It issues its delete call for the recorded
    ARN first, then only probes for that ARN, no more than the deadline
    allows and none when the delete call failed, and it reports at most one
    diagnostic. *)
Theorem Delete_outcomes (conn : Conn) (state : resourceTLSInspectionConfigurationData)
    (w : World) :
  let arn := Some (types.ValueString (ARN state)) in
  exists diags n,
    Delete conn state w
    = (Return diags,
       w ++ DeleteTLSInspectionConfiguration arn
            :: repeat (DescribeTLSInspectionConfiguration arn) n)
    /\ n <= timeouts_Delete (Timeouts state)
    /\ length diags <= 1
    /\ (conn_DeleteTLSInspectionConfiguration conn (length w) arn <> None -> n = 0).
Proof. apply Delete_post. Qed.

(** X16. Read issues one describe call, for the recorded identifier. The
    not-found exception of the service removes the resource from the state
    without diagnostic; another error of the service is reported and the
    state is left alone. When the object is found, Read faults if the
    response has no modification time or if the payload tree holds a nil
    server certificate configuration; otherwise it sets a state whose tree is
    the flattened payload tree and whose certificates are those that the
    generic flattener returned. *)
Theorem Read_outcomes (conn : Conn)
    (fo : networkfirewall.DescribeTLSInspectionConfigurationOutput ->
          resourceTLSInspectionConfigurationData ->
          resourceTLSInspectionConfigurationData * list diagnostic)
    (fc : slice (option networkfirewall.TlsCertificateData) ->
          types.List certificatesData * list diagnostic)
    (ft : option networkfirewall.TLSInspectionConfiguration ->
          types.List tlsInspectionConfigurationData ->
          types.List tlsInspectionConfigurationData * list diagnostic)
    (state : resourceTLSInspectionConfigurationData) (w : World) :
  let id := types.ValueString (ID state) in
  let answer := conn_DescribeTLSInspectionConfiguration conn (length w) (Some id) in
  snd (Read conn fo fc ft state w) = w ++ [DescribeTLSInspectionConfiguration (Some id)]
  /\ (forall o code msg,
        answer = (o, Some (AWSError code msg)) ->
        fst (Read conn fo fc ft state w)
        = Return (if bool_decide (code = ResourceNotFoundException)
                  then {| Read_Diagnostics := []; Read_State := None; Read_Removed := true |}
                  else {| Read_Diagnostics :=
                            [ErrorDiagnostic ErrActionSetting (Some (AWSError code msg))];
                          Read_State := None;
                          Read_Removed := false |}))
  /\ (forall o resp,
        answer = (Some o, None) ->
        networkfirewall.DescribeOutput_TLSInspectionConfigurationResponse o = Some resp ->
        match networkfirewall.LastModifiedTime resp,
              flattenTLSInspectionConfiguration
                (networkfirewall.DescribeOutput_TLSInspectionConfiguration o) with
        | Some _, Return tls =>
            exists s diags,
              fst (Read conn fo fc ft state w)
              = Return {| Read_Diagnostics := diags;
                          Read_State := Some s;
                          Read_Removed := false |}
              /\ TLSInspectionConfiguration s = tls
              /\ Certificates s = fst (fc (networkfirewall.Certificates resp))
        | _, _ => fst (Read conn fo fc ft state w) = Panic
        end).
Proof.
  cbv zeta. split; [apply Read_trace_TLS|]. split.
  - intros o code msg Hanswer. rewrite (Read_error _ _ _ _ _ _ _ _ Hanswer).
    cbn [errs.IsA_error tfresource.NotFound]. by rewrite orb_false_r.
  - intros o resp Hanswer Hresp. by apply Read_found.
Qed.

(** X17. Read gives the declared tree back: when the service returns, for
    an object it found, the payload tree that expand builds from a faithful
    tree, the state that Read sets holds exactly that tree, whatever the
    generic flattener left in the field before. *)
Theorem Read_restores_declared_tree (conn : Conn)
    (fo : networkfirewall.DescribeTLSInspectionConfigurationOutput ->
          resourceTLSInspectionConfigurationData ->
          resourceTLSInspectionConfigurationData * list diagnostic)
    (fc : slice (option networkfirewall.TlsCertificateData) ->
          types.List certificatesData * list diagnostic)
    (ft : option networkfirewall.TLSInspectionConfiguration ->
          types.List tlsInspectionConfigurationData ->
          types.List tlsInspectionConfigurationData * list diagnostic)
    (state : resourceTLSInspectionConfigurationData) (w : World)
    (o : networkfirewall.DescribeTLSInspectionConfigurationOutput)
    (resp : networkfirewall.TLSInspectionConfigurationResponse)
    (lastModified : string) (t : types.List tlsInspectionConfigurationData) :
  conn_DescribeTLSInspectionConfiguration conn (length w)
    (Some (types.ValueString (ID state))) = (Some o, None) ->
  networkfirewall.DescribeOutput_TLSInspectionConfigurationResponse o = Some resp ->
  networkfirewall.LastModifiedTime resp = Some lastModified ->
  networkfirewall.DescribeOutput_TLSInspectionConfiguration o = expandTLSBlock t ->
  faithful t = true ->
  exists s diags,
    fst (Read conn fo fc ft state w)
    = Return {| Read_Diagnostics := diags; Read_State := Some s; Read_Removed := false |}
    /\ TLSInspectionConfiguration s = t.
Proof.
  intros Hanswer Hresp Hlm Htree Ht.
  assert (Hf := Read_found conn fo fc ft state w o resp Hanswer Hresp).
  rewrite Hlm, Htree, (tls_round_trip t Ht) in Hf.
  destruct Hf as (s & diags & Hf & Htls & _). by exists s, diags.
Qed.

Lemma Read_restores_declared_tree_witness :
  exists s diags,
    fst (Read conn_storing flatten_output_kept flatten_no_certificates flatten_tls_kept
           state_cfg1 [])
    = Return {| Read_Diagnostics := diags; Read_State := Some s; Read_Removed := false |}
    /\ TLSInspectionConfiguration s = tls_inbound.
Proof.
  eapply (Read_restores_declared_tree conn_storing flatten_output_kept flatten_no_certificates
            flatten_tls_kept state_cfg1 [] _ _ _ tls_inbound); reflexivity.
Defined.

(** ** The definition mapper of the service action *)

Lemma expandKey_entry (tfMap : gmap string any) (key apiKey : string)
    (apiObject : gmap string (option string)) (j : string) :
  expandKey tfMap key apiKey apiObject !! j
  = if decide (apiKey = j) then
      match expandedEntry tfMap key with
      | Some p => Some p
      | None => apiObject !! j
      end
    else apiObject !! j.
Proof.
  rewrite lookup_expandKey. unfold expandedEntry.
  destruct (assertString (tfMap !! key)) as [v|]; [|by case_decide].
  case_bool_decide; by case_decide.
Qed.

Lemma expand_lookup (tfMap : gmap string any) (j : string) :
  exists apiObject,
    expandServiceActionDefinition (Some tfMap) = Some apiObject
    /\ apiObject !! j
       = if decide (j = "Version") then expandedEntry tfMap "version"
         else if decide (j = "Parameters") then expandedEntry tfMap "parameters"
         else if decide (j = "Name") then expandedEntry tfMap "name"
         else if decide (j = "AssumeRole") then expandedEntry tfMap "assume_role"
         else None.
Proof.
  eexists. split; [reflexivity|]. cbv zeta.
  unfold servicecatalog_types.ServiceActionDefinitionKeyAssumeRole,
    servicecatalog_types.ServiceActionDefinitionKeyName,
    servicecatalog_types.ServiceActionDefinitionKeyParameters,
    servicecatalog_types.ServiceActionDefinitionKeyVersion.
  rewrite !expandKey_entry, lookup_empty.
  repeat case_decide; subst; try done;
    repeat match goal with |- context [expandedEntry ?m ?k] => destruct (expandedEntry m k) end;
    done.
Qed.

Lemma expandedEntry_value (tfMap : gmap string any) (key : string) (p : option string) :
  expandedEntry tfMap key = Some p -> exists v, p = Some v /\ v <> "".
Proof.
  unfold expandedEntry. destruct (assertString (tfMap !! key)) as [v|]; [|discriminate].
  case_bool_decide; [discriminate|]. intros [= <-]. by exists v.
Qed.

(** X18. The payload that [expandServiceActionDefinition] builds from a
    definition block holds, under each of the four payload keys, the
    attribute of the block when that attribute is a non-empty string, and
    nothing else: no other key, no nil pointer, no empty value, and never the
    type of the definition. A nil block gives the nil map. *)
Theorem expandServiceActionDefinition_entries (tfMap : gmap string any) :
  expandServiceActionDefinition None = None
  /\ exists apiObject,
       expandServiceActionDefinition (Some tfMap) = Some apiObject
       /\ (forall key apiKey, (key, apiKey) ∈ definitionKeyPairs ->
             apiObject !! apiKey = expandedEntry tfMap key)
       /\ definition_canonical apiObject.
Proof.
  split; [reflexivity|]. eexists. split; [reflexivity|]. split.
  - intros key apiKey Hin. destruct (expand_lookup tfMap apiKey) as (api & [= <-] & ->).
    unfold definitionKeyPairs in Hin.
    repeat (apply elem_of_cons in Hin; destruct Hin as [[= -> ->]|Hin]; [reflexivity|]).
    by apply elem_of_nil in Hin.
  - intros j p Hj. destruct (expand_lookup tfMap j) as (api & [= <-] & Hl).
    rewrite Hl in Hj. clear Hl.
    repeat case_decide; subst; try discriminate;
      (split; [cbn; set_solver|by eapply expandedEntry_value]).
Qed.

Lemma flattenKey_entry (apiObject : gmap string (option string)) (apiKey key : string)
    (tfMap : gmap string any) (i : string) :
  flattenKey apiObject apiKey key tfMap !! i
  = if decide (key = i) then
      match flattenedEntry apiObject apiKey with
      | Some v => Some v
      | None => tfMap !! i
      end
    else tfMap !! i.
Proof.
  rewrite lookup_flattenKey. unfold flattenedEntry.
  destruct (apiObject !! apiKey) as [[v|]|]; by case_decide.
Qed.

Lemma flatten_lookup (apiObject : gmap string (option string)) (definitionType i : string) :
  exists tfMap,
    flattenServiceActionDefinition (Some apiObject) definitionType = Some tfMap
    /\ tfMap !! i
       = if decide (i = "type") then
           if bool_decide (definitionType = "") then None else Some (anyString definitionType)
         else if decide (i = "version") then flattenedEntry apiObject "Version"
         else if decide (i = "parameters") then flattenedEntry apiObject "Parameters"
         else if decide (i = "name") then flattenedEntry apiObject "Name"
         else if decide (i = "assume_role") then flattenedEntry apiObject "AssumeRole"
         else None.
Proof.
  eexists. split; [reflexivity|]. cbv zeta.
  unfold servicecatalog_types.ServiceActionDefinitionKeyAssumeRole,
    servicecatalog_types.ServiceActionDefinitionKeyName,
    servicecatalog_types.ServiceActionDefinitionKeyParameters,
    servicecatalog_types.ServiceActionDefinitionKeyVersion.
  case_bool_decide.
  - rewrite !flattenKey_entry, lookup_empty.
    repeat case_decide; subst; try done;
      repeat match goal with
        | |- context [flattenedEntry ?m ?k] => destruct (flattenedEntry m k)
        end; done.
  - rewrite lookup_insert. case_decide as Hi; [subst; by rewrite decide_True|].
    rewrite decide_False by done.
    rewrite !flattenKey_entry, lookup_empty.
    repeat case_decide; subst; try done;
      repeat match goal with
        | |- context [flattenedEntry ?m ?k] => destruct (flattenedEntry m k)
        end; done.
Qed.

Lemma flattenedEntry_string (apiObject : gmap string (option string)) (apiKey : string)
    (v : any) :
  flattenedEntry apiObject apiKey = Some v -> isString v = true.
Proof.
  unfold flattenedEntry. destruct (apiObject !! apiKey) as [[s|]|]; try discriminate.
  by intros [= <-].
Qed.

(** X19. The block that [flattenServiceActionDefinition] builds from a
    payload holds, under each of the four attributes, the value of the
    payload key when that key is present with a pointer that is not nil, the
    type when the given type is not empty, and nothing else; every value is a
    string. A nil payload gives the nil block, whatever the type. *)
Theorem flattenServiceActionDefinition_entries
    (apiObject : gmap string (option string)) (definitionType : string) :
  flattenServiceActionDefinition None definitionType = None
  /\ exists tfMap,
       flattenServiceActionDefinition (Some apiObject) definitionType = Some tfMap
       /\ (forall key apiKey, (key, apiKey) ∈ definitionKeyPairs ->
             tfMap !! key = flattenedEntry apiObject apiKey)
       /\ tfMap !! "type"
          = (if bool_decide (definitionType = "") then None
             else Some (anyString definitionType))
       /\ definition_resolved tfMap.
Proof.
  split; [reflexivity|]. eexists. split; [reflexivity|]. split; [|split].
  - intros key apiKey Hin.
    destruct (flatten_lookup apiObject definitionType key) as (m & [= <-] & ->).
    unfold definitionKeyPairs in Hin.
    repeat (apply elem_of_cons in Hin; destruct Hin as [[= -> ->]|Hin]; [reflexivity|]).
    by apply elem_of_nil in Hin.
  - by destruct (flatten_lookup apiObject definitionType "type") as (m & [= <-] & ->).
  - intros i v Hi. destruct (flatten_lookup apiObject definitionType i) as (m & [= <-] & Hl).
    rewrite Hl in Hi. clear Hl. unfold definitionKeys.
    repeat case_decide; subst; try discriminate;
      (split; [set_solver|]); try (by eapply flattenedEntry_string).
    case_bool_decide; [discriminate|]. by injection Hi as <-.
Qed.

(** X20. Expanding the block obtained by flattening a payload gives the
    payload back when the payload is canonical: it holds only the four
    payload keys, each with a non-empty value. The type handed to flatten
    plays no part. *)
Theorem definition_expand_flatten (apiObject : gmap string (option string))
    (definitionType : string) :
  definition_canonical apiObject ->
  exists tfMap,
    flattenServiceActionDefinition (Some apiObject) definitionType = Some tfMap
    /\ expandServiceActionDefinition (Some tfMap) = Some apiObject.
Proof.
  intros Hc. eexists. split; [reflexivity|].
  set (tfMap := match flattenServiceActionDefinition (Some apiObject) definitionType with
                | Some m => m | None => ∅ end).
  assert (Hentry : forall key apiKey, (key, apiKey) ∈ definitionKeyPairs ->
            expandedEntry tfMap key = apiObject !! apiKey).
  { intros key apiKey Hin. unfold expandedEntry.
    destruct (flatten_lookup apiObject definitionType key) as (m & Hm & Hl).
    assert (tfMap = m) as -> by (unfold tfMap; by rewrite Hm). rewrite Hl. clear Hl.
    unfold definitionKeyPairs in Hin.
    repeat (apply elem_of_cons in Hin; destruct Hin as [[= -> ->]|Hin];
            [rewrite ?decide_False, ?decide_True by done; unfold flattenedEntry;
             match goal with
             | |- context [apiObject !! ?k] =>
                 destruct (apiObject !! k) as [p|] eqn:Hk; [|done];
                 destruct (Hc k p Hk) as (_ & v & -> & Hv); cbn;
                 by rewrite bool_decide_false
             end|]).
    by apply elem_of_nil in Hin. }
  destruct (expand_lookup tfMap "") as (api & Hexp & _).
  change (expandServiceActionDefinition (Some tfMap) = Some apiObject).
  rewrite Hexp. f_equal. apply map_eq. intros j.
  destruct (expand_lookup tfMap j) as (api' & Hexp' & Hl).
  rewrite Hexp in Hexp'. injection Hexp' as <-. rewrite Hl. clear Hl.
  repeat case_decide; subst.
  - apply (Hentry "version" "Version"). cbn. set_solver.
  - apply (Hentry "parameters" "Parameters"). cbn. set_solver.
  - apply (Hentry "name" "Name"). cbn. set_solver.
  - apply (Hentry "assume_role" "AssumeRole"). cbn. set_solver.
  - destruct (apiObject !! j) as [p|] eqn:Hj; [|done].
    destruct (Hc j p Hj) as (Hin & _). cbn in Hin.
    repeat (apply elem_of_cons in Hin; destruct Hin as [->|Hin]; [done|]).
    by apply elem_of_nil in Hin.
Qed.

Lemma definition_expand_flatten_witness :
  exists tfMap,
    flattenServiceActionDefinition (Some action_definition) "SSM_AUTOMATION" = Some tfMap
    /\ expandServiceActionDefinition (Some tfMap) = Some action_definition.
Proof.
  apply (definition_expand_flatten action_definition "SSM_AUTOMATION").
  unfold definition_canonical, action_definition.
  apply map_Forall_insert_2; [split; [cbn; set_solver|by eexists]|].
  apply map_Forall_insert_2; [split; [cbn; set_solver|by eexists]|].
  apply map_Forall_empty.
Defined.

(** ** The attempts of the service action operations *)

Lemma createRetry_attempts (conn : Conn) (timeout : nat)
    (input : servicecatalog.CreateServiceActionInput) (w : World) :
  exists output err k,
    createRetry conn timeout input w
    = (Return (output, err), w ++ repeat (CreateServiceAction input) k)
    /\ k <= timeout
    /\ (k = 0 -> err = Some (TimeoutError None)).
Proof.
  unfold createRetry, retry.RetryContext.
  edestruct (retryLoop_trace (CreateServiceAction input)
               (fun (_ : option servicecatalog.CreateServiceActionOutput) n =>
                  let '(output, err) := conn_CreateServiceAction conn n input in
                  if errs.Contains err "profile does not exist" then
                    (output, match err with Some e => retry.RetryableError e | None => None end)
                  else
                    match err with
                    | Some e => (output, retry.NonRetryableError e)
                    | None => (output, None)
                    end))
    as (s' & err & k & Heq & Hk & _ & Hk0); [|exists s', err, k; eauto].
  intros s w0. unfold bind, createAttempt, remote. cbv zeta.
  destruct (conn_CreateServiceAction conn (length w0) input) as [output err].
  destruct (errs.Contains _ _); [reflexivity|]. by destruct err.
Qed.

Lemma updateRetry_attempts (conn : Conn) (timeout : nat)
    (input : servicecatalog.UpdateServiceActionInput) (w : World) :
  exists err k,
    updateRetry conn timeout input w
    = (Return (tt, err), w ++ repeat (UpdateServiceAction input) k)
    /\ k <= timeout
    /\ (k = 0 -> err = Some (TimeoutError None)).
Proof.
  unfold updateRetry, retry.RetryContext.
  edestruct (retryLoop_trace (UpdateServiceAction input)
               (fun (_ : unit) n =>
                  let err := conn_UpdateServiceAction conn n input in
                  if errs.Contains err "profile does not exist" then
                    (tt, match err with Some e => retry.RetryableError e | None => None end)
                  else
                    match err with
                    | Some e => (tt, retry.NonRetryableError e)
                    | None => (tt, None)
                    end))
    as (s' & err & k & Heq & Hk & _ & Hk0); [|exists err, k; destruct s'; eauto].
  intros s w0. unfold bind, updateAttempt, remote. cbv zeta.
  destruct (errs.Contains _ _); [reflexivity|].
  by destruct (conn_UpdateServiceAction conn (length w0) input).
Qed.

Lemma deleteRetry_attempts (conn : Conn) (timeout : nat) (input : option string) (w : World) :
  exists err k,
    deleteRetry conn timeout input w
    = (Return (tt, err), w ++ repeat (DeleteServiceAction input) k)
    /\ k <= timeout
    /\ (k = 0 -> err = Some (TimeoutError None)).
Proof.
  unfold deleteRetry, retry.RetryContext.
  edestruct (retryLoop_trace (DeleteServiceAction input)
               (fun (_ : unit) n =>
                  let err := conn_DeleteServiceAction conn n input in
                  if errs.IsA ResourceInUseException err then
                    (tt, match err with Some e => retry.RetryableError e | None => None end)
                  else
                    match err with
                    | Some e => (tt, retry.NonRetryableError e)
                    | None => (tt, None)
                    end))
    as (s' & err & k & Heq & Hk & _ & Hk0); [|exists err, k; destruct s'; eauto].
  intros s w0. unfold bind, deleteAttempt, remote. cbv zeta.
  destruct (errs.IsA _ _); [reflexivity|].
  by destruct (conn_DeleteServiceAction conn (length w0) input).
Qed.

Lemma repeat_snoc {A} (x : A) (n : nat) : repeat x n ++ [x] = repeat x (S n).
Proof. induction n as [|n IH]; [reflexivity|]. cbn. by rewrite IH. Qed.

(** After the retry loop: the attempt made when the loop timed out. *)
Lemma final_attempt_count (k timeout : nat) (err : option error) :
  k <= timeout ->
  (k = 0 -> err = Some (TimeoutError None)) ->
  (if tfresource.TimedOut err then 1 <= S k <= S timeout else 1 <= k <= S timeout).
Proof.
  intros Hk Hk0. destruct (tfresource.TimedOut err) eqn:Ht; [lia|].
  destruct k; [|lia]. rewrite (Hk0 eq_refl) in Ht. discriminate.
Qed.

Lemma attempts_trace (conn : Conn) (uid : string) (d : ResourceData) (w : World) :
  (forall m, definition0 d = Return m ->
     exists r n rest,
       resourceServiceActionCreate conn uid d w
       = (Return r, (w ++ repeat (CreateServiceAction (createInput uid d m)) n) ++ rest)
       /\ 1 <= n <= S (d_TimeoutCreate d)
       /\ mutatingCalls rest = 0 /\ length rest <= 1)
  /\ (forall def, updateDefinition d = Return def ->
        exists r n rest,
          resourceServiceActionUpdate conn d w
          = (Return r, (w ++ repeat (UpdateServiceAction (updateInput d def)) n) ++ rest)
          /\ 1 <= n <= S (d_TimeoutUpdate d)
          /\ mutatingCalls rest = 0 /\ length rest <= 1)
  /\ exists r n rest,
       resourceServiceActionDelete conn d w
       = (Return r, (w ++ repeat (DeleteServiceAction (Some (d_Id d))) n) ++ rest)
       /\ 1 <= n <= S (d_TimeoutDelete d)
       /\ mutatingCalls rest = 0 /\ length rest <= 1.
Proof.
  split; [|split].
  - intros m Hm. unfold resourceServiceActionCreate. unfold bind at 1, lift at 1.
    rewrite Hm. cbv zeta. set (input := createInput uid d m).
    unfold bind at 1.
    destruct (createRetry_attempts conn (d_TimeoutCreate d) input w)
      as (output & err & k & -> & Hk & Hk0).
    assert (Hn := final_attempt_count k _ err Hk Hk0).
    unfold bind at 1.
    assert (Hafter : forall n w1 (res : option servicecatalog.CreateServiceActionOutput
                                        * option error),
              w1 = w ++ repeat (CreateServiceAction input) n ->
              1 <= n <= S (d_TimeoutCreate d) ->
              exists r n' rest,
                (let '(output, err) := res in
                 match err with
                 | Some e =>
                     ret ([ErrorDiagnostic "creating Service Catalog Service Action" (Some e)], d)
                 | None =>
                     match output with
                     | Some {| servicecatalog.CreateOutput_ServiceActionDetail :=
                                 Some {| servicecatalog.Definition_ := _;
                                         servicecatalog.ServiceActionSummary_ := Some sas |} |} =>
                         resourceServiceActionRead conn
                           (SetId (aws.ToString (servicecatalog.Id sas)) d)
                     | _ =>
                         ret ([ErrorDiagnostic
                                 "creating Service Catalog Service Action: empty response"
                                 None], d)
                     end
                 end) w1
                = (Return r, (w ++ repeat (CreateServiceAction input) n') ++ rest)
                /\ 1 <= n' <= S (d_TimeoutCreate d)
                /\ mutatingCalls rest = 0 /\ length rest <= 1).
    { intros n w1 [out [e|]] -> Hle.
      - eexists _, n, []. rewrite app_nil_r. cbn. split; [reflexivity|]. repeat split; lia.
      - destruct out as [[[[def [sas|]]|]]|];
          try (eexists _, n, []; rewrite app_nil_r; cbn; split; [reflexivity|];
               repeat split; lia).
        destruct (Read_trace conn (SetId (aws.ToString (servicecatalog.Id sas)) d)
                    (w ++ repeat (CreateServiceAction input) n)) as (r & ->).
        eexists r, n, [_]. split; [reflexivity|]. cbn. repeat split; lia. }
    destruct (tfresource.TimedOut err).
    + unfold createAttempt, remote. cbv beta iota.
      eapply (Hafter (S k) _ (conn_CreateServiceAction conn _ input)); [|exact Hn].
      rewrite <- app_assoc. by rewrite repeat_snoc.
    + unfold ret at 1. cbv beta iota.
      eapply (Hafter k _ (output, err)); [reflexivity|exact Hn].
  - intros def Hdef. unfold resourceServiceActionUpdate. unfold bind at 1, lift at 1.
    rewrite Hdef. cbv zeta. set (input := updateInput d def).
    unfold bind at 1.
    destruct (updateRetry_attempts conn (d_TimeoutUpdate d) input w)
      as (err & k & -> & Hk & Hk0).
    assert (Hn := final_attempt_count k _ err Hk Hk0).
    unfold bind at 1.
    assert (Hafter : forall n w1 (err : option error),
              w1 = w ++ repeat (UpdateServiceAction input) n ->
              1 <= n <= S (d_TimeoutUpdate d) ->
              exists r n' rest,
                (match err with
                 | Some e =>
                     ret ([ErrorDiagnostic "updating Service Catalog Service Action" (Some e)], d)
                 | None => resourceServiceActionRead conn d
                 end) w1
                = (Return r, (w ++ repeat (UpdateServiceAction input) n') ++ rest)
                /\ 1 <= n' <= S (d_TimeoutUpdate d)
                /\ mutatingCalls rest = 0 /\ length rest <= 1).
    { intros n w1 [e|] -> Hle.
      - eexists _, n, []. rewrite app_nil_r. cbn. split; [reflexivity|]. repeat split; lia.
      - destruct (Read_trace conn d (w ++ repeat (UpdateServiceAction input) n)) as (r & ->).
        eexists r, n, [_]. split; [reflexivity|]. cbn. repeat split; lia. }
    destruct (tfresource.TimedOut err).
    + unfold updateAttempt, remote. cbv beta iota. eapply Hafter; [|exact Hn].
      rewrite <- app_assoc. by rewrite repeat_snoc.
    + unfold ret at 1. cbv beta iota. eapply Hafter; [reflexivity|exact Hn].
  - unfold resourceServiceActionDelete, aws.String. cbv zeta.
    set (input := Some (d_Id d)). unfold bind at 1.
    destruct (deleteRetry_attempts conn (d_TimeoutDelete d) input w)
      as (err & k & -> & Hk & Hk0).
    assert (Hn := final_attempt_count k _ err Hk Hk0).
    unfold bind at 1.
    assert (Hafter : forall n w1 (err : option error),
              w1 = w ++ repeat (DeleteServiceAction input) n ->
              1 <= n <= S (d_TimeoutDelete d) ->
              exists r n' rest,
                (if errs.IsA ResourceNotFoundException err then ret []
                 else
                   match err with
                   | Some e =>
                       ret [ErrorDiagnostic "deleting Service Catalog Service Action" (Some e)]
                   | None =>
                       err <- remote (ServiceActionDeleted (accept_language (d_values d)) (d_Id d))
                                (fun n => conn_WaitServiceActionDeleted conn n
                                            (accept_language (d_values d)) (d_Id d)) ;;
                       match err with
                       | Some e =>
                           ret [ErrorDiagnostic
                                  "waiting for Service Catalog Service Action to be deleted"
                                  (Some e)]
                       | None => ret []
                       end
                   end) w1
                = (Return r, (w ++ repeat (DeleteServiceAction input) n') ++ rest)
                /\ 1 <= n' <= S (d_TimeoutDelete d)
                /\ mutatingCalls rest = 0 /\ length rest <= 1).
    { intros n w1 err' -> Hle. destruct (errs.IsA ResourceNotFoundException err').
      - eexists _, n, []. rewrite app_nil_r. cbn. split; [reflexivity|]. repeat split; lia.
      - destruct err' as [e|].
        + eexists _, n, []. rewrite app_nil_r. cbn. split; [reflexivity|]. repeat split; lia.
        + unfold bind, remote.
          destruct (conn_WaitServiceActionDeleted conn _ _ _);
            eexists _, n, [_]; (split; [reflexivity|]); cbn; repeat split; lia. }
    destruct (tfresource.TimedOut err).
    + unfold deleteAttempt, remote. cbv beta iota. eapply Hafter; [|exact Hn].
      rewrite <- app_assoc. by rewrite repeat_snoc.
    + unfold ret at 1. cbv beta iota. eapply Hafter; [reflexivity|exact Hn].
Qed.



(** ** Errors and successes of the first attempt *)

(** One run of the retry loop that ends it: the attempt succeeded, or its
    error is not one that is retried. *)
Lemma retryLoop_first_run {St} (timeout : nat) (f : St -> M (St * option retry.RetryError))
    (s s' : St) (w w' : World) (rerr : option retry.RetryError) :
  f s w = (Return (s', rerr), w') ->
  match rerr with Some re => retry.Retryable re = false | None => True end ->
  retry.retryLoop (S timeout) f s None w
  = (Return (s', match rerr with Some re => Some (retry.Err re) | None => None end), w').
Proof.
  intros Hf Hre. cbn [retry.retryLoop]. unfold bind. rewrite Hf.
  destruct rerr as [re|]; [|reflexivity]. by rewrite Hre.
Qed.

(** X22. An error of the first attempt that is not one of the transient
    errors the operation retries on ends the operation with that error after
    this single call: Create and Update retry only on errors whose text
    holds "profile does not exist", Delete only on the in-use exception
    (its not-found exception ends it without error). The resource data are
    left as they were and no read follows. *)
Theorem other_errors_are_not_retried (conn : Conn) (uid : string) (d : ResourceData)
    (w : World) (e : error) :
  tfresource.TimedOut (Some e) = false ->
  (forall m output,
     definition0 d = Return m ->
     0 < d_TimeoutCreate d ->
     conn_CreateServiceAction conn (length w) (createInput uid d m) = (output, Some e) ->
     errs.Contains (Some e) "profile does not exist" = false ->
     resourceServiceActionCreate conn uid d w
     = (Return ([ErrorDiagnostic "creating Service Catalog Service Action" (Some e)], d),
        w ++ [CreateServiceAction (createInput uid d m)]))
  /\ (forall def,
        updateDefinition d = Return def ->
        0 < d_TimeoutUpdate d ->
        conn_UpdateServiceAction conn (length w) (updateInput d def) = Some e ->
        errs.Contains (Some e) "profile does not exist" = false ->
        resourceServiceActionUpdate conn d w
        = (Return ([ErrorDiagnostic "updating Service Catalog Service Action" (Some e)], d),
           w ++ [UpdateServiceAction (updateInput d def)]))
  /\ (0 < d_TimeoutDelete d ->
      conn_DeleteServiceAction conn (length w) (Some (d_Id d)) = Some e ->
      errs.IsA ResourceInUseException (Some e) = false ->
      resourceServiceActionDelete conn d w
      = (Return (if errs.IsA ResourceNotFoundException (Some e) then []
                 else [ErrorDiagnostic "deleting Service Catalog Service Action" (Some e)]),
         w ++ [DeleteServiceAction (Some (d_Id d))])).
Proof.
  intros Htimed. split; [|split].
  - intros m output Hm Hlt Hanswer Hcontains.
    unfold resourceServiceActionCreate. unfold bind at 1, lift at 1. rewrite Hm. cbv zeta.
    unfold bind at 1. unfold createRetry, retry.RetryContext.
    destruct (d_TimeoutCreate d) as [|t]; [lia|].
    erewrite retryLoop_first_run with (rerr := retry.NonRetryableError e);
      [| unfold bind, createAttempt, remote; rewrite Hanswer, Hcontains; reflexivity
       | reflexivity].
    cbn [retry.NonRetryableError retry.Err]. rewrite Htimed. reflexivity.
  - intros def Hdef Hlt Hanswer Hcontains.
    unfold resourceServiceActionUpdate. unfold bind at 1, lift at 1. rewrite Hdef. cbv zeta.
    unfold bind at 1. unfold updateRetry, retry.RetryContext.
    destruct (d_TimeoutUpdate d) as [|t]; [lia|].
    erewrite retryLoop_first_run with (rerr := retry.NonRetryableError e);
      [| unfold bind, updateAttempt, remote; rewrite Hanswer, Hcontains; reflexivity
       | reflexivity].
    cbn [retry.NonRetryableError retry.Err]. rewrite Htimed. reflexivity.
  - intros Hlt Hanswer Hinuse.
    unfold resourceServiceActionDelete, aws.String. cbv zeta.
    unfold bind at 1. unfold deleteRetry, retry.RetryContext.
    destruct (d_TimeoutDelete d) as [|t]; [lia|].
    erewrite retryLoop_first_run with (rerr := retry.NonRetryableError e);
      [| unfold bind, deleteAttempt, remote; rewrite Hanswer, Hinuse; reflexivity
       | reflexivity].
    cbn [retry.NonRetryableError retry.Err]. rewrite Htimed. unfold bind, ret.
    by destruct (errs.IsA ResourceNotFoundException (Some e)).
Qed.

Lemma other_errors_are_not_retried_witness :
  resourceServiceActionCreate conn_down "id-1" action_unchanged []
  = (Return ([ErrorDiagnostic "creating Service Catalog Service Action" (Some unavailable)],
             action_unchanged),
     [] ++ [CreateServiceAction (createInput "id-1" action_unchanged action_unset)])
  /\ resourceServiceActionUpdate conn_down action_unchanged []
     = (Return ([ErrorDiagnostic "updating Service Catalog Service Action" (Some unavailable)],
                action_unchanged),
        [] ++ [UpdateServiceAction (updateInput action_unchanged None)])
  /\ resourceServiceActionDelete conn_down action_unchanged []
     = (Return (if errs.IsA ResourceNotFoundException (Some unavailable) then []
                else [ErrorDiagnostic "deleting Service Catalog Service Action"
                        (Some unavailable)]),
        [] ++ [DeleteServiceAction (Some (d_Id action_unchanged))]).
Proof.
  destruct (other_errors_are_not_retried conn_down "id-1" action_unchanged [] unavailable
              eq_refl) as (HC & HU & HD).
  split; [|split].
  - apply (HC action_unset None); [reflexivity|cbn; lia|reflexivity|reflexivity].
  - apply (HU None); [reflexivity|cbn; lia|reflexivity|reflexivity].
  - apply HD; [cbn; lia|reflexivity|reflexivity].
Defined.

(** X24. When the first attempt succeeds, within the deadline, Create
    records the identifier that the service returned and ends with the Read
    of the service action under that identifier; Update ends with the Read
    of the service action. In both the mutating call is made once. *)
Theorem success_is_read_back (conn : Conn) (uid : string) (d : ResourceData) (w : World) :
  (forall m detail sas,
     definition0 d = Return m ->
     0 < d_TimeoutCreate d ->
     conn_CreateServiceAction conn (length w) (createInput uid d m)
     = (Some {| servicecatalog.CreateOutput_ServiceActionDetail := Some detail |}, None) ->
     servicecatalog.ServiceActionSummary_ detail = Some sas ->
     resourceServiceActionCreate conn uid d w
     = resourceServiceActionRead conn (SetId (aws.ToString (servicecatalog.Id sas)) d)
         (w ++ [CreateServiceAction (createInput uid d m)]))
  /\ (forall def,
        updateDefinition d = Return def ->
        0 < d_TimeoutUpdate d ->
        conn_UpdateServiceAction conn (length w) (updateInput d def) = None ->
        resourceServiceActionUpdate conn d w
        = resourceServiceActionRead conn d (w ++ [UpdateServiceAction (updateInput d def)])).
Proof.
  split.
  - intros m detail sas Hm Hlt Hanswer Hsas.
    unfold resourceServiceActionCreate. unfold bind at 1, lift at 1. rewrite Hm. cbv zeta.
    unfold bind at 1. unfold createRetry, retry.RetryContext.
    destruct (d_TimeoutCreate d) as [|t]; [lia|].
    erewrite retryLoop_first_run with (rerr := None);
      [| unfold bind, createAttempt, remote; rewrite Hanswer; reflexivity | exact I].
    cbn [tfresource.TimedOut]. unfold bind, ret. destruct detail as [def sas'].
    cbn in Hsas. by rewrite Hsas.
  - intros def Hdef Hlt Hanswer.
    unfold resourceServiceActionUpdate. unfold bind at 1, lift at 1. rewrite Hdef. cbv zeta.
    unfold bind at 1. unfold updateRetry, retry.RetryContext.
    destruct (d_TimeoutUpdate d) as [|t]; [lia|].
    erewrite retryLoop_first_run with (rerr := None);
      [| unfold bind, updateAttempt, remote; rewrite Hanswer; reflexivity | exact I].
    cbn [tfresource.TimedOut]. reflexivity.
Qed.

Lemma success_is_read_back_witness :
  resourceServiceActionCreate conn_actions "id-1" action_new []
  = resourceServiceActionRead conn_actions
      (SetId (aws.ToString (servicecatalog.Id action_summary)) action_new)
      ([] ++ [CreateServiceAction (createInput "id-1" action_new action_set)])
  /\ resourceServiceActionUpdate conn_actions action_unchanged []
     = resourceServiceActionRead conn_actions action_unchanged
         ([] ++ [UpdateServiceAction (updateInput action_unchanged None)]).
Proof.
  destruct (success_is_read_back conn_actions "id-1" action_new []) as (HC & _).
  destruct (success_is_read_back conn_actions "id-1" action_unchanged []) as (_ & HU).
  split.
  - apply (HC action_set action_detail action_summary);
      [reflexivity|cbn; lia|reflexivity|reflexivity].
  - apply (HU None); [reflexivity|cbn; lia|reflexivity].
Defined.

(** ** The read of a service action *)

(** X23. The Read of a service action makes one call, the wait for the
    action to be ready, and never faults. It never changes the language or
    the prior values, reports at most one diagnostic, and when it reports one
    the resource data are left as they were. The identifier is kept, except
    that a not-found answer for a resource that is not new clears it, without
    diagnostic; for a new resource the same answer is an error. When the
    action is found, name and description are those of its summary and the
    definition is the flattened definition map, or no block when the map is
    nil. *)
Theorem resourceServiceActionRead_outcomes (conn : Conn) (d : ResourceData) (w : World) :
  let answer :=
    conn_WaitServiceActionReady conn (length w) (accept_language (d_values d)) (d_Id d) in
  exists diags d',
    resourceServiceActionRead conn d w
    = (Return (diags, d'),
       w ++ [ServiceActionReady (accept_language (d_values d)) (d_Id d)])
    /\ accept_language (d_values d') = accept_language (d_values d)
    /\ d_prior d' = d_prior d
    /\ length diags <= 1
    /\ (diags <> [] -> d' = d)
    /\ (tfresource.NotFound (snd answer) = true ->
        if d_IsNewResource d
        then exists e, snd answer = Some e
                       /\ diags = [ErrorDiagnostic "describing Service Catalog Service Action"
                                     (Some e)]
        else diags = [] /\ d' = SetId "" d)
    /\ (forall detail sas,
          answer = (Some detail, None) ->
          servicecatalog.ServiceActionSummary_ detail = Some sas ->
          diags = []
          /\ d_Id d' = d_Id d
          /\ name (d_values d') = aws.ToString (servicecatalog.Name sas)
          /\ description (d_values d') = aws.ToString (servicecatalog.Description sas)
          /\ definition (d_values d')
             = match flattenServiceActionDefinition (servicecatalog.Definition_ detail)
                       (aws.ToString (servicecatalog.DefinitionType sas)) with
               | Some m => [m]
               | None => []
               end).
Proof.
  cbv zeta. unfold resourceServiceActionRead, bind, remote.
  destruct (conn_WaitServiceActionReady conn (length w) _ _) as [output err].
  destruct (d_IsNewResource d) eqn:Hnew; cbn [negb andb snd].
  - destruct err as [e|].
    + eexists _, _. split; [reflexivity|]. cbn.
      split; [done|]. split; [done|]. split; [lia|]. split; [done|].
      split; [intros _; by exists e|]. intros detail sas [=].
    + cbn [tfresource.NotFound]. destruct output as [[def [sas|]]|];
        eexists _, _; (split; [reflexivity|]); cbn;
        (split; [done|]); (split; [done|]); (split; [lia|]); (split; [done|]);
        (split; [discriminate|]); intros detail sas' [= <-]; cbn; try discriminate.
      intros [= <-]. repeat split; try done. by destruct def.
  - destruct (tfresource.NotFound err) eqn:Hnf.
    + eexists _, _. split; [reflexivity|]. cbn.
      split; [done|]. split; [done|]. split; [lia|]. split; [done|].
      split; [done|]. intros detail sas Ha. injection Ha as -> ->. discriminate.
    + destruct err as [e|].
      * eexists _, _. split; [reflexivity|]. cbn.
        split; [done|]. split; [done|]. split; [lia|]. split; [done|].
        split; [discriminate|]. intros detail sas [=].
      * destruct output as [[def [sas|]]|];
          eexists _, _; (split; [reflexivity|]); cbn;
          (split; [done|]); (split; [done|]); (split; [lia|]); (split; [done|]);
          (split; [discriminate|]); intros detail sas' [= <-]; cbn; try discriminate.
        intros [= <-]. repeat split; try done. by destruct def.
Qed.

(** X25. [d.Get("definition")] is indexed at 0 without a check of its
    length. With no definition block Create faults before any call, and so
    does an Update whose definition changed; an Update whose definition did
    not change does not read the block and goes on to its update call. *)
Theorem no_definition_block_faults (conn : Conn) (uid : string) (d : ResourceData)
    (w : World) :
  definition (d_values d) = [] ->
  resourceServiceActionCreate conn uid d w = (Panic, w)
  /\ (HasChange_definition d = true -> resourceServiceActionUpdate conn d w = (Panic, w))
  /\ (HasChange_definition d = false ->
      exists r rest,
        resourceServiceActionUpdate conn d w
        = (Return r, w ++ UpdateServiceAction (updateInput d None) :: rest)).
Proof.
  intros Hdef. split; [|split].
  - unfold resourceServiceActionCreate, bind, lift, definition0. by rewrite Hdef.
  - intros Hc. unfold resourceServiceActionUpdate, bind, lift, updateDefinition, definition0.
    by rewrite Hc, Hdef.
  - intros Hc.
    assert (Hupd : updateDefinition d = Return None)
      by (unfold updateDefinition; by rewrite Hc).
    destruct (proj1 (proj2 (attempts_trace conn uid d w)) None Hupd)
      as (r & n & rest & -> & Hn & _).
    destruct n as [|n]; [lia|]. exists r, (repeat (UpdateServiceAction (updateInput d None)) n ++ rest).
    by rewrite <- app_assoc.
Qed.

Lemma no_definition_block_faults_witness :
  resourceServiceActionCreate conn_actions "id-1" action_no_definition [] = (Panic, [])
  /\ resourceServiceActionUpdate conn_actions action_no_definition [] = (Panic, []).
Proof.
  destruct (no_definition_block_faults conn_actions "id-1" action_no_definition [] eq_refl)
    as (HC & HU & _).
  split; [exact HC|]. apply HU. reflexivity.
Defined.

(** X26. Read gives the declared definition back: when the service
    returns, for an action it found, the definition map that expand builds
    from a block whose attributes are all non-empty strings, together with
    the type of that block, Read records exactly that block as the
    definition, without diagnostic. *)
Theorem Read_restores_declared_definition (conn : Conn) (d : ResourceData) (w : World)
    (m : gmap string any) (sas : servicecatalog.ServiceActionSummary) :
  definition_faithful m ->
  conn_WaitServiceActionReady conn (length w) (accept_language (d_values d)) (d_Id d)
  = (Some {| servicecatalog.Definition_ := expandServiceActionDefinition (Some m);
             servicecatalog.ServiceActionSummary_ := Some sas |}, None) ->
  aws.ToString (servicecatalog.DefinitionType sas) = definitionType m ->
  exists d',
    resourceServiceActionRead conn d w
    = (Return ([], d'), w ++ [ServiceActionReady (accept_language (d_values d)) (d_Id d)])
    /\ definition (d_values d') = [m]
    /\ d_Id d' = d_Id d.
Proof.
  intros Hm Hanswer Hty. unfold resourceServiceActionRead, bind, remote. rewrite Hanswer.
  cbn [tfresource.NotFound andb]. rewrite andb_false_r.
  rewrite Hty, (definition_round_trip m Hm).
  eexists. split; [reflexivity|]. split; reflexivity.
Qed.

Lemma Read_restores_declared_definition_witness :
  exists d',
    resourceServiceActionRead conn_actions action_unchanged []
    = (Return ([], d'),
       [] ++ [ServiceActionReady (accept_language (d_values action_unchanged))
                (d_Id action_unchanged)])
    /\ definition (d_values d') = [action_set]
    /\ d_Id d' = d_Id action_unchanged.
Proof.
  apply (Read_restores_declared_definition conn_actions action_unchanged [] action_set
           action_summary).
  - unfold definition_faithful. compute_done.
  - vm_compute. reflexivity.
  - reflexivity.
Defined.
